(** * generate_code.py: the performance-corpus generator, embedded and verified

    Shallow embedding of [src/performance/LargeMockCodebase/generate_code.py].
    The generator builds C# class texts from f-string templates, draws the
    violations of every orchestrator method with [random.sample], writes one
    file per class plus a summary, and prints two lines.

    - Text is [string] (bytes; the summary's multiplication sign is its
      UTF-8 encoding).
    - The process state is a record [world]: the pending draws of the random
      source, the file system as a [gmap] from path to content, and the lines
      printed so far.
    - Effects are threaded through a state-and-exception monad [M].
    - Counts ([method_count], loop indices) are [nat]: the program only
      passes non-negative integers.
    - Writing a file always succeeds: the generator assumes a writable
      output directory and handles no I/O error. *)

From Stdlib Require Import String Ascii DecimalString DecimalNat.
From stdpp Require Import gmap strings list fin_maps.

Local Open Scope string_scope.
Local Open Scope list_scope.
Local Open Scope nat_scope.

(** ** The Python runtime the program relies on *)

Module Py.

(** The two characters that cannot be written inside a literal here. *)
Definition nl : string := String (ascii_of_nat 10) EmptyString.
Definition dq : string := String (ascii_of_nat 34) EmptyString.

(** [str(i)] / [f"{i}"] for a non-negative integer. *)
Definition str (i : nat) : string := NilEmpty.string_of_uint (Nat.to_uint i).

(** [f"{i:03d}"]: decimal, padded on the left with zeros to width 3
    (longer numbers are not truncated). *)
Fixpoint zeros (n : nat) : string :=
  match n with
  | 0 => EmptyString
  | S n' => String "0" (zeros n')
  end.

Definition format_03d (i : nat) : string :=
  zeros (3 - String.length (str i)) +:+ str i.

(** [sep.join(parts)] is [String.concat sep parts]. *)
Definition join (sep : string) (parts : list string) : string :=
  String.concat sep parts.

(** [os.path.join(a, b)] on POSIX, two components. *)
Definition ends_with_slash (a : string) : bool :=
  match rev (list_ascii_of_string a) with
  | c :: _ => Ascii.eqb c "/"
  | [] => false
  end.

Definition path_join (a b : string) : string :=
  match b with
  | String "/" _ => b
  | _ =>
      match a with
      | EmptyString => b
      | _ => if ends_with_slash a then a +:+ b else a +:+ "/" +:+ b
      end
  end.

(** *** Process state and the effect monad *)

Record world := World {
  rng : list nat;               (* raw draws still to be consumed *)
  fs : gmap string string;      (* path -> content *)
  stdout : list string          (* printed lines, oldest first *)
}.

Inductive exn := ValueError | IndexError.

Inductive outcome (A : Type) :=
  | Ok (a : A) (w : world)
  | Raise (e : exn).
Arguments Ok {A} a w.
Arguments Raise {A} e.

Definition M (A : Type) : Type := world -> outcome A.

Definition ret {A} (a : A) : M A := fun w => Ok a w.

Definition bind {A B} (m : M A) (k : A -> M B) : M B :=
  fun w =>
    match m w with
    | Ok a w' => k a w'
    | Raise e => Raise e
    end.

Definition raise {A} (e : exn) : M A := fun _ => Raise e.

(** stdpp's monadic notation: [x ← m; k] and [m;; k]. *)
#[global] Instance M_ret : MRet M := @ret.
#[global] Instance M_bind : MBind M := λ A B k m, bind m k.

(** [for x in xs: acc = body(acc, x)], the accumulator standing for the
    local list the loop appends to. *)
Fixpoint for_each {A S} (xs : list A) (body : S -> A -> M S) (acc : S) : M S :=
  match xs with
  | [] => ret acc
  | x :: xs' => acc' ← body acc x; for_each xs' body acc'
  end.

Definition range (n : nat) : list nat := seq 0 n.

(** [with open(path, 'w') as f: f.write(content)]: the file is created or
    truncated and holds exactly [content] afterwards. *)
Definition write_file (path content : string) : M unit :=
  fun w => Ok tt (World (rng w) (<[path := content]> (fs w)) (stdout w)).

(** [print(line)] *)
Definition print (line : string) : M unit :=
  fun w => Ok tt (World (rng w) (fs w) (stdout w ++ [line])).

(** *** The [random] module

    The random source is a tape of raw draws; [_randbelow(n)] consumes one
    draw and reduces it into [0, n).  An exhausted tape keeps yielding 0, so
    every finite or infinite behaviour of the generator is the behaviour on
    some tape.  [_randbelow] is defined for [n > 0] only. *)
Definition randbelow (n : nat) : M nat :=
  fun w =>
    match n with
    | 0 => Raise ValueError
    | _ =>
        match rng w with
        | [] => Ok 0 w
        | r :: t => Ok (r mod n) (World t (fs w) (stdout w))
        end
    end.

(** [random.randint(a, b)] is [randrange(a, b + 1)]: [ValueError] on an empty
    range, else [a + _randbelow(b + 1 - a)]. *)
Definition randint (a b : nat) : M nat :=
  if decide (b < a) then raise ValueError
  else r ← randbelow (b + 1 - a); ret (a + r).

(** [random.sample(population, k)]: [ValueError] when [k] exceeds the
    population, else the pool algorithm of CPython, which it takes when the
    population has at most 21 elements and [k <= 5], the only way this
    program calls it (for larger populations CPython selects by rejection,
    with the same outcome: [k] distinct positions):
<<
    pool = list(population)
    for i in range(k):
        j = randbelow(n - i)
        result[i] = pool[j]
        pool[j] = pool[n - i - 1]
>>
    [result] is filled from index 0 upwards, so it is built by appending. *)
Fixpoint sample_pool {A} (n : nat) (idxs : list nat) (pool result : list A)
  : M (list A) :=
  match idxs with
  | [] => ret result
  | i :: idxs' =>
      j ← randbelow (n - i);
      match pool !! j, pool !! (n - i - 1) with
      | Some x, Some y => sample_pool n idxs' (<[j := y]> pool) (result ++ [x])
      | _, _ => raise IndexError
      end
  end.

Definition sample {A} (population : list A) (k : nat) : M (list A) :=
  let n := length population in
  if decide (n < k) then raise ValueError
  else sample_pool n (range k) population [].

End Py.

Import Py.

(** ** generate_code.py *)

(** The fixed catalog of [generate_orchestrator_violations]. *)
Definition violations : list string :=
  [ "DateTime.Now";
    "DateTime.UtcNow";
    "Guid.NewGuid()";
    "new Random().Next()";
    "Environment.GetEnvironmentVariable(" +:+ dq +:+ "TEST" +:+ dq +:+ ")";
    "Thread.Sleep(1000)";
    "Task.Delay(1000)";
    "File.ReadAllText(" +:+ dq +:+ "test.txt" +:+ dq +:+ ")";
    "HttpClient.GetAsync(" +:+ dq +:+ "https://example.com" +:+ dq +:+ ")";
    "Task.Run(() => {})" ].

(** [return random.sample(violations, k=random.randint(1, 4))] *)
Definition generate_orchestrator_violations : M (list string) :=
  k ← randint 1 4;
  sample violations k.

(** [f"var temp{j} = {v};"] *)
Definition temp_assignment (j : nat) (v : string) : string :=
  "var temp" +:+ str j +:+ " = " +:+ v +:+ ";".

(** ["\n        ".join([f"var temp{j} = {v};" for j, v in enumerate(vs)])] *)
Definition violation_code (vs : list string) : string :=
  join (nl +:+ "        ") (imap temp_assignment vs).

(** The method f-string of [generate_orchestrator] (source lines 35-48). *)
Definition orchestrator_method (class_name : string) (i : nat)
    (violation_code : string) : string :=
  nl +:+
  "    [FunctionName(" +:+ dq +:+ class_name +:+ "_Method" +:+ str i +:+ dq +:+ ")]" +:+ nl +:+
  "    public async Task<string> Method" +:+ str i +:+ "Async(" +:+ nl +:+
  "        [OrchestrationTrigger] IDurableOrchestrationContext context)" +:+ nl +:+
  "    {" +:+ nl +:+
  "        // Performance test method with violations" +:+ nl +:+
  "        " +:+ violation_code +:+ nl +:+
  "        " +:+ nl +:+
  "        // Call some activities" +:+ nl +:+
  "        await context.CallActivityAsync<string>(" +:+ dq +:+ "Activity" +:+ str (i mod 10) +:+ dq +:+ ", " +:+ dq +:+ "data" +:+ dq +:+ ");" +:+ nl +:+
  "        await context.CallActivityAsync<int>(" +:+ dq +:+ "CalculateActivity" +:+ dq +:+ ", i);" +:+ nl +:+
  "        " +:+ nl +:+
  "        return " +:+ dq +:+ "completed" +:+ dq +:+ ";" +:+ nl +:+
  "    }".

(** The class f-string of [generate_orchestrator] (source lines 51-67). *)
Definition orchestrator_class (namespace class_name : string)
    (methods : list string) : string :=
  nl +:+
  "using System;" +:+ nl +:+
  "using System.IO;" +:+ nl +:+
  "using System.Net.Http;" +:+ nl +:+
  "using System.Threading;" +:+ nl +:+
  "using System.Threading.Tasks;" +:+ nl +:+
  "using Microsoft.Azure.WebJobs;" +:+ nl +:+
  "using Microsoft.Azure.WebJobs.Extensions.DurableTask;" +:+ nl +:+
  "using Microsoft.Extensions.Logging;" +:+ nl +:+
  nl +:+
  "namespace " +:+ namespace +:+ nl +:+
  "{" +:+ nl +:+
  "    public class " +:+ class_name +:+ nl +:+
  "    {" +:+ join EmptyString methods +:+ nl +:+
  "    }" +:+ nl +:+
  "}" +:+ nl.

Definition generate_orchestrator (namespace class_name : string)
    (method_count : nat) : M string :=
  methods ←
    for_each (range method_count)
      (fun methods i =>
         vs ← generate_orchestrator_violations;
         let code := violation_code vs in
         let method := orchestrator_method class_name i code in
         ret (methods ++ [method]))
      [];
  ret (orchestrator_class namespace class_name methods).

(** The method f-string of [generate_activity] (source lines 74-89). *)
Definition activity_method (class_name : string) (i : nat) : string :=
  nl +:+
  "    [FunctionName(" +:+ dq +:+ class_name +:+ "_Activity" +:+ str i +:+ dq +:+ ")]" +:+ nl +:+
  "    public async Task<string> Activity" +:+ str i +:+ "Async([ActivityTrigger] string input, ILogger logger)" +:+ nl +:+
  "    {" +:+ nl +:+
  "        logger.LogInformation($" +:+ dq +:+ "Processing {input} in activity " +:+ str i +:+ dq +:+ ");" +:+ nl +:+
  "        " +:+ nl +:+
  "        // Simulate work" +:+ nl +:+
  "        await Task.Delay(Random.Shared.Next(10, 100));" +:+ nl +:+
  "        " +:+ nl +:+
  "        // Activities can use non-deterministic operations" +:+ nl +:+
  "        var timestamp = DateTime.Now;" +:+ nl +:+
  "        var guid = Guid.NewGuid();" +:+ nl +:+
  "        var env = Environment.GetEnvironmentVariable(" +:+ dq +:+ "PATH" +:+ dq +:+ ");" +:+ nl +:+
  "        " +:+ nl +:+
  "        return $" +:+ dq +:+ "Activity" +:+ str i +:+ " result: {input}-{timestamp}-{guid}" +:+ dq +:+ ";" +:+ nl +:+
  "    }".

(** The class f-string of [generate_activity] (source lines 92-105). *)
Definition activity_class (namespace class_name : string)
    (methods : list string) : string :=
  nl +:+
  "using System;" +:+ nl +:+
  "using System.Threading.Tasks;" +:+ nl +:+
  "using Microsoft.Azure.WebJobs;" +:+ nl +:+
  "using Microsoft.Azure.WebJobs.Extensions.DurableTask;" +:+ nl +:+
  "using Microsoft.Extensions.Logging;" +:+ nl +:+
  nl +:+
  "namespace " +:+ namespace +:+ nl +:+
  "{" +:+ nl +:+
  "    public class " +:+ class_name +:+ nl +:+
  "    {" +:+ join EmptyString methods +:+ nl +:+
  "    }" +:+ nl +:+
  "}" +:+ nl.

Definition generate_activity (namespace class_name : string)
    (method_count : nat) : M string :=
  methods ←
    for_each (range method_count)
      (fun methods i =>
         let method := activity_method class_name i in
         ret (methods ++ [method]))
      [];
  ret (activity_class namespace class_name methods).

(** The method f-string of [generate_dtf_orchestrator] (source lines 115-126). *)
Definition dtf_method (i : nat) (violation_code : string) : string :=
  nl +:+
  "    public async Task<string> Method" +:+ str i +:+ "Async(TaskOrchestrationContext context)" +:+ nl +:+
  "    {" +:+ nl +:+
  "        // DTF performance test method with violations" +:+ nl +:+
  "        " +:+ violation_code +:+ nl +:+
  "        " +:+ nl +:+
  "        // Call some activities" +:+ nl +:+
  "        await context.CallActivityAsync<string>(" +:+ dq +:+ "DtfActivity" +:+ str (i mod 10) +:+ dq +:+ ", " +:+ dq +:+ "data" +:+ dq +:+ ");" +:+ nl +:+
  "        await context.CallActivityAsync<int>(" +:+ dq +:+ "DtfCalculateActivity" +:+ dq +:+ ", i);" +:+ nl +:+
  "        " +:+ nl +:+
  "        return " +:+ dq +:+ "dtf completed" +:+ dq +:+ ";" +:+ nl +:+
  "    }".

(** The class f-string of [generate_dtf_orchestrator] (source lines 129-143). *)
Definition dtf_class (namespace class_name : string)
    (methods : list string) : string :=
  nl +:+
  "using System;" +:+ nl +:+
  "using System.IO;" +:+ nl +:+
  "using System.Net.Http;" +:+ nl +:+
  "using System.Threading;" +:+ nl +:+
  "using System.Threading.Tasks;" +:+ nl +:+
  "using Microsoft.DurableTask;" +:+ nl +:+
  nl +:+
  "namespace " +:+ namespace +:+ nl +:+
  "{" +:+ nl +:+
  "    public class " +:+ class_name +:+ nl +:+
  "    {" +:+ join EmptyString methods +:+ nl +:+
  "    }" +:+ nl +:+
  "}" +:+ nl.

Definition generate_dtf_orchestrator (namespace class_name : string)
    (method_count : nat) : M string :=
  methods ←
    for_each (range method_count)
      (fun methods i =>
         vs ← generate_orchestrator_violations;
         let code := violation_code vs in
         let method := dtf_method i code in
         ret (methods ++ [method]))
      [];
  ret (dtf_class namespace class_name methods).

(** The summary f-string of [main] (source lines 184-195). *)
Definition summary_text (total_files total_methods : nat) : string :=
  nl +:+
  "// PERFORMANCE TEST CODEBASE SUMMARY" +:+ nl +:+
  "// Generated " +:+ str total_files +:+ " files with " +:+ str total_methods +:+ " total methods" +:+ nl +:+
  "//" +:+ nl +:+
  "// Azure Functions Orchestrators: 50 classes × 8 methods = 400 orchestrator methods" +:+ nl +:+
  "// Azure Functions Activities: 30 classes × 5 methods = 150 activity methods  " +:+ nl +:+
  "// DTF Core Orchestrators: 25 classes × 6 methods = 150 orchestrator methods" +:+ nl +:+
  "//" +:+ nl +:+
  "// Total orchestrator methods: 550 (should trigger analyzer rules)" +:+ nl +:+
  "// Total activity methods: 150 (should not trigger analyzer rules)" +:+ nl +:+
  "// Expected analyzer violations: ~2200-2750 (4-5 violations per orchestrator method)" +:+ nl.

(** [main()].  [output_dir] is [os.path.dirname(os.path.abspath(__file__))],
    the directory that holds the generator; it is the one input of a run
    besides the process state. *)
Definition main (output_dir : string) : M unit :=
  for_each (range 50)
    (fun _ i =>
       let namespace := "Performance.Azure.Batch" +:+ str (i / 10) in
       let class_name := "TestOrchestrator" +:+ format_03d i in
       content ← generate_orchestrator namespace class_name 8;
       let filename :=
         path_join output_dir ("Azure_Orchestrator_" +:+ format_03d i +:+ ".cs") in
       write_file filename content)
    tt;;
  for_each (range 30)
    (fun _ i =>
       let namespace := "Performance.Azure.Activities.Batch" +:+ str (i / 10) in
       let class_name := "TestActivity" +:+ format_03d i in
       content ← generate_activity namespace class_name 5;
       let filename :=
         path_join output_dir ("Azure_Activity_" +:+ format_03d i +:+ ".cs") in
       write_file filename content)
    tt;;
  for_each (range 25)
    (fun _ i =>
       let namespace := "Performance.DTF.Batch" +:+ str (i / 10) in
       let class_name := "DtfOrchestrator" +:+ format_03d i in
       content ← generate_dtf_orchestrator namespace class_name 6;
       let filename :=
         path_join output_dir ("DTF_Orchestrator_" +:+ format_03d i +:+ ".cs") in
       write_file filename content)
    tt;;
  let total_files := 50 + 30 + 25 in
  let total_methods := (50 * 8) + (30 * 5) + (25 * 6) in
  let summary := summary_text total_files total_methods in
  write_file (path_join output_dir "CodebaseSummary.txt") summary;;
  print ("Generated " +:+ str total_files +:+ " files with "
         +:+ str total_methods +:+ " total methods");;
  print "Expected ~2200-2750 analyzer violations to process".

(** ** Observations on runs and texts

    Derived data and observation functions used to state the properties:
    what a run is expected to write, and how generated text is searched,
    counted and read back. *)

(** *** What a run draws and writes *)

(** What every draw of [generate_orchestrator_violations] satisfies. *)
Definition bounded_sample (vs : list string) : Prop :=
  1 ≤ length vs ≤ 4 ∧ NoDup vs ∧ vs ⊆ violations.

(** The methods of an Azure orchestrator class, given the violations drawn
    for each method index. *)
Definition orchestrator_methods (class_name : string)
    (vss : list (list string)) : list string :=
  zip_with (λ i vs, orchestrator_method class_name i (violation_code vs))
    (range (length vss)) vss.

(** The methods of a DTF orchestrator class, likewise. *)
Definition dtf_methods (vss : list (list string)) : list string :=
  zip_with (λ i vs, dtf_method i (violation_code vs))
    (range (length vss)) vss.

(** The methods of an activity class. *)
Definition activity_methods (class_name : string) (n : nat) : list string :=
  map (activity_method class_name) (range n).

(** Writing a batch of files, first to last. *)
Definition write_all (files : list (string * string))
    (f : gmap string string) : gmap string string :=
  foldl (λ m pc, <[pc.1 := pc.2]> m) f files.

(** The file names of a run. *)
Definition azure_orchestrator_name (i : nat) : string :=
  "Azure_Orchestrator_" +:+ format_03d i +:+ ".cs".
Definition azure_activity_name (i : nat) : string :=
  "Azure_Activity_" +:+ format_03d i +:+ ".cs".
Definition dtf_orchestrator_name (i : nat) : string :=
  "DTF_Orchestrator_" +:+ format_03d i +:+ ".cs".
Definition summary_name : string := "CodebaseSummary.txt".

Definition class_names : list string :=
  (azure_orchestrator_name <$> range 50)
  ++ (azure_activity_name <$> range 30)
  ++ (dtf_orchestrator_name <$> range 25).

Definition corpus_names : list string := class_names ++ [summary_name].

(** The files of a run, given the violations drawn for each method of each
    orchestrator class. *)
Definition azure_orchestrator_file (output_dir : string) (i : nat)
    (vss : list (list string)) : string * string :=
  (path_join output_dir (azure_orchestrator_name i),
   orchestrator_class ("Performance.Azure.Batch" +:+ str (i / 10))
     ("TestOrchestrator" +:+ format_03d i)
     (orchestrator_methods ("TestOrchestrator" +:+ format_03d i) vss)).

Definition azure_activity_file (output_dir : string) (i : nat)
  : string * string :=
  (path_join output_dir (azure_activity_name i),
   activity_class ("Performance.Azure.Activities.Batch" +:+ str (i / 10))
     ("TestActivity" +:+ format_03d i)
     (activity_methods ("TestActivity" +:+ format_03d i) 5)).

Definition dtf_orchestrator_file (output_dir : string) (i : nat)
    (vss : list (list string)) : string * string :=
  (path_join output_dir (dtf_orchestrator_name i),
   dtf_class ("Performance.DTF.Batch" +:+ str (i / 10))
     ("DtfOrchestrator" +:+ format_03d i)
     (dtf_methods vss)).

Definition summary_file (output_dir : string) : string * string :=
  (path_join output_dir summary_name, summary_text 105 700).

(** The class files of a run, in the order [main] writes them. *)
Definition class_files (output_dir : string)
    (az dtf : list (list (list string))) : list (string * string) :=
  zip_with (azure_orchestrator_file output_dir) (range 50) az
  ++ (azure_activity_file output_dir <$> range 30)
  ++ zip_with (dtf_orchestrator_file output_dir) (range 25) dtf.

(** All writes of a run, in order. *)
Definition corpus_files (output_dir : string)
    (az dtf : list (list (list string))) : list (string * string) :=
  class_files output_dir az dtf ++ [summary_file output_dir].

(** The two lines [main] prints. *)
Definition report_lines : list string :=
  [ "Generated 105 files with 700 total methods";
    "Expected ~2200-2750 analyzer violations to process" ].

(** The violations of one orchestrator class: one bounded sample per method. *)
Definition class_draws (method_count : nat) (vss : list (list string)) : Prop :=
  length vss = method_count ∧ Forall bounded_sample vss.

(** *** Searching and counting in text *)

Module Text.

(** [starts_with p s]: [p] is a prefix of [s]. *)
Fixpoint starts_with (p s : string) : bool :=
  match p, s with
  | EmptyString, _ => true
  | String _ _, EmptyString => false
  | String a p', String b s' => Ascii.eqb a b && starts_with p' s'
  end.

(** Number of positions of [s] at which [p] occurs. *)
Fixpoint count_sub (p s : string) : nat :=
  match s with
  | EmptyString => 0
  | String _ s' => (if starts_with p s then 1 else 0) + count_sub p s'
  end.

(** [t] is a prefix of [p] and shorter than it. *)
Definition proper_prefix (t p : string) : bool :=
  starts_with t p && (String.length t <? String.length p).

(** Some non-empty suffix of [s] is a proper prefix of [p]: an occurrence of
    [p] could begin inside [s] and end beyond it. *)
Fixpoint overhang (p s : string) : bool :=
  match s with
  | EmptyString => false
  | String _ s' => proper_prefix s p || overhang p s'
  end.

(** [c] occurs in [s]. *)
Fixpoint has_char (c : ascii) (s : string) : bool :=
  match s with
  | EmptyString => false
  | String d s' => Ascii.eqb c d || has_char c s'
  end.

(** [s] neither contains [p] nor ends in a beginning of [p]. *)
Definition inert (p s : string) : bool :=
  (count_sub p s =? 0) && negb (overhang p s).

(** The text up to the first line break. *)
Fixpoint first_line (s : string) : string :=
  match s with
  | EmptyString => EmptyString
  | String c s' =>
      if Ascii.eqb c (ascii_of_nat 10) then EmptyString
      else String c (first_line s')
  end.

(** [s] without its first [n] characters. *)
Fixpoint skip (n : nat) (s : string) : string :=
  match n, s with
  | 0, _ => s
  | S _, EmptyString => EmptyString
  | S n', String _ s' => skip n' s'
  end.

(** The text that follows the first occurrence of [p] in [s]. *)
Fixpoint after (p s : string) : option string :=
  match s with
  | EmptyString => None
  | String _ s' =>
      if starts_with p s then Some (skip (String.length p) s) else after p s'
  end.

(** What follows the first occurrence of [p] on its line. *)
Definition rest_of_line (p s : string) : option string :=
  first_line <$> after p s.

(** [c] is a decimal digit. *)
Definition is_digit (c : ascii) : bool := has_char c "0123456789".

End Text.

Import Text.

(** *** Markers and observations on generated classes *)

(** The text that opens every method definition, every activity call and
    every delay in the generated C#. *)
Definition method_marker : string := "public async Task<string> ".
Definition call_marker : string := ".CallActivityAsync<".
Definition delay_marker : string := ".Delay(".
Definition next_marker : string := ".Next(".
Definition delay_literal : string := ".Delay(Random.Shared.Next(10, 100))".

(** No dot in [s], as in any C# identifier. *)
Definition dotless (s : string) : bool := negb (has_char "." s).

(** [p] cannot occur in, or straddle, an assignment block: it has a ['<'],
    which no assignment has, it has no [';'], with which every assignment
    ends, and the line separator is inert for it. *)
Definition code_safe (p : string) : bool :=
  has_char "<" p && negb (has_char ";" p) && inert p (nl +:+ "        ").

(** A name that does not begin with a slash. *)
Definition relative (b : string) : bool := negb (starts_with "/" b).

(** What [os.path.join] puts in front of a relative name. *)
Definition dir_prefix (a : string) : string :=
  match a with
  | EmptyString => EmptyString
  | _ => if ends_with_slash a then a else a +:+ "/"
  end.

(** Number of method headers in a text. *)
Definition count_methods (text : string) : nat := count_sub method_marker text.

(** Total number of method headers in a list of files. *)
Definition total_methods (files : list (string * string)) : nat :=
  sum_list ((λ pc, count_methods pc.2) <$> files).

(** The same total, read back from a file system at the given paths. *)
Definition methods_at (f : gmap string string) (paths : list string) : nat :=
  sum_list ((λ p, count_methods (default EmptyString (f !! p))) <$> paths).

(** The line break. *)
Definition newline : ascii := ascii_of_nat 10.

(** No line break in [s]. *)
Definition single_line (s : string) : bool := negb (has_char newline s).

(** The text that opens the namespace and the class declaration. *)
Definition namespace_marker : string := "namespace ".
Definition class_marker : string := "public class ".

(** The namespace a class text declares. *)
Definition declared_namespace (text : string) : option string :=
  rest_of_line namespace_marker text.

(** The class a class text declares. *)
Definition declared_class (text : string) : option string :=
  rest_of_line class_marker text.

(** The two activity calls of an orchestrator method, by result type. *)
Definition string_call_marker : string := ".CallActivityAsync<string>(".
Definition int_call_marker : string := ".CallActivityAsync<int>(".

(** A three-digit, zero-padded index: hundreds, tens, units. *)
Definition digit (d : nat) : ascii := ascii_of_nat (48 + d).

Definition three_digits (i : nat) : string :=
  String (digit (i / 100 mod 10))
    (String (digit (i / 10 mod 10))
       (String (digit (i mod 10)) EmptyString)).

(** The local a method binds its [j]-th violation to. *)
Definition local_name (j : nat) : string := "temp" +:+ str j.

(** [f"var temp{j} = {v};"], read as a declaration of [local_name j]. *)
Definition local_declaration (j : nat) (v : string) : string :=
  "var " +:+ local_name j +:+ " = " +:+ v +:+ ";".

(** [s] ends with [suffix]. *)
Definition ends_with (suffix s : string) : Prop := ∃ pre, s = pre +:+ suffix.

(** What precedes the assignment block of an Azure orchestrator method. *)
Definition orchestrator_method_head (class_name : string) (i : nat) : string :=
  nl +:+
  "    [FunctionName(" +:+ dq +:+ class_name +:+ "_Method" +:+ str i +:+ dq +:+ ")]" +:+ nl +:+
  "    public async Task<string> Method" +:+ str i +:+ "Async(" +:+ nl +:+
  "        [OrchestrationTrigger] IDurableOrchestrationContext context)" +:+ nl +:+
  "    {" +:+ nl +:+
  "        // Performance test method with violations" +:+ nl +:+
  "        ".

(** What precedes the assignment block of a DTF orchestrator method. *)
Definition dtf_method_head (i : nat) : string :=
  nl +:+
  "    public async Task<string> Method" +:+ str i +:+ "Async(TaskOrchestrationContext context)" +:+ nl +:+
  "    {" +:+ nl +:+
  "        // DTF performance test method with violations" +:+ nl +:+
  "        ".

(** The statement a method ends with, and the closing brace. *)
Definition return_statement (marker : string) : string :=
  nl +:+ "        return " +:+ dq +:+ marker +:+ dq +:+ ";" +:+ nl +:+ "    }".

(** What follows the header of the first method declared in a text. *)
Definition declared_method (text : string) : option string :=
  rest_of_line method_marker text.

(** The text that opens every violation assignment. *)
Definition assignment_marker : string := "var temp".

(** Number of violation assignments in a text. *)
Definition count_assignments (text : string) : nat :=
  count_sub assignment_marker text.

(** Number of violation assignments in the files at the given paths. *)
Definition assignments_at (f : gmap string string) (paths : list string)
  : nat :=
  sum_list ((λ p, count_assignments (default EmptyString (f !! p))) <$> paths).

(** [Random.Next(minValue, maxValue)] of .NET, which the activity text
    calls: a value from [minValue] up to, but not including, [maxValue];
    [r] is the raw draw of the .NET generator.  The generator of this
    repository never evaluates it, it only writes the call. *)
Definition dotnet_next (min_value max_value r : nat) : nat :=
  min_value + r mod (max_value - min_value).

(** Two class texts declare the same namespace and class and have the same
    number of methods. *)
Definition same_structure (text1 text2 : string) : Prop :=
  declared_namespace text1 = declared_namespace text2
  ∧ declared_class text1 = declared_class text2
  ∧ count_methods text1 = count_methods text2.

(** Two method texts declare the same method. *)
Definition same_declaration (method1 method2 : string) : Prop :=
  is_Some (declared_method method1)
  ∧ declared_method method1 = declared_method method2.

(** *** Nesting of brackets *)

(** The bracket that closes what [c] opens. *)
Definition closer (c : ascii) : option ascii :=
  if Ascii.eqb c "(" then Some ")"%char
  else if Ascii.eqb c "{" then Some "}"%char
  else if Ascii.eqb c "[" then Some "]"%char
  else None.

Definition is_closer (c : ascii) : bool :=
  Ascii.eqb c ")" || Ascii.eqb c "}" || Ascii.eqb c "]".

(** One pass over [s] with the closing brackets still awaited, innermost
    first: what is awaited at the end of [s], or [None] when a closing
    bracket arrives that is not the awaited one. *)
Fixpoint nesting (s : string) (awaited : list ascii) : option (list ascii) :=
  match s with
  | EmptyString => Some awaited
  | String c s' =>
      match closer c with
      | Some d => nesting s' (d :: awaited)
      | None =>
          if is_closer c then
            match awaited with
            | d :: awaited' =>
                if Ascii.eqb c d then nesting s' awaited' else None
            | [] => None
            end
          else nesting s' awaited
      end
  end.

(** Round, curly and square brackets of [s] are matched and nested. *)
Definition well_nested (s : string) : Prop := nesting s [] = Some [].

(** No bracket in [s]. *)
Definition bracket_free (s : string) : bool :=
  negb (has_char "(" s || has_char ")" s || has_char "{" s
        || has_char "}" s || has_char "[" s || has_char "]" s).

(** *** Function names *)

(** The text that opens every [FunctionName] attribute. *)
Definition function_marker : string := "[FunctionName(".

(** What follows each occurrence of [p] in [s] on its line, in the order
    of the occurrences. *)
Fixpoint lines_after (p s : string) : list string :=
  match s with
  | EmptyString => []
  | String _ s' =>
      (if starts_with p s
       then [first_line (skip (String.length p) s)] else [])
      ++ lines_after p s'
  end.

(** The [FunctionName] attributes of a text: for each, the rest of its
    line. *)
Definition function_attributes (text : string) : list string :=
  lines_after function_marker text.

(** The attributes in the files at the given paths. *)
Definition attributes_at (f : gmap string string) (paths : list string)
  : list string :=
  paths ≫= λ p, function_attributes (default EmptyString (f !! p)).

(** The rest of the attribute line that registers [name]. *)
Definition attribute_line (name : string) : string :=
  dq +:+ name +:+ dq +:+ ")]".

(** The attribute lines of the Azure orchestrator class and of the
    activity class of index [i]. *)
Definition azure_orchestrator_attributes (i : nat) : list string :=
  (λ m, attribute_line
          (("TestOrchestrator" +:+ format_03d i) +:+ "_Method" +:+ str m))
    <$> range 8.

Definition azure_activity_attributes (i : nat) : list string :=
  (λ m, attribute_line
          (("TestActivity" +:+ format_03d i) +:+ "_Activity" +:+ str m))
    <$> range 5.

Definition corpus_attributes : list string :=
  (range 50 ≫= azure_orchestrator_attributes)
  ++ (range 30 ≫= azure_activity_attributes).

(** *** Names and lines of the orchestrator texts *)

(** A character of a dotted C# name: a letter, a digit, a dot or an
    underscore. *)
Definition name_char (c : ascii) : bool :=
  let n := nat_of_ascii c in
  ((65 <=? n) && (n <=? 90)) || ((97 <=? n) && (n <=? 122))
  || ((48 <=? n) && (n <=? 57)) || (n =? 46) || (n =? 95).

(** A text made of such characters only. *)
Fixpoint dotted_name (s : string) : bool :=
  match s with
  | EmptyString => true
  | String c s' => name_char c && dotted_name s'
  end.

(** The text that opens a return statement, and the one that opens a
    comment. *)
Definition return_marker : string := "return ".
Definition comment_marker : string := "// ".

(** What follows [var temp] in the assignments of a list of violations,
    line by line. *)
Definition assignment_lines (vs : list string) : list string :=
  imap (λ j v, str j +:+ " = " +:+ v +:+ ";") vs.

(** ** Reasoning about runs *)

(** Running a bind whose first computation returns. *)
Lemma bind_Ok {A B} (m : M A) (k : A → M B) w a w' :
  m w = Ok a w' → (m ≫= k) w = k a w'.
Proof. intros H. unfold mbind, M_bind, bind. by rewrite H. Qed.

(** *** Sampling without replacement *)

Section sampling.
Context {A : Type}.
Implicit Types (pool result : list A) (t : list nat).

(** One draw: a position below the bound, taken from the tape alone. *)
Lemma randbelow_run (n : nat) t :
  0 < n →
  ∃ j t', j < n ∧ ∀ f o, randbelow n (World t f o) = Ok j (World t' f o).
Proof.
  intros Hn. destruct n as [|n]; [lia|].
  destruct t as [|r t].
  - exists 0, []. split; [lia|]. done.
  - exists (r mod S n), t. split; [apply Nat.mod_upper_bound; lia|]. done.
Qed.

(** Overwriting the drawn slot with the last live slot keeps the live
    prefix duplicate-free, removes the drawn element from it, and adds
    nothing new. *)
Lemma pool_step pool (m j : nat) x y :
  NoDup (take (S m) pool) →
  j < S m →
  pool !! j = Some x →
  pool !! m = Some y →
  NoDup (take m (<[j := y]> pool))
  ∧ (x ∉ take m (<[j := y]> pool))
  ∧ (take m (<[j := y]> pool) ⊆ take (S m) pool).
Proof.
  intros Hnd Hj Hx Hy.
  assert (Hlen : m < length pool) by (by eapply lookup_lt_Some).
  assert (∀ i z, take m (<[j := y]> pool) !! i = Some z →
            i < m ∧ ((i = j ∧ z = y) ∨ (i ≠ j ∧ pool !! i = Some z)))
    as Hlook.
  { intros i z Hi. apply lookup_take_Some in Hi as [Hi Him]. split; [done|].
    apply list_lookup_insert_Some in Hi as [(-> & -> & _)|[Hne Hi]]; auto. }
  assert (∀ a b z, a < S m → b < S m →
            pool !! a = Some z → pool !! b = Some z → a = b) as Hinj.
  { intros a b z Ha Hb Hza Hzb.
    apply (NoDup_lookup _ a b z Hnd); by rewrite lookup_take_lt. }
  split; [|split].
  - apply NoDup_alt. intros a b z Ha Hb.
    apply Hlook in Ha as [Ham Ha]. apply Hlook in Hb as [Hbm Hb].
    destruct Ha as [[-> ->]|[Haj Ha]], Hb as [[-> Hb]|[Hbj Hb]].
    + done.
    + assert (b = m) by (apply (Hinj b m y); [lia|lia|done|done]). lia.
    + subst z.
      assert (a = m) by (apply (Hinj a m y); [lia|lia|done|done]). lia.
    + apply (Hinj a b z); [lia|lia|done|done].
  - intros Hin. apply list_elem_of_lookup in Hin as [i Hi].
    apply Hlook in Hi as [Him [[-> ->]|[Hij Hi]]].
    + assert (j = m) by (apply (Hinj j m y); [lia|lia|done|done]). lia.
    + apply Hij. apply (Hinj i j x); [lia|lia|done|done].
  - intros z Hin. apply list_elem_of_lookup in Hin as [i Hi].
    apply Hlook in Hi as [Him [[-> ->]|[Hij Hi]]];
      apply list_elem_of_lookup.
    + exists m. by rewrite lookup_take_lt by lia.
    + exists i. by rewrite lookup_take_lt by lia.
Qed.

(** The selection loop, started at index [i] with [k] rounds to go. *)
Lemma sample_pool_run (n k : nat) : ∀ (i : nat) pool result t,
  i + k ≤ n →
  n ≤ length pool →
  NoDup (take (n - i) pool) →
  ∃ res t',
    length res = k ∧ NoDup res ∧ res ⊆ take (n - i) pool
    ∧ ∀ f o, sample_pool n (seq i k) pool result (World t f o)
             = Ok (result ++ res) (World t' f o).
Proof.
  induction k as [|k IH]; intros i pool result t Hik Hn Hnd.
  - exists [], t. split_and!; [done|constructor|set_solver|].
    intros f o. simpl. by rewrite app_nil_r.
  - destruct (randbelow_run (n - i) t) as (j & t1 & Hj & Hrun); [lia|].
    destruct (lookup_lt_is_Some_2 pool j) as [x Hx]; [lia|].
    destruct (lookup_lt_is_Some_2 pool (n - i - 1)) as [y Hy]; [lia|].
    replace (n - i) with (S (n - i - 1)) in Hnd, Hj by lia.
    destruct (pool_step pool (n - i - 1) j x y Hnd Hj Hx Hy)
      as (Hnd' & Hx' & Hsub).
    destruct (IH (S i) (<[j := y]> pool) (result ++ [x]) t1)
      as (res & t2 & Hlen & Hres & Hin & Hrest).
    { lia. } { by rewrite length_insert. }
    { by replace (n - S i) with (n - i - 1) by lia. }
    replace (n - S i) with (n - i - 1) in Hin by lia.
    exists (x :: res), t2. split_and!.
    + simpl. by rewrite Hlen.
    + constructor; [|done]. intros Hxr. by apply Hx', Hin.
    + replace (n - i) with (S (n - i - 1)) by lia.
      intros z Hz. apply elem_of_cons in Hz as [->|Hz].
      * apply list_elem_of_lookup. exists j. by rewrite lookup_take_lt by lia.
      * by apply Hsub, Hin.
    + intros f o. cbn [seq sample_pool].
      rewrite (bind_Ok _ _ _ _ _ (Hrun f o)), Hx, Hy, Hrest.
      by rewrite <- app_assoc.
Qed.

(** [random.sample] on a duplicate-free population: [k] distinct members,
    whenever [k] does not exceed the population. *)
Lemma sample_run (population : list A) (k : nat) t :
  k ≤ length population →
  NoDup population →
  ∃ res t',
    length res = k ∧ NoDup res ∧ res ⊆ population
    ∧ ∀ f o, sample population k (World t f o) = Ok res (World t' f o).
Proof.
  intros Hk Hnd. unfold sample, range.
  destruct (sample_pool_run (length population) k 0 population [] t)
    as (res & t' & Hlen & Hres & Hin & Hrun).
  { lia. } { lia. } { by rewrite Nat.sub_0_r, firstn_all. }
  rewrite Nat.sub_0_r, firstn_all in Hin.
  exists res, t'. split_and!; try done.
  intros f o. case_decide; [lia|]. apply Hrun.
Qed.
End sampling.

Lemma randint_run (a b : nat) (t : list nat) :
  a ≤ b →
  ∃ k t', a ≤ k ≤ b ∧ ∀ f o, randint a b (World t f o) = Ok k (World t' f o).
Proof.
  intros Hab. destruct (randbelow_run (b + 1 - a) t) as (r & t' & Hr & Hrun); [lia|].
  exists (a + r), t'. split; [lia|]. intros f o.
  unfold randint. case_decide; [lia|]. by rewrite (bind_Ok _ _ _ _ _ (Hrun f o)).
Qed.

Lemma violations_length : length violations = 10.
Proof. reflexivity. Qed.

Lemma violations_NoDup : NoDup violations.
Proof. refine (bool_decide_unpack _ _). by vm_compute. Qed.

Lemma generate_orchestrator_violations_run (t : list nat) :
  ∃ vs t',
    bounded_sample vs
    ∧ ∀ f o, generate_orchestrator_violations (World t f o)
             = Ok vs (World t' f o).
Proof.
  destruct (randint_run 1 4 t) as (k & t1 & Hk & Hrun1); [lia|].
  destruct (sample_run violations k t1) as (vs & t2 & Hlen & Hnd & Hin & Hrun2).
  { rewrite violations_length. lia. } { apply violations_NoDup. }
  exists vs, t2. split; [split_and!; try done; lia|].
  intros f o. unfold generate_orchestrator_violations.
  by rewrite (bind_Ok _ _ _ _ _ (Hrun1 f o)).
Qed.

(** *** The method loops *)

(** The violation lists drawn by a method loop are fixed by the tape alone;
    the loop body differs between the two orchestrator renderers only in the
    method template [mk]. *)
Lemma violation_loop_run (idxs : list nat) : ∀ (t : list nat),
  ∃ vss t',
    length vss = length idxs
    ∧ Forall bounded_sample vss
    ∧ ∀ (mk : nat → string → string) acc f o,
        for_each idxs
          (λ methods i,
             vs ← generate_orchestrator_violations;
             ret (methods ++ [mk i (violation_code vs)]))
          acc (World t f o)
        = Ok (acc ++ zip_with (λ i vs, mk i (violation_code vs)) idxs vss)
             (World t' f o).
Proof.
  induction idxs as [|i idxs IH]; intros t.
  - exists [], t. split_and!; [done|constructor|].
    intros mk acc f o. simpl. by rewrite app_nil_r.
  - destruct (generate_orchestrator_violations_run t) as (vs & t1 & Hvs & Hrun).
    destruct (IH t1) as (vss & t2 & Hlen & Hall & Hrest).
    exists (vs :: vss), t2. split_and!.
    + simpl. by rewrite Hlen.
    + by constructor.
    + intros mk acc f o. cbn [for_each zip_with].
      erewrite bind_Ok; [|by erewrite bind_Ok by apply Hrun].
      rewrite Hrest. by rewrite <- app_assoc.
Qed.

(** Both orchestrator renderers always return; on the same tape they draw
    the same violation lists and leave the same tape behind. *)
Lemma orchestrators_run (n : nat) (t : list nat) :
  ∃ vss t',
    length vss = n
    ∧ Forall bounded_sample vss
    ∧ ∀ namespace class_name f o,
        generate_orchestrator namespace class_name n (World t f o)
        = Ok (orchestrator_class namespace class_name
                (orchestrator_methods class_name vss))
             (World t' f o)
        ∧ generate_dtf_orchestrator namespace class_name n (World t f o)
          = Ok (dtf_class namespace class_name (dtf_methods vss))
               (World t' f o).
Proof.
  destruct (violation_loop_run (range n) t) as (vss & t' & Hlen & Hall & Hrun).
  unfold range in Hlen. rewrite length_seq in Hlen.
  exists vss, t'. split_and!; [done..|].
  intros namespace class_name f o.
  unfold generate_orchestrator, generate_dtf_orchestrator,
    orchestrator_methods, dtf_methods.
  rewrite Hlen. split.
  - by rewrite (bind_Ok _ _ _ _ _ (Hrun (orchestrator_method class_name) [] f o)).
  - by rewrite (bind_Ok _ _ _ _ _ (Hrun dtf_method [] f o)).
Qed.

Lemma activity_loop_run (class_name : string) (idxs : list nat) :
  ∀ acc w,
    for_each idxs
      (λ methods i, ret (methods ++ [activity_method class_name i])) acc w
    = Ok (acc ++ map (activity_method class_name) idxs) w.
Proof.
  induction idxs as [|i idxs IH]; intros acc w; simpl.
  - by rewrite app_nil_r.
  - erewrite bind_Ok by reflexivity.
    rewrite IH. by rewrite <- app_assoc.
Qed.

(** [generate_activity] returns its text and leaves the whole process state,
    the tape included, as it found it. *)
Lemma generate_activity_run (namespace class_name : string) (n : nat) w :
  generate_activity namespace class_name n w
  = Ok (activity_class namespace class_name (activity_methods class_name n)) w.
Proof.
  unfold generate_activity.
  by rewrite (bind_Ok _ _ _ _ _ (activity_loop_run class_name (range n) [] w)).
Qed.

(** *** The file loops of [main] *)

(** A loop that renders one text per index from the tape and writes it. *)
Lemma file_loop_run {D} (gen : nat → M string) (path : nat → string)
    (render : nat → D → string) (Q : D → Prop) :
  (∀ i t, ∃ d t', Q d ∧ ∀ f o,
      gen i (World t f o) = Ok (render i d) (World t' f o)) →
  ∀ (idxs : list nat) (t : list nat),
  ∃ ds t',
    length ds = length idxs
    ∧ Forall Q ds
    ∧ ∀ f o,
        for_each idxs
          (λ _ i, content ← gen i; write_file (path i) content)
          tt (World t f o)
        = Ok tt (World t'
                   (write_all (zip_with (λ i d, (path i, render i d)) idxs ds) f)
                   o).
Proof.
  intros Hgen. induction idxs as [|i idxs IH]; intros t.
  - exists [], t. by split_and!.
  - destruct (Hgen i t) as (d & t1 & Hd & Hrun).
    destruct (IH t1) as (ds & t2 & Hlen & Hall & Hrest).
    exists (d :: ds), t2. split_and!.
    + simpl. by rewrite Hlen.
    + by constructor.
    + intros f o. cbn [for_each zip_with].
      erewrite bind_Ok; [|by erewrite bind_Ok by apply Hrun].
      cbn [rng fs stdout]. by rewrite Hrest.
Qed.

(** A loop that writes one tape-independent text per index. *)
Lemma fixed_file_loop_run (gen : nat → M string) (path text : nat → string) :
  (∀ i w, gen i w = Ok (text i) w) →
  ∀ (idxs : list nat) t f o,
    for_each idxs
      (λ _ i, content ← gen i; write_file (path i) content)
      tt (World t f o)
    = Ok tt (World t (write_all (map (λ i, (path i, text i)) idxs) f) o).
Proof.
  intros Hgen. induction idxs as [|i idxs IH]; intros t f o; [done|].
  cbn [for_each map].
  erewrite bind_Ok; [|by erewrite bind_Ok by apply Hgen].
  cbn [rng fs stdout]. by rewrite IH.
Qed.

Lemma write_all_app files1 files2 (f : gmap string string) :
  write_all (files1 ++ files2) f = write_all files2 (write_all files1 f).
Proof. apply foldl_app. Qed.

(** [main] always returns.  It leaves the file system with the corpus
    written over it and the two report lines appended to the output; only
    the violation lists [az] and [dtf] depend on the tape. *)
Lemma main_run (output_dir : string) (t : list nat) :
  ∃ az dtf t',
    length az = 50 ∧ Forall (class_draws 8) az
    ∧ length dtf = 25 ∧ Forall (class_draws 6) dtf
    ∧ ∀ f o,
        main output_dir (World t f o)
        = Ok tt (World t'
                   (write_all (corpus_files output_dir az dtf) f)
                   (o ++ report_lines)).
Proof.
  destruct (file_loop_run
    (λ i, generate_orchestrator ("Performance.Azure.Batch" +:+ str (i / 10))
            ("TestOrchestrator" +:+ format_03d i) 8)
    (λ i, path_join output_dir ("Azure_Orchestrator_" +:+ format_03d i +:+ ".cs"))
    (λ i vss, (azure_orchestrator_file output_dir i vss).2)
    (class_draws 8)) with (idxs := range 50) (t := t)
    as (az & t1 & Haz & Hazall & Hrun1).
  { intros i t0. destruct (orchestrators_run 8 t0) as (vss & t0' & ? & ? & Hrun).
    exists vss, t0'. split; [done|]. intros f o. exact (proj1 (Hrun _ _ f o)). }
  destruct (file_loop_run
    (λ i, generate_dtf_orchestrator ("Performance.DTF.Batch" +:+ str (i / 10))
            ("DtfOrchestrator" +:+ format_03d i) 6)
    (λ i, path_join output_dir ("DTF_Orchestrator_" +:+ format_03d i +:+ ".cs"))
    (λ i vss, (dtf_orchestrator_file output_dir i vss).2)
    (class_draws 6)) with (idxs := range 25) (t := t1)
    as (dtf & t2 & Hdtf & Hdtfall & Hrun3).
  { intros i t0. destruct (orchestrators_run 6 t0) as (vss & t0' & ? & ? & Hrun).
    exists vss, t0'. split; [done|]. intros f o. exact (proj2 (Hrun _ _ f o)). }
  exists az, dtf, t2. split_and!; [done..|].
  intros f o. unfold main.
  erewrite bind_Ok by apply Hrun1.
  erewrite bind_Ok.
  2:{ apply (fixed_file_loop_run
        (λ i, generate_activity
                ("Performance.Azure.Activities.Batch" +:+ str (i / 10))
                ("TestActivity" +:+ format_03d i) 5)
        (λ i, path_join output_dir ("Azure_Activity_" +:+ format_03d i +:+ ".cs"))
        (λ i, (azure_activity_file output_dir i).2)).
      intros i w. apply generate_activity_run. }
  erewrite bind_Ok by apply Hrun3.
  erewrite bind_Ok by reflexivity.
  erewrite bind_Ok by reflexivity.
  unfold print, corpus_files, class_files. cbn [rng fs stdout].
  rewrite !write_all_app. do 2 f_equal.
  by rewrite <- app_assoc.
Qed.

(** ** Facts about searching and counting *)

Module TextFacts.

Lemma starts_with_app_l (p t u : string) :
  starts_with p t = true → starts_with p (t +:+ u) = true.
Proof.
  revert t. induction p as [|a p IH]; intros [|b t]; simpl; try done.
  intros [-> H]%andb_prop. by rewrite IH.
Qed.

Lemma starts_with_app_inv (p t u : string) :
  starts_with p (t +:+ u) = true →
  starts_with p t = true ∨ proper_prefix t p = true.
Proof.
  unfold proper_prefix.
  revert t. induction p as [|a p IH]; intros t; simpl; [by left|].
  destruct t as [|b t]; simpl; [by right|].
  intros [Hab H]%andb_prop. rewrite Hab. simpl.
  apply Ascii.eqb_eq in Hab as ->. rewrite Ascii.eqb_refl. simpl.
  destruct (IH t H) as [->|H']; [by left|right].
  apply andb_prop in H' as [-> H']. simpl.
  apply Nat.ltb_lt in H'. apply Nat.ltb_lt. lia.
Qed.

Lemma starts_with_app (p t u : string) :
  proper_prefix t p = false →
  starts_with p (t +:+ u) = starts_with p t.
Proof.
  intros Hpp. destruct (starts_with p (t +:+ u)) eqn:H.
  - apply starts_with_app_inv in H as [H|H]; congruence.
  - destruct (starts_with p t) eqn:H'; [|done].
    apply (starts_with_app_l _ _ u) in H'. congruence.
Qed.

(** Occurrences add up across a seam that no occurrence can straddle. *)
Lemma count_sub_app (p a b : string) :
  overhang p a = false →
  count_sub p (a +:+ b) = count_sub p a + count_sub p b.
Proof.
  induction a as [|c a IH]; [done|].
  intros [Hpp Hov]%orb_false_elim.
  change (String c a +:+ b) with (String c (a +:+ b)).
  cbn [count_sub].
  change (String c (a +:+ b)) with (String c a +:+ b).
  rewrite (starts_with_app _ _ _ Hpp), (IH Hov). lia.
Qed.

Lemma proper_prefix_app (t b p : string) :
  proper_prefix (t +:+ b) p = true → proper_prefix t p = true.
Proof.
  unfold proper_prefix. revert p. induction t as [|c t IH]; intros p; simpl.
  - intros [_ H]%andb_prop. apply Nat.ltb_lt in H.
    apply Nat.ltb_lt. lia.
  - destruct p as [|d p]; [done|]. simpl.
    intros [[-> H1]%andb_prop H2]%andb_prop. simpl.
    apply (IH p). rewrite H1. simpl.
    apply Nat.ltb_lt in H2. apply Nat.ltb_lt. lia.
Qed.

Lemma overhang_app (p a b : string) :
  overhang p a = false → overhang p b = false →
  overhang p (a +:+ b) = false.
Proof.
  intros Ha Hb. induction a as [|c a IH]; [done|].
  apply orb_false_elim in Ha as [Hpp Hov].
  change (String c a +:+ b) with (String c (a +:+ b)).
  cbn [overhang]. rewrite (IH Hov), orb_false_r.
  change (String c (a +:+ b)) with (String c a +:+ b).
  destruct (proper_prefix (String c a +:+ b) p) eqn:H; [|done].
  apply proper_prefix_app in H. congruence.
Qed.

Lemma inert_spec (p s : string) :
  inert p s = true ↔ count_sub p s = 0 ∧ overhang p s = false.
Proof.
  unfold inert. rewrite andb_true_iff, Nat.eqb_eq, negb_true_iff. done.
Qed.

Lemma inert_app (p a b : string) :
  inert p a = true → inert p b = true → inert p (a +:+ b) = true.
Proof.
  rewrite !inert_spec. intros [Ha1 Ha2] [Hb1 Hb2]. split.
  - rewrite count_sub_app by done. lia.
  - by apply overhang_app.
Qed.

(** A text without the first character of [p] is inert for [p]. *)
Lemma inert_absent (c : ascii) (p s : string) :
  has_char c s = false → inert (String c p) s = true.
Proof.
  intros H. apply inert_spec. induction s as [|d s IH]; [done|].
  simpl in H. apply orb_false_elim in H as [Hcd Hs].
  destruct (IH Hs) as [IH1 IH2]. split.
  - cbn [count_sub starts_with]. by rewrite Hcd, IH1.
  - cbn [overhang]. rewrite IH2, orb_false_r.
    unfold proper_prefix. cbn [starts_with].
    by rewrite Ascii.eqb_sym, Hcd.
Qed.

Lemma append_assoc (a b c : string) : (a +:+ b) +:+ c = a +:+ b +:+ c.
Proof.
  induction a as [|d a IH]; [done|].
  change (String d ((a +:+ b) +:+ c) = String d (a +:+ b +:+ c)).
  by f_equal.
Qed.

Lemma has_char_app (c : ascii) (a b : string) :
  has_char c (a +:+ b) = has_char c a || has_char c b.
Proof.
  induction a as [|d a IH]; [done|]. simpl. by rewrite IH, orb_assoc.
Qed.

Lemma inert_join (p sep : string) (xs : list string) :
  inert p sep = true →
  Forall (λ x, inert p x = true) xs →
  inert p (join sep xs) = true.
Proof.
  intros Hsep Hxs. induction Hxs as [|x xs Hx Hxs IH]; [done|].
  destruct xs as [|y xs]; [done|].
  change (join sep (x :: y :: xs)) with (x +:+ sep +:+ join sep (y :: xs)).
  by repeat apply inert_app.
Qed.

(** Occurrences in a concatenation of seam-safe parts. *)
Lemma count_sub_concat (p : string) (xs : list string) :
  Forall (λ x, overhang p x = false) xs →
  count_sub p (join EmptyString xs) = sum_list (count_sub p <$> xs)
  ∧ overhang p (join EmptyString xs) = false.
Proof.
  intros Hxs. induction Hxs as [|x xs Hx Hxs [IH1 IH2]]; [done|].
  destruct xs as [|y xs].
  - simpl. split; [lia|done].
  - change (join EmptyString (x :: y :: xs))
      with (x +:+ EmptyString +:+ join EmptyString (y :: xs)).
    change (EmptyString +:+ ?s) with s.
    split.
    + rewrite count_sub_app by done. rewrite IH1. done.
    + by apply overhang_app.
Qed.

(** An occurrence of [p] at the head of [s] puts every character of [p]
    into [s]. *)
Lemma starts_with_has_char (c : ascii) (p s : string) :
  starts_with p s = true → has_char c p = true → has_char c s = true.
Proof.
  revert s. induction p as [|a p IH]; intros [|b s]; simpl; try done.
  intros [Hab H]%andb_prop. apply Ascii.eqb_eq in Hab as ->.
  intros [->|Hc]%orb_prop; [done|]. by rewrite (IH s H Hc), orb_true_r.
Qed.

Lemma count_sub_excluded (c : ascii) (p s : string) :
  has_char c p = true → has_char c s = false → count_sub p s = 0.
Proof.
  intros Hp. induction s as [|d s IH]; [done|]. intros Hs.
  cbn [count_sub].
  destruct (starts_with p (String d s)) eqn:Hst.
  - apply (starts_with_has_char c) in Hst; congruence.
  - simpl in Hs. apply orb_false_elim in Hs as [_ Hs]. by rewrite IH.
Qed.

(** A text that ends in a character foreign to [p] cannot end in a
    beginning of [p]. *)
Lemma overhang_last (d : ascii) (p s : string) :
  has_char d p = false → overhang p (s +:+ String d EmptyString) = false.
Proof.
  intros Hd.
  assert (∀ t, proper_prefix (t +:+ String d EmptyString) p = false) as Hpp.
  { intros t. unfold proper_prefix.
    destruct (starts_with (t +:+ String d EmptyString) p) eqn:Hst; [|done].
    apply (starts_with_has_char d) in Hst; [congruence|].
    rewrite has_char_app. simpl. by rewrite Ascii.eqb_refl, orb_true_r. }
  induction s as [|c s IH].
  - change (proper_prefix (EmptyString +:+ String d EmptyString) p || false = false).
    by rewrite (Hpp EmptyString).
  - change (String c s +:+ String d EmptyString)
      with (String c (s +:+ String d EmptyString)).
    cbn [overhang]. rewrite IH, orb_false_r. apply (Hpp (String c s)).
Qed.

(** *** Locating text *)

Lemma starts_with_length (p s : string) :
  starts_with p s = true → String.length p ≤ String.length s.
Proof.
  revert s. induction p as [|a p IH]; intros [|b s]; simpl; try done; [lia|].
  intros [_ H]%andb_prop. apply IH in H. lia.
Qed.

Lemma skip_app (n : nat) (a b : string) :
  n ≤ String.length a → skip n (a +:+ b) = skip n a +:+ b.
Proof.
  revert a. induction n as [|n IH]; intros a Hn; [done|].
  destruct a as [|c a]; simpl in Hn; [lia|].
  change (skip n (a +:+ b) = skip n a +:+ b). apply IH. lia.
Qed.

Lemma after_length (p s r : string) :
  after p s = Some r → String.length p ≤ String.length s.
Proof.
  induction s as [|c s IH]; [done|]. cbn [after].
  destruct (starts_with p (String c s)) eqn:Hst.
  - intros _. by apply starts_with_length.
  - intros H%IH. simpl. lia.
Qed.

(** An occurrence found in [a] is still the first one in [a +:+ b]. *)
Lemma after_app_found (p a b r : string) :
  after p a = Some r → after p (a +:+ b) = Some (r +:+ b).
Proof.
  induction a as [|c a IH]; [done|].
  change (String c a +:+ b) with (String c (a +:+ b)).
  cbn [after]. change (String c (a +:+ b)) with (String c a +:+ b).
  destruct (starts_with p (String c a)) eqn:Hst.
  - intros [= <-]. rewrite (starts_with_app_l _ _ _ Hst).
    by rewrite skip_app by (by apply starts_with_length).
  - intros Ha. rewrite starts_with_app; [by rewrite Hst, (IH Ha)|].
    unfold proper_prefix. apply andb_false_iff. right.
    apply Nat.ltb_ge. apply after_length in Ha. simpl. lia.
Qed.

(** An inert text in front does not change what is found. *)
Lemma after_app_skip (p a b : string) :
  inert p a = true → after p (a +:+ b) = after p b.
Proof.
  intros [Hc Ho]%inert_spec. induction a as [|c a IH]; [done|].
  cbn [count_sub] in Hc. cbn [overhang] in Ho.
  apply orb_false_elim in Ho as [Hpp Ho].
  destruct (starts_with p (String c a)) eqn:Hst; [done|].
  change (String c a +:+ b) with (String c (a +:+ b)).
  cbn [after]. change (String c (a +:+ b)) with (String c a +:+ b).
  rewrite (starts_with_app _ _ _ Hpp), Hst. apply IH; [lia|done].
Qed.

Lemma first_line_prefix (a b : string) :
  has_char (ascii_of_nat 10) a = false →
  first_line (a +:+ b) = a +:+ first_line b.
Proof.
  induction a as [|c a IH]; intros Ha; [done|].
  change (String c a +:+ ?s) with (String c (a +:+ s)).
  cbn [has_char] in Ha. apply orb_false_elim in Ha as [Hc Ha].
  cbn [first_line]. rewrite Ascii.eqb_sym, Hc. by rewrite IH.
Qed.

Lemma append_nil_r (a : string) : a +:+ EmptyString = a.
Proof.
  induction a as [|c a IH]; [done|].
  change (String c (a +:+ EmptyString) = String c a). by f_equal.
Qed.

(** *** Decimal numerals *)

Lemma has_char_uint (c : ascii) (d : Decimal.uint) :
  is_digit c = false → has_char c (NilEmpty.string_of_uint d) = false.
Proof.
  unfold is_digit. simpl. rewrite !orb_false_iff.
  intros (?&?&?&?&?&?&?&?&?&?&_).
  induction d; simpl; rewrite ?orb_false_iff; done.
Qed.

Lemma has_char_str (c : ascii) (n : nat) :
  is_digit c = false → has_char c (str n) = false.
Proof. apply has_char_uint. Qed.

Lemma has_char_zeros (c : ascii) (n : nat) :
  is_digit c = false → has_char c (zeros n) = false.
Proof.
  unfold is_digit. simpl. rewrite !orb_false_iff. intros (H&_).
  induction n as [|n IH]; [done|]. simpl. by rewrite H, IH.
Qed.

Lemma has_char_format_03d (c : ascii) (n : nat) :
  is_digit c = false → has_char c (format_03d n) = false.
Proof.
  intros H. unfold format_03d.
  by rewrite has_char_app, has_char_zeros, has_char_str.
Qed.

(** [str] is one-to-one. *)
Lemma str_inj (i j : nat) : str i = str j → i = j.
Proof.
  unfold str. intros H.
  assert (Some (Nat.to_uint i) = Some (Nat.to_uint j)) as [= Hu].
  { by rewrite <- !NilEmpty.usu, H. }
  by rewrite <- (Unsigned.of_to i), <- (Unsigned.of_to j), Hu.
Qed.

End TextFacts.

Import TextFacts.

(** ** What the templates contain *)

Lemma inert_count (p s : string) : inert p s = true → count_sub p s = 0.
Proof. by intros [? _]%inert_spec. Qed.

Lemma inert_overhang (p s : string) : inert p s = true → overhang p s = false.
Proof. by intros [_ ?]%inert_spec. Qed.

Lemma inert_dotless (p s : string) :
  starts_with "." p = true → dotless s = true → inert p s = true.
Proof.
  destruct p as [|c p]; [done|]. cbn [starts_with]. rewrite andb_true_r.
  intros <-%Ascii.eqb_eq. unfold dotless. intros H%negb_true_iff.
  by apply inert_absent.
Qed.

Section markers.
Variable p : string.
Hypothesis p_head : ∃ c p', p = String c p' ∧ is_digit c = false.

Lemma inert_str (n : nat) : inert p (str n) = true.
Proof.
  destruct p_head as (c & p' & Hp & Hc). rewrite Hp.
  apply inert_absent. by apply has_char_str.
Qed.

Lemma inert_format_03d (n : nat) : inert p (format_03d n) = true.
Proof.
  destruct p_head as (c & p' & Hp & Hc). rewrite Hp.
  apply inert_absent. by apply has_char_format_03d.
Qed.

Hypothesis p_code : code_safe p = true.

Lemma inert_temp_assignment (j : nat) (v : string) :
  v ∈ violations → inert p (temp_assignment j v) = true.
Proof.
  intros Hv. unfold code_safe in p_code.
  rewrite !andb_true_iff, negb_true_iff in p_code.
  destruct p_code as ((Hlt & Hsemi) & _).
  apply inert_spec. split.
  - apply (count_sub_excluded "<"); [done|].
    unfold temp_assignment. rewrite !has_char_app, has_char_str by done.
    assert (forallb (λ v, negb (has_char "<" v)) violations = true) as Hcat
      by (by vm_compute).
    rewrite forallb_forall in Hcat.
    apply list_elem_of_In, Hcat, negb_true_iff in Hv. by rewrite Hv.
  - unfold temp_assignment.
    rewrite <- !append_assoc. by apply overhang_last.
Qed.

Lemma inert_violation_code (vs : list string) :
  vs ⊆ violations → inert p (violation_code vs) = true.
Proof.
  intros Hvs. unfold violation_code. apply inert_join.
  - unfold code_safe in p_code. rewrite !andb_true_iff in p_code.
    by destruct p_code as (_ & ?).
  - generalize temp_assignment, inert_temp_assignment. intros g Hg.
    revert g Hg. induction vs as [|v vs IH]; intros g Hg; [constructor|].
    cbn [imap]. constructor.
    + apply Hg, Hvs. left.
    + apply IH; [intros x Hx; apply Hvs; by right|]. intros j x Hx. by apply Hg.
Qed.
End markers.

(** Splitting a count over the pieces of a template: the seams are checked
    by evaluation for literal pieces and taken from the context for the
    variable ones. *)
Ltac seam_safe :=
  first [ assumption
        | match goal with H : ∀ n, overhang _ (str n) = false |- _ => apply H end
        | vm_compute; reflexivity ].

Ltac split_count :=
  rewrite !count_sub_app by seam_safe.

Ltac split_overhang :=
  repeat (apply overhang_app; [seam_safe|]); seam_safe.

Lemma method_marker_head :
  ∃ c p', method_marker = String c p' ∧ is_digit c = false.
Proof. by eexists _, _. Qed.
Lemma call_marker_head :
  ∃ c p', call_marker = String c p' ∧ is_digit c = false.
Proof. by eexists _, _. Qed.
Lemma delay_marker_head :
  ∃ c p', delay_marker = String c p' ∧ is_digit c = false.
Proof. by eexists _, _. Qed.
Lemma next_marker_head :
  ∃ c p', next_marker = String c p' ∧ is_digit c = false.
Proof. by eexists _, _. Qed.
Lemma delay_literal_head :
  ∃ c p', delay_literal = String c p' ∧ is_digit c = false.
Proof. by eexists _, _. Qed.

Lemma method_marker_code : code_safe method_marker = true.
Proof. by vm_compute. Qed.
Lemma call_marker_code : code_safe call_marker = true.
Proof. by vm_compute. Qed.

(** An Azure orchestrator method has two activity calls, whatever
    violations it embeds. *)
Lemma orchestrator_method_calls (class_name : string) (i : nat)
    (vs : list string) :
  dotless class_name = true →
  vs ⊆ violations →
  count_sub call_marker
    (orchestrator_method class_name i (violation_code vs)) = 2.
Proof.
  intros Hcls Hvs.
  apply (inert_dotless call_marker) in Hcls; [|done].
  apply inert_spec in Hcls as [Hc Hc'].
  destruct (proj1 (inert_spec _ _)
    (inert_violation_code _ call_marker_code _ Hvs))
    as [Hv Hv'].
  pose proof (λ n, inert_count _ _ (inert_str _ call_marker_head n)) as Hs.
  pose proof (λ n, inert_overhang _ _ (inert_str _ call_marker_head n)) as Hs'.
  unfold orchestrator_method. split_count.
  by rewrite Hc, Hv, !Hs.
Qed.

(** A DTF orchestrator method has two activity calls as well. *)
Lemma dtf_method_calls (i : nat) (vs : list string) :
  vs ⊆ violations →
  count_sub call_marker (dtf_method i (violation_code vs)) = 2.
Proof.
  intros Hvs.
  destruct (proj1 (inert_spec _ _)
    (inert_violation_code _ call_marker_code _ Hvs))
    as [Hv Hv'].
  pose proof (λ n, inert_count _ _ (inert_str _ call_marker_head n)) as Hs.
  pose proof (λ n, inert_overhang _ _ (inert_str _ call_marker_head n)) as Hs'.
  unfold dtf_method. split_count.
  by rewrite Hv, !Hs.
Qed.

(** An activity method has one delay, whose argument is the literal
    [Random.Shared.Next(10, 100)], no other call of [Next], and no activity
    call. *)
Lemma activity_method_delay (class_name : string) (i : nat) :
  dotless class_name = true →
  let method := activity_method class_name i in
  count_sub delay_marker method = 1
  ∧ count_sub delay_literal method = 1
  ∧ count_sub next_marker method = 1
  ∧ count_sub call_marker method = 0.
Proof.
  intros Hcls method. subst method.
  pose proof (inert_dotless delay_marker _ eq_refl Hcls) as [Hc1 Hc1']%inert_spec.
  pose proof (inert_dotless delay_literal _ eq_refl Hcls) as [Hc2 Hc2']%inert_spec.
  pose proof (inert_dotless next_marker _ eq_refl Hcls) as [Hc3 Hc3']%inert_spec.
  pose proof (inert_dotless call_marker _ eq_refl Hcls) as [Hc4 Hc4']%inert_spec.
  pose proof (λ n, inert_count _ _ (inert_str _ delay_marker_head n)) as Hs1.
  pose proof (λ n, inert_overhang _ _ (inert_str _ delay_marker_head n)) as Hs1'.
  pose proof (λ n, inert_count _ _ (inert_str _ delay_literal_head n)) as Hs2.
  pose proof (λ n, inert_overhang _ _ (inert_str _ delay_literal_head n)) as Hs2'.
  pose proof (λ n, inert_count _ _ (inert_str _ next_marker_head n)) as Hs3.
  pose proof (λ n, inert_overhang _ _ (inert_str _ next_marker_head n)) as Hs3'.
  pose proof (λ n, inert_count _ _ (inert_str _ call_marker_head n)) as Hs4.
  pose proof (λ n, inert_overhang _ _ (inert_str _ call_marker_head n)) as Hs4'.
  unfold activity_method. split_and!; split_count.
  - by rewrite Hc1, !Hs1.
  - by rewrite Hc2, !Hs2.
  - by rewrite Hc3, !Hs3.
  - by rewrite Hc4, !Hs4.
Qed.

(** *** Method headers *)

(** Every method template has exactly one header and cannot end in the
    beginning of another. *)
Lemma orchestrator_method_header (class_name : string) (i : nat)
    (vs : list string) :
  inert method_marker class_name = true →
  vs ⊆ violations →
  let method := orchestrator_method class_name i (violation_code vs) in
  count_sub method_marker method = 1 ∧ overhang method_marker method = false.
Proof.
  intros [Hc Hc']%inert_spec Hvs method. subst method.
  destruct (proj1 (inert_spec _ _)
    (inert_violation_code _ method_marker_code _ Hvs)) as [Hv Hv'].
  pose proof (λ n, inert_count _ _ (inert_str _ method_marker_head n)) as Hs.
  pose proof (λ n, inert_overhang _ _ (inert_str _ method_marker_head n)) as Hs'.
  unfold orchestrator_method. split.
  - split_count. by rewrite Hc, Hv, !Hs.
  - split_overhang.
Qed.

Lemma dtf_method_header (i : nat) (vs : list string) :
  vs ⊆ violations →
  let method := dtf_method i (violation_code vs) in
  count_sub method_marker method = 1 ∧ overhang method_marker method = false.
Proof.
  intros Hvs method. subst method.
  destruct (proj1 (inert_spec _ _)
    (inert_violation_code _ method_marker_code _ Hvs)) as [Hv Hv'].
  pose proof (λ n, inert_count _ _ (inert_str _ method_marker_head n)) as Hs.
  pose proof (λ n, inert_overhang _ _ (inert_str _ method_marker_head n)) as Hs'.
  unfold dtf_method. split.
  - split_count. by rewrite Hv, !Hs.
  - split_overhang.
Qed.

Lemma activity_method_header (class_name : string) (i : nat) :
  inert method_marker class_name = true →
  let method := activity_method class_name i in
  count_sub method_marker method = 1 ∧ overhang method_marker method = false.
Proof.
  intros [Hc Hc']%inert_spec method. subst method.
  pose proof (λ n, inert_count _ _ (inert_str _ method_marker_head n)) as Hs.
  pose proof (λ n, inert_overhang _ _ (inert_str _ method_marker_head n)) as Hs'.
  unfold activity_method. split.
  - split_count. by rewrite Hc, !Hs.
  - split_overhang.
Qed.

(** The headers of a class text are those of its methods. *)
Section class_headers.
Variables (namespace class_name : string) (methods : list string).
Hypothesis Hns : inert method_marker namespace = true.
Hypothesis Hcls : inert method_marker class_name = true.
Hypothesis Hms :
  Forall (λ m, count_sub method_marker m = 1
               ∧ overhang method_marker m = false) methods.

Lemma methods_headers :
  count_sub method_marker (join EmptyString methods) = length methods
  ∧ overhang method_marker (join EmptyString methods) = false.
Proof.
  destruct (count_sub_concat method_marker methods) as [Hsum Hov].
  { eapply Forall_impl; [exact Hms|]. by intros m [_ ?]. }
  split; [|done]. rewrite Hsum.
  rewrite (sum_list_fmap_same 1); [lia|].
  eapply Forall_impl; [exact Hms|]. by intros m [? _].
Qed.

Lemma orchestrator_class_headers :
  count_sub method_marker (orchestrator_class namespace class_name methods)
  = length methods.
Proof.
  destruct methods_headers as [Hm Hm'].
  apply inert_spec in Hns as [Hn Hn'], Hcls as [Hc Hc'].
  unfold orchestrator_class. split_count. rewrite Hn, Hc, Hm.
  vm_compute count_sub. lia.
Qed.

Lemma activity_class_headers :
  count_sub method_marker (activity_class namespace class_name methods)
  = length methods.
Proof.
  destruct methods_headers as [Hm Hm'].
  apply inert_spec in Hns as [Hn Hn'], Hcls as [Hc Hc'].
  unfold activity_class. split_count. rewrite Hn, Hc, Hm.
  vm_compute count_sub. lia.
Qed.

Lemma dtf_class_headers :
  count_sub method_marker (dtf_class namespace class_name methods)
  = length methods.
Proof.
  destruct methods_headers as [Hm Hm'].
  apply inert_spec in Hns as [Hn Hn'], Hcls as [Hc Hc'].
  unfold dtf_class. split_count. rewrite Hn, Hc, Hm.
  vm_compute count_sub. lia.
Qed.
End class_headers.

(** ** The file system after a run *)

Section file_system.
Implicit Types (files : list (string * string)) (f : gmap string string).

Lemma write_all_lookup_other files f (p : string) :
  p ∉ files.*1 → write_all files f !! p = f !! p.
Proof.
  revert f. induction files as [|[q c] files IH]; intros f Hp; [done|].
  rewrite fmap_cons, not_elem_of_cons in Hp. destruct Hp as [Hpq Hp].
  change (write_all ((q, c) :: files) f)
    with (write_all files (<[q := c]> f)).
  rewrite IH by done. by rewrite lookup_insert_ne.
Qed.

(** With pairwise distinct paths, every written file holds its content. *)
Lemma write_all_lookup files f (p c : string) :
  NoDup files.*1 → (p, c) ∈ files → write_all files f !! p = Some c.
Proof.
  revert f. induction files as [|[q d] files IH]; intros f Hnd Hin.
  - by apply elem_of_nil in Hin.
  - rewrite fmap_cons in Hnd. apply NoDup_cons in Hnd as [Hq Hnd].
    change (write_all ((q, d) :: files) f)
      with (write_all files (<[q := d]> f)).
    apply elem_of_cons in Hin as [[= -> ->]|Hin].
    + rewrite write_all_lookup_other by done. apply lookup_insert_eq.
    + by apply IH.
Qed.

Lemma write_all_dom files f :
  dom (write_all files f) = list_to_set files.*1 ∪ dom f.
Proof.
  revert f. induction files as [|[q d] files IH]; intros f.
  - simpl. by rewrite union_empty_l_L.
  - change (write_all ((q, d) :: files) f)
      with (write_all files (<[q := d]> f)).
    rewrite IH, dom_insert_L, fmap_cons, list_to_set_cons.
    apply set_eq. intros x. rewrite !elem_of_union. tauto.
Qed.
End file_system.

(** *** Paths *)

Lemma path_join_relative (a b : string) :
  relative b = true → path_join a b = dir_prefix a +:+ b.
Proof.
  unfold relative, path_join, dir_prefix. intros Hb%negb_true_iff.
  destruct b as [|c b].
  - destruct a as [|d a]; [done|]. destruct (ends_with_slash _); [done|].
    by rewrite append_assoc.
  - cbn [starts_with] in Hb. rewrite andb_true_r in Hb.
    destruct (Ascii.eqb_spec "/" c) as [<-|Hc]; [done|].
    assert (∀ X Y : string,
      match String c b with String "/" _ => X | _ => Y end = Y) as Hm.
    { intros X Y.
      destruct c as [[] [] [] [] [] [] [] []]; try reflexivity.
      by destruct Hc. }
    rewrite Hm. destruct a as [|d a]; [done|].
    destruct (ends_with_slash _); [done|]. by rewrite append_assoc.
Qed.

Lemma append_inj_l (a b c : string) : a +:+ b = a +:+ c → b = c.
Proof.
  induction a as [|d a IH]; [done|].
  change (String d (a +:+ b) = String d (a +:+ c) → b = c).
  intros [= H]. by apply IH.
Qed.

Lemma path_join_inj (a b c : string) :
  relative b = true → relative c = true →
  path_join a b = path_join a c → b = c.
Proof.
  intros Hb Hc. rewrite !path_join_relative by done. apply append_inj_l.
Qed.

Lemma corpus_names_relative : Forall (λ b, relative b = true) corpus_names.
Proof. refine (bool_decide_unpack _ _). by vm_compute. Qed.

Lemma corpus_names_NoDup : NoDup corpus_names.
Proof. refine (bool_decide_unpack _ _). by vm_compute. Qed.

(** No two artifacts of a run share a path. *)
Lemma corpus_paths_NoDup (output_dir : string) :
  NoDup (path_join output_dir <$> corpus_names).
Proof.
  apply NoDup_fmap_2_strong; [|apply corpus_names_NoDup].
  intros b c Hb Hc. pose proof corpus_names_relative as Hrel.
  rewrite Forall_forall in Hrel. apply path_join_inj; by apply Hrel.
Qed.

Lemma zip_with_fst_paths {D} (g : nat → string) (h : nat → D → string)
    (idxs : list nat) (ds : list D) :
  length ds = length idxs →
  (zip_with (λ i d, (g i, h i d)) idxs ds).*1 = g <$> idxs.
Proof.
  revert ds. induction idxs as [|i idxs IH]; intros [|d ds] Hlen;
    try done.
  simpl. f_equal. apply IH. by injection Hlen.
Qed.

Lemma corpus_files_paths (output_dir : string)
    (az dtf : list (list (list string))) :
  length az = 50 → length dtf = 25 →
  (corpus_files output_dir az dtf).*1 = path_join output_dir <$> corpus_names.
Proof.
  intros Haz Hdtf. unfold corpus_files, class_files, corpus_names, class_names.
  rewrite !fmap_app.
  rewrite (zip_with_fst_paths
    (λ i, path_join output_dir (azure_orchestrator_name i))
    (λ i vss, (azure_orchestrator_file output_dir i vss).2))
    by (by rewrite Haz).
  rewrite (zip_with_fst_paths
    (λ i, path_join output_dir (dtf_orchestrator_name i))
    (λ i vss, (dtf_orchestrator_file output_dir i vss).2))
    by (by rewrite Hdtf).
  rewrite <- !list_fmap_compose. by rewrite <- !app_assoc.
Qed.

(** ** Counting the methods of a run *)

(** The names [main] gives to namespaces and classes are inert for the
    method header. *)
Lemma numbered_name_inert (stem : string) (n : nat) :
  inert method_marker stem = true →
  inert method_marker (stem +:+ str n) = true
  ∧ inert method_marker (stem +:+ format_03d n) = true.
Proof.
  intros Hstem. split; apply inert_app; try done.
  - apply inert_str, method_marker_head.
  - apply inert_format_03d, method_marker_head.
Qed.

Lemma numbered_name_dotless (stem : string) (n : nat) :
  dotless stem = true → dotless (stem +:+ format_03d n) = true.
Proof.
  unfold dotless. rewrite !negb_true_iff, has_char_app. intros ->.
  by rewrite has_char_format_03d.
Qed.

Lemma length_orchestrator_methods (class_name : string)
    (vss : list (list string)) :
  length (orchestrator_methods class_name vss) = length vss.
Proof.
  unfold orchestrator_methods, range.
  by rewrite length_zip_with_r_eq by (by rewrite length_seq).
Qed.

Lemma length_dtf_methods (vss : list (list string)) :
  length (dtf_methods vss) = length vss.
Proof.
  unfold dtf_methods, range.
  by rewrite length_zip_with_r_eq by (by rewrite length_seq).
Qed.

Lemma length_activity_methods (class_name : string) (n : nat) :
  length (activity_methods class_name n) = n.
Proof. unfold activity_methods, range. by rewrite length_map, length_seq. Qed.

Lemma azure_orchestrator_file_methods (output_dir : string) (i n : nat)
    (vss : list (list string)) :
  class_draws n vss →
  count_methods (azure_orchestrator_file output_dir i vss).2 = n.
Proof.
  intros [Hlen Hvss]. unfold count_methods, azure_orchestrator_file. cbn [snd].
  destruct (numbered_name_inert "Performance.Azure.Batch" (i / 10) eq_refl)
    as [Hns _].
  destruct (numbered_name_inert "TestOrchestrator" i eq_refl) as [_ Hcls].
  rewrite orchestrator_class_headers;
    [by rewrite length_orchestrator_methods|exact Hns|exact Hcls|].
  unfold orchestrator_methods.
  eapply Forall_zip_with_snd; [|exact Hvss].
  apply Forall_forall. intros j _ vs (_ & _ & Hvs).
  by apply orchestrator_method_header.
Qed.

Lemma dtf_orchestrator_file_methods (output_dir : string) (i n : nat)
    (vss : list (list string)) :
  class_draws n vss →
  count_methods (dtf_orchestrator_file output_dir i vss).2 = n.
Proof.
  intros [Hlen Hvss]. unfold count_methods, dtf_orchestrator_file. cbn [snd].
  destruct (numbered_name_inert "Performance.DTF.Batch" (i / 10) eq_refl)
    as [Hns _].
  destruct (numbered_name_inert "DtfOrchestrator" i eq_refl) as [_ Hcls].
  rewrite dtf_class_headers;
    [by rewrite length_dtf_methods|exact Hns|exact Hcls|].
  unfold dtf_methods.
  eapply Forall_zip_with_snd; [|exact Hvss].
  apply Forall_forall. intros j _ vs (_ & _ & Hvs).
  by apply dtf_method_header.
Qed.

Lemma azure_activity_file_methods (output_dir : string) (i : nat) :
  count_methods (azure_activity_file output_dir i).2 = 5.
Proof.
  unfold count_methods, azure_activity_file. cbn [snd].
  destruct (numbered_name_inert "Performance.Azure.Activities.Batch"
              (i / 10) eq_refl) as [Hns _].
  destruct (numbered_name_inert "TestActivity" i eq_refl) as [_ Hcls].
  rewrite activity_class_headers;
    [apply length_activity_methods|exact Hns|exact Hcls|].
  unfold activity_methods. apply Forall_fmap, Forall_forall.
  intros j _. by apply activity_method_header.
Qed.

Lemma methods_at_files (f : gmap string string)
    (files : list (string * string)) :
  Forall (λ pc, f !! pc.1 = Some pc.2) files →
  methods_at f files.*1 = total_methods files.
Proof.
  unfold methods_at, total_methods.
  induction 1 as [|[p c] files Hpc _ IH]; [done|].
  rewrite !fmap_cons. cbn [sum_list fst snd]. simpl in Hpc.
  by rewrite Hpc, IH.
Qed.

Lemma methods_at_app (f : gmap string string) (paths1 paths2 : list string) :
  methods_at f (paths1 ++ paths2) = methods_at f paths1 + methods_at f paths2.
Proof.
  unfold methods_at. induction paths1 as [|p paths1 IH]; [done|].
  rewrite <- app_comm_cons, !fmap_cons. cbn [sum_list]. rewrite IH. lia.
Qed.

Section totals.
Variables (output_dir : string) (az dtf : list (list (list string))).
Hypothesis Haz : length az = 50.
Hypothesis Haz_draws : Forall (class_draws 8) az.
Hypothesis Hdtf : length dtf = 25.
Hypothesis Hdtf_draws : Forall (class_draws 6) dtf.

Lemma azure_orchestrator_total :
  total_methods (zip_with (azure_orchestrator_file output_dir) (range 50) az)
  = 50 * 8.
Proof.
  unfold total_methods. rewrite (sum_list_fmap_same 8).
  - rewrite length_zip_with_r_eq; [by rewrite Haz|].
    by rewrite Haz.
  - eapply Forall_zip_with_snd; [|exact Haz_draws].
    apply Forall_forall. intros i _ vss Hvss.
    by apply azure_orchestrator_file_methods.
Qed.

Lemma azure_activity_total :
  total_methods (azure_activity_file output_dir <$> range 30) = 30 * 5.
Proof.
  unfold total_methods. rewrite (sum_list_fmap_same 5).
  - by rewrite length_fmap.
  - apply Forall_fmap, Forall_forall. intros i _.
    apply azure_activity_file_methods.
Qed.

Lemma dtf_orchestrator_total :
  total_methods (zip_with (dtf_orchestrator_file output_dir) (range 25) dtf)
  = 25 * 6.
Proof.
  unfold total_methods. rewrite (sum_list_fmap_same 6).
  - rewrite length_zip_with_r_eq; [by rewrite Hdtf|].
    by rewrite Hdtf.
  - eapply Forall_zip_with_snd; [|exact Hdtf_draws].
    apply Forall_forall. intros i _ vss Hvss.
    by apply dtf_orchestrator_file_methods.
Qed.

(** Every file of the run holds its content once the run is over. *)
Lemma corpus_files_written (f : gmap string string) :
  Forall (λ pc, write_all (corpus_files output_dir az dtf) f !! pc.1
                = Some pc.2)
         (corpus_files output_dir az dtf).
Proof.
  apply Forall_forall. intros [p c] Hpc. apply write_all_lookup; [|done].
  rewrite corpus_files_paths by done. apply corpus_paths_NoDup.
Qed.
End totals.

(** ** Reading declarations and statements back from the text *)

(** Skipping the inert pieces in front of an occurrence, and collecting
    the pieces of a line; literal pieces are checked by evaluation. *)
Ltac skip_inert :=
  rewrite !after_app_skip
    by first [ assumption
             | match goal with
               | H : ∀ n, inert _ (str n) = true |- _ => apply H
               end
             | vm_compute; reflexivity ].

Ltac collect_line :=
  rewrite !first_line_prefix
    by first [ assumption
             | apply has_char_str; reflexivity
             | vm_compute; reflexivity ].

Lemma first_line_nl (b : string) : first_line (nl +:+ b) = EmptyString.
Proof. done. Qed.

Lemma class_marker_head :
  ∃ c p', class_marker = String c p' ∧ is_digit c = false.
Proof. by eexists _, _. Qed.

Section declarations.
Variables (namespace class_name : string) (methods : list string).
Hypothesis Hns : single_line namespace = true.

Lemma orchestrator_class_namespace :
  declared_namespace (orchestrator_class namespace class_name methods)
  = Some namespace.
Proof.
  apply negb_true_iff in Hns.
  unfold declared_namespace, rest_of_line, orchestrator_class. skip_inert.
  rewrite (after_app_found namespace_marker namespace_marker _
             EmptyString eq_refl).
  cbn [fmap option_fmap option_map].
  change (EmptyString +:+ ?s) with s.
  rewrite first_line_prefix, first_line_nl by done.
  by rewrite append_nil_r.
Qed.

Lemma activity_class_namespace :
  declared_namespace (activity_class namespace class_name methods)
  = Some namespace.
Proof.
  apply negb_true_iff in Hns.
  unfold declared_namespace, rest_of_line, activity_class. skip_inert.
  rewrite (after_app_found namespace_marker namespace_marker _
             EmptyString eq_refl).
  cbn [fmap option_fmap option_map].
  change (EmptyString +:+ ?s) with s.
  rewrite first_line_prefix, first_line_nl by done.
  by rewrite append_nil_r.
Qed.

Lemma dtf_class_namespace :
  declared_namespace (dtf_class namespace class_name methods)
  = Some namespace.
Proof.
  apply negb_true_iff in Hns.
  unfold declared_namespace, rest_of_line, dtf_class. skip_inert.
  rewrite (after_app_found namespace_marker namespace_marker _
             EmptyString eq_refl).
  cbn [fmap option_fmap option_map].
  change (EmptyString +:+ ?s) with s.
  rewrite first_line_prefix, first_line_nl by done.
  by rewrite append_nil_r.
Qed.

Hypothesis Hns' : inert class_marker namespace = true.
Hypothesis Hcls : single_line class_name = true.

Lemma orchestrator_class_name :
  declared_class (orchestrator_class namespace class_name methods)
  = Some class_name.
Proof.
  apply negb_true_iff in Hcls.
  unfold declared_class, rest_of_line, orchestrator_class. skip_inert.
  rewrite (after_app_found class_marker "    public class " _
             EmptyString eq_refl).
  cbn [fmap option_fmap option_map].
  change (EmptyString +:+ ?s) with s.
  rewrite first_line_prefix, first_line_nl by done.
  by rewrite append_nil_r.
Qed.

Lemma activity_class_name :
  declared_class (activity_class namespace class_name methods)
  = Some class_name.
Proof.
  apply negb_true_iff in Hcls.
  unfold declared_class, rest_of_line, activity_class. skip_inert.
  rewrite (after_app_found class_marker "    public class " _
             EmptyString eq_refl).
  cbn [fmap option_fmap option_map].
  change (EmptyString +:+ ?s) with s.
  rewrite first_line_prefix, first_line_nl by done.
  by rewrite append_nil_r.
Qed.

Lemma dtf_class_name :
  declared_class (dtf_class namespace class_name methods)
  = Some class_name.
Proof.
  apply negb_true_iff in Hcls.
  unfold declared_class, rest_of_line, dtf_class. skip_inert.
  rewrite (after_app_found class_marker "    public class " _
             EmptyString eq_refl).
  cbn [fmap option_fmap option_map].
  change (EmptyString +:+ ?s) with s.
  rewrite first_line_prefix, first_line_nl by done.
  by rewrite append_nil_r.
Qed.
End declarations.

Lemma string_call_marker_head :
  ∃ c p', string_call_marker = String c p' ∧ is_digit c = false.
Proof. by eexists _, _. Qed.
Lemma int_call_marker_head :
  ∃ c p', int_call_marker = String c p' ∧ is_digit c = false.
Proof. by eexists _, _. Qed.
Lemma string_call_marker_code : code_safe string_call_marker = true.
Proof. by vm_compute. Qed.
Lemma int_call_marker_code : code_safe int_call_marker = true.
Proof. by vm_compute. Qed.

(** The arguments of the two calls of an Azure orchestrator method. *)
Lemma orchestrator_method_call_lines (class_name : string) (i : nat)
    (vs : list string) :
  dotless class_name = true →
  vs ⊆ violations →
  let method := orchestrator_method class_name i (violation_code vs) in
  rest_of_line string_call_marker method
  = Some (dq +:+ "Activity" +:+ str (i mod 10) +:+ dq +:+ ", "
          +:+ dq +:+ "data" +:+ dq +:+ ");")
  ∧ rest_of_line int_call_marker method
    = Some (dq +:+ "CalculateActivity" +:+ dq +:+ ", i);").
Proof.
  intros Hcls Hvs method. subst method.
  pose proof (inert_dotless string_call_marker _ eq_refl Hcls) as Hc1.
  pose proof (inert_dotless int_call_marker _ eq_refl Hcls) as Hc2.
  pose proof (inert_violation_code _ string_call_marker_code _ Hvs) as Hv1.
  pose proof (inert_violation_code _ int_call_marker_code _ Hvs) as Hv2.
  pose proof (inert_str _ string_call_marker_head) as Hs1.
  pose proof (inert_str _ int_call_marker_head) as Hs2.
  unfold rest_of_line, orchestrator_method. split.
  - skip_inert.
    rewrite (after_app_found string_call_marker
      "        await context.CallActivityAsync<string>(" _ EmptyString eq_refl).
    cbn [fmap option_fmap option_map]. change (EmptyString +:+ ?s) with s.
    collect_line. by rewrite first_line_nl, append_nil_r.
  - skip_inert.
    rewrite (after_app_found int_call_marker
      "        await context.CallActivityAsync<int>(" _ EmptyString eq_refl).
    cbn [fmap option_fmap option_map]. change (EmptyString +:+ ?s) with s.
    collect_line. by rewrite first_line_nl.
Qed.

(** The arguments of the two calls of a DTF orchestrator method. *)
Lemma dtf_method_call_lines (i : nat) (vs : list string) :
  vs ⊆ violations →
  let method := dtf_method i (violation_code vs) in
  rest_of_line string_call_marker method
  = Some (dq +:+ "DtfActivity" +:+ str (i mod 10) +:+ dq +:+ ", "
          +:+ dq +:+ "data" +:+ dq +:+ ");")
  ∧ rest_of_line int_call_marker method
    = Some (dq +:+ "DtfCalculateActivity" +:+ dq +:+ ", i);").
Proof.
  intros Hvs method. subst method.
  pose proof (inert_violation_code _ string_call_marker_code _ Hvs) as Hv1.
  pose proof (inert_violation_code _ int_call_marker_code _ Hvs) as Hv2.
  pose proof (inert_str _ string_call_marker_head) as Hs1.
  pose proof (inert_str _ int_call_marker_head) as Hs2.
  unfold rest_of_line, dtf_method. split.
  - skip_inert.
    rewrite (after_app_found string_call_marker
      "        await context.CallActivityAsync<string>(" _ EmptyString eq_refl).
    cbn [fmap option_fmap option_map]. change (EmptyString +:+ ?s) with s.
    collect_line. by rewrite first_line_nl, append_nil_r.
  - skip_inert.
    rewrite (after_app_found int_call_marker
      "        await context.CallActivityAsync<int>(" _ EmptyString eq_refl).
    cbn [fmap option_fmap option_map]. change (EmptyString +:+ ?s) with s.
    collect_line. by rewrite first_line_nl.
Qed.

(** The argument of the delay of an activity method. *)
Lemma activity_method_delay_line (class_name : string) (i : nat) :
  dotless class_name = true →
  rest_of_line delay_marker (activity_method class_name i)
  = Some ("Random.Shared.Next(" +:+ str 10 +:+ ", " +:+ str 100 +:+ "));").
Proof.
  intros Hcls.
  pose proof (inert_dotless delay_marker _ eq_refl Hcls) as Hc.
  pose proof (inert_str _ delay_marker_head) as Hs.
  unfold rest_of_line, activity_method. skip_inert.
  rewrite (after_app_found delay_marker
    "        await Task.Delay(Random.Shared.Next(10, 100));" _
    "Random.Shared.Next(10, 100));" eq_refl).
  cbn [fmap option_fmap option_map].
  collect_line. by rewrite first_line_nl.
Qed.

(** ** The artifacts of a run *)

Lemma format_03d_three_digits (i : nat) :
  i < 1000 → format_03d i = three_digits i.
Proof.
  intros Hi.
  assert (Forall (λ i, format_03d i = three_digits i) (seq 0 1000)) as Hall.
  { refine (bool_decide_unpack _ _). by vm_compute. }
  rewrite Forall_forall in Hall. apply Hall, elem_of_seq. lia.
Qed.

Lemma batch_names_single_line (stem : string) (n : nat) :
  single_line stem = true →
  single_line (stem +:+ str n) = true
  ∧ single_line (stem +:+ format_03d n) = true.
Proof.
  unfold single_line. rewrite !negb_true_iff, !has_char_app. intros ->.
  by rewrite has_char_str, has_char_format_03d.
Qed.

Lemma numbered_name_inert_class (stem : string) (n : nat) :
  inert class_marker stem = true →
  inert class_marker (stem +:+ str n) = true.
Proof.
  intros Hstem. apply inert_app; [done|]. apply inert_str, class_marker_head.
Qed.

Section artifacts.
Variables (output_dir : string) (az dtf : list (list (list string))).
Hypothesis Haz : length az = 50.
Hypothesis Haz_draws : Forall (class_draws 8) az.
Hypothesis Hdtf : length dtf = 25.
Hypothesis Hdtf_draws : Forall (class_draws 6) dtf.
Variable f : gmap string string.

Local Abbreviation after_run :=
  (write_all (corpus_files output_dir az dtf) f).

Lemma corpus_lookup (p c : string) :
  (p, c) ∈ corpus_files output_dir az dtf → after_run !! p = Some c.
Proof.
  intros Hpc. apply write_all_lookup; [|done].
  rewrite corpus_files_paths by done. apply corpus_paths_NoDup.
Qed.

Lemma azure_orchestrator_written (i : nat) :
  i < 50 →
  ∃ vss, class_draws 8 vss
    ∧ after_run !! path_join output_dir (azure_orchestrator_name i)
      = Some (azure_orchestrator_file output_dir i vss).2.
Proof.
  intros Hi. destruct (lookup_lt_is_Some_2 az i) as [vss Hvss]; [lia|].
  exists vss. split; [by eapply Forall_lookup_1|].
  apply corpus_lookup. unfold corpus_files, class_files.
  rewrite !elem_of_app. do 2 left.
  apply elem_of_lookup_zip_with. exists i, i, vss.
  split_and!; [done| |done]. by apply (lookup_seq_lt 0).
Qed.

Lemma azure_activity_written (i : nat) :
  i < 30 →
  after_run !! path_join output_dir (azure_activity_name i)
  = Some (azure_activity_file output_dir i).2.
Proof.
  intros Hi. apply corpus_lookup. unfold corpus_files, class_files.
  rewrite !elem_of_app. left. right. left.
  apply (list_elem_of_fmap_2 (azure_activity_file output_dir)).
  apply elem_of_seq. lia.
Qed.

Lemma dtf_orchestrator_written (i : nat) :
  i < 25 →
  ∃ vss, class_draws 6 vss
    ∧ after_run !! path_join output_dir (dtf_orchestrator_name i)
      = Some (dtf_orchestrator_file output_dir i vss).2.
Proof.
  intros Hi. destruct (lookup_lt_is_Some_2 dtf i) as [vss Hvss]; [lia|].
  exists vss. split; [by eapply Forall_lookup_1|].
  apply corpus_lookup. unfold corpus_files, class_files.
  rewrite !elem_of_app. left. do 2 right.
  apply elem_of_lookup_zip_with. exists i, i, vss.
  split_and!; [done| |done]. by apply (lookup_seq_lt 0).
Qed.

Lemma summary_written :
  after_run !! path_join output_dir summary_name
  = Some (summary_text 105 700).
Proof.
  apply corpus_lookup. unfold corpus_files.
  rewrite elem_of_app. right. apply list_elem_of_singleton. done.
Qed.

Lemma corpus_dom :
  dom after_run
  = list_to_set (path_join output_dir <$> corpus_names) ∪ dom f.
Proof.
  by rewrite write_all_dom, corpus_files_paths.
Qed.

Lemma corpus_untouched (p : string) :
  p ∉ path_join output_dir <$> corpus_names → after_run !! p = f !! p.
Proof.
  intros Hp. apply write_all_lookup_other.
  by rewrite corpus_files_paths.
Qed.

(** Methods per profile and in total, read back from the file system. *)
Lemma corpus_methods :
  methods_at after_run
    (path_join output_dir <$> (azure_orchestrator_name <$> range 50)) = 50 * 8
  ∧ methods_at after_run
      (path_join output_dir <$> (azure_activity_name <$> range 30)) = 30 * 5
  ∧ methods_at after_run
      (path_join output_dir <$> (dtf_orchestrator_name <$> range 25)) = 25 * 6
  ∧ methods_at after_run (path_join output_dir <$> class_names) = 700.
Proof.
  pose proof (corpus_files_written output_dir az dtf Haz Hdtf f) as Hw.
  unfold corpus_files, class_files in Hw.
  rewrite !Forall_app in Hw. destruct Hw as ((Hw1 & Hw2 & Hw3) & _).
  apply methods_at_files in Hw1, Hw2, Hw3.
  rewrite (zip_with_fst_paths
    (λ i, path_join output_dir (azure_orchestrator_name i))
    (λ i vss, (azure_orchestrator_file output_dir i vss).2)) in Hw1
    by (by rewrite Haz).
  rewrite (zip_with_fst_paths
    (λ i, path_join output_dir (dtf_orchestrator_name i))
    (λ i vss, (dtf_orchestrator_file output_dir i vss).2)) in Hw3
    by (by rewrite Hdtf).
  rewrite <- list_fmap_compose in Hw2.
  rewrite azure_orchestrator_total in Hw1 by done.
  rewrite azure_activity_total in Hw2.
  rewrite dtf_orchestrator_total in Hw3 by done.
  assert (methods_at after_run
    (path_join output_dir <$> (azure_orchestrator_name <$> range 50))
    = 50 * 8) as E1 by (by rewrite <- list_fmap_compose).
  assert (methods_at after_run
    (path_join output_dir <$> (azure_activity_name <$> range 30))
    = 30 * 5) as E2 by (by rewrite <- list_fmap_compose).
  assert (methods_at after_run
    (path_join output_dir <$> (dtf_orchestrator_name <$> range 25))
    = 25 * 6) as E3 by (by rewrite <- list_fmap_compose).
  split_and!; try done.
  unfold class_names. rewrite !fmap_app, !methods_at_app, E1, E2, E3. done.
Qed.
End artifacts.

(** What each class file declares. *)
Lemma azure_orchestrator_file_declares (output_dir : string) (i : nat)
    (vss : list (list string)) :
  let text := (azure_orchestrator_file output_dir i vss).2 in
  declared_namespace text = Some ("Performance.Azure.Batch" +:+ str (i / 10))
  ∧ declared_class text = Some ("TestOrchestrator" +:+ format_03d i).
Proof.
  unfold azure_orchestrator_file. cbn [snd]. split.
  - apply orchestrator_class_namespace.
    exact (proj1 (batch_names_single_line "Performance.Azure.Batch" _ eq_refl)).
  - apply orchestrator_class_name.
    + exact (numbered_name_inert_class "Performance.Azure.Batch" _ eq_refl).
    + exact (proj2 (batch_names_single_line "TestOrchestrator" _ eq_refl)).
Qed.

Lemma azure_activity_file_declares (output_dir : string) (i : nat) :
  let text := (azure_activity_file output_dir i).2 in
  declared_namespace text
  = Some ("Performance.Azure.Activities.Batch" +:+ str (i / 10))
  ∧ declared_class text = Some ("TestActivity" +:+ format_03d i).
Proof.
  unfold azure_activity_file. cbn [snd]. split.
  - apply activity_class_namespace.
    exact (proj1 (batch_names_single_line "Performance.Azure.Activities.Batch" _ eq_refl)).
  - apply activity_class_name.
    + exact (numbered_name_inert_class "Performance.Azure.Activities.Batch" _ eq_refl).
    + exact (proj2 (batch_names_single_line "TestActivity" _ eq_refl)).
Qed.

Lemma dtf_orchestrator_file_declares (output_dir : string) (i : nat)
    (vss : list (list string)) :
  let text := (dtf_orchestrator_file output_dir i vss).2 in
  declared_namespace text = Some ("Performance.DTF.Batch" +:+ str (i / 10))
  ∧ declared_class text = Some ("DtfOrchestrator" +:+ format_03d i).
Proof.
  unfold dtf_orchestrator_file. cbn [snd]. split.
  - apply dtf_class_namespace.
    exact (proj1 (batch_names_single_line "Performance.DTF.Batch" _ eq_refl)).
  - apply dtf_class_name.
    + exact (numbered_name_inert_class "Performance.DTF.Batch" _ eq_refl).
    + exact (proj2 (batch_names_single_line "DtfOrchestrator" _ eq_refl)).
Qed.

(** [main] on any process state. *)
Lemma main_outcome (output_dir : string) (w : world) :
  ∃ az dtf t',
    length az = 50 ∧ Forall (class_draws 8) az
    ∧ length dtf = 25 ∧ Forall (class_draws 6) dtf
    ∧ main output_dir w
      = Ok tt (World t'
                 (write_all (corpus_files output_dir az dtf) (fs w))
                 (stdout w ++ report_lines)).
Proof.
  destruct w as [t f o].
  destruct (main_run output_dir t) as (az & dtf & t' & ? & ? & ? & ? & Hrun).
  exists az, dtf, t'. by split_and!.
Qed.

(** ** The shape of an orchestrator method *)

Lemma temp_assignment_declares (j : nat) (v : string) :
  temp_assignment j v = local_declaration j v.
Proof. done. Qed.

Lemma local_name_inj (i j : nat) : local_name i = local_name j → i = j.
Proof. unfold local_name. intros H%append_inj_l. by apply str_inj. Qed.

Lemma local_names_NoDup (k : nat) : NoDup (local_name <$> seq 0 k).
Proof.
  apply NoDup_fmap_2_strong; [|apply NoDup_seq].
  intros i j _ _. apply local_name_inj.
Qed.

Lemma imap_zip_seq {A B} (g : nat → A → B) (l : list A) (a : nat) :
  imap (λ j, g (a + j)) l = zip_with g (seq a (length l)) l.
Proof.
  revert a. induction l as [|x l IH]; intros a; [done|].
  cbn [imap length seq zip_with]. rewrite Nat.add_0_r. f_equal.
  rewrite <- IH. apply imap_ext. intros j y _. simpl. f_equal. lia.
Qed.

(** The assignment block declares the locals [temp0], [temp1], ... in
    order, one per selected violation. *)
Lemma violation_code_declarations (vs : list string) :
  violation_code vs
  = join (nl +:+ "        ")
      (zip_with local_declaration (seq 0 (length vs)) vs).
Proof.
  unfold violation_code. f_equal.
  by rewrite <- (imap_zip_seq local_declaration vs 0).
Qed.

(** In an Azure orchestrator method the assignment block comes first: no
    activity call precedes it, and the method ends by returning the
    completion marker. *)
Lemma orchestrator_method_order (class_name : string) (i : nat)
    (code : string) :
  dotless class_name = true →
  ∃ rest,
    orchestrator_method class_name i code
    = orchestrator_method_head class_name i +:+ code +:+ rest
    ∧ count_sub call_marker (orchestrator_method_head class_name i) = 0
    ∧ ends_with (return_statement "completed") rest.
Proof.
  intros Hcls. eexists. split_and!.
  - unfold orchestrator_method, orchestrator_method_head.
    rewrite ?append_assoc. reflexivity.
  - apply (inert_dotless call_marker) in Hcls; [|done].
    apply inert_spec in Hcls as [Hc Hc'].
    pose proof (λ n, inert_count _ _ (inert_str _ call_marker_head n)) as Hs.
    pose proof (λ n, inert_overhang _ _ (inert_str _ call_marker_head n)) as Hs'.
    unfold orchestrator_method_head. split_count. by rewrite Hc, !Hs.
  - unfold ends_with, return_statement. eexists.
    rewrite <- ?append_assoc. reflexivity.
Qed.

Lemma dtf_method_order (i : nat) (code : string) :
  ∃ rest,
    dtf_method i code = dtf_method_head i +:+ code +:+ rest
    ∧ count_sub call_marker (dtf_method_head i) = 0
    ∧ ends_with (return_statement "dtf completed") rest.
Proof.
  eexists. split_and!.
  - unfold dtf_method, dtf_method_head.
    rewrite ?append_assoc. reflexivity.
  - pose proof (λ n, inert_count _ _ (inert_str _ call_marker_head n)) as Hs.
    pose proof (λ n, inert_overhang _ _ (inert_str _ call_marker_head n)) as Hs'.
    unfold dtf_method_head. split_count. by rewrite !Hs.
  - unfold ends_with, return_statement. eexists.
    rewrite <- ?append_assoc. reflexivity.
Qed.

(** ** Method declarations *)

Lemma orchestrator_method_name (class_name : string) (i : nat)
    (code : string) :
  inert method_marker class_name = true →
  declared_method (orchestrator_method class_name i code)
  = Some ("Method" +:+ str i +:+ "Async(").
Proof.
  intros Hcls.
  pose proof (inert_str _ method_marker_head) as Hs.
  unfold declared_method, rest_of_line, orchestrator_method. skip_inert.
  rewrite (after_app_found method_marker
    "    public async Task<string> Method" _ "Method" eq_refl).
  cbn [fmap option_fmap option_map].
  collect_line. by rewrite first_line_nl.
Qed.

Lemma dtf_method_name (i : nat) (code : string) :
  declared_method (dtf_method i code)
  = Some ("Method" +:+ str i +:+ "Async(TaskOrchestrationContext context)").
Proof.
  pose proof (inert_str _ method_marker_head) as Hs.
  unfold declared_method, rest_of_line, dtf_method. skip_inert.
  rewrite (after_app_found method_marker
    "    public async Task<string> Method" _ "Method" eq_refl).
  cbn [fmap option_fmap option_map].
  collect_line. by rewrite first_line_nl.
Qed.

Lemma activity_method_name (class_name : string) (i : nat) :
  inert method_marker class_name = true →
  declared_method (activity_method class_name i)
  = Some ("Activity" +:+ str i
          +:+ "Async([ActivityTrigger] string input, ILogger logger)").
Proof.
  intros Hcls.
  pose proof (inert_str _ method_marker_head) as Hs.
  unfold declared_method, rest_of_line, activity_method. skip_inert.
  rewrite (after_app_found method_marker
    "    public async Task<string> Activity" _ "Activity" eq_refl).
  cbn [fmap option_fmap option_map].
  collect_line. by rewrite first_line_nl.
Qed.

(** ** The methods of a class, one by one *)

(** The method of index [i] embeds the violations drawn for index [i]. *)
Lemma methods_lookup (mk : nat → string → string)
    (vss : list (list string)) (i : nat) (vs : list string) :
  vss !! i = Some vs →
  zip_with (λ i vs, mk i (violation_code vs)) (range (length vss)) vss !! i
  = Some (mk i (violation_code vs)).
Proof.
  intros Hvs. unfold range. rewrite lookup_zip_with.
  rewrite (lookup_seq_lt 0) by (by eapply lookup_lt_Some).
  by rewrite Hvs.
Qed.

Lemma methods_lookup_inv (mk : nat → string → string)
    (vss : list (list string)) (i : nat) (method : string) :
  zip_with (λ i vs, mk i (violation_code vs)) (range (length vss)) vss !! i
  = Some method →
  ∃ vs, method = mk i (violation_code vs).
Proof.
  unfold range.
  intros (j & vs & -> & Hj & Hvs)%lookup_zip_with_Some.
  exists vs. apply lookup_seq in Hj as [-> _]. done.
Qed.

Lemma orchestrator_methods_lookup (class_name : string)
    (vss : list (list string)) (i : nat) (vs : list string) :
  vss !! i = Some vs →
  orchestrator_methods class_name vss !! i
  = Some (orchestrator_method class_name i (violation_code vs)).
Proof. apply (methods_lookup (orchestrator_method class_name)). Qed.

Lemma dtf_methods_lookup (vss : list (list string)) (i : nat)
    (vs : list string) :
  vss !! i = Some vs →
  dtf_methods vss !! i = Some (dtf_method i (violation_code vs)).
Proof. apply (methods_lookup dtf_method). Qed.

(** ** Comparing two renderings of a class *)

(** Whatever violations were drawn, the methods of an Azure orchestrator
    class are declared under the same names, in the same order. *)
Lemma orchestrator_methods_same_names (class_name : string)
    (vss1 vss2 : list (list string)) :
  inert method_marker class_name = true →
  length vss1 = length vss2 →
  Forall2 same_declaration
    (orchestrator_methods class_name vss1)
    (orchestrator_methods class_name vss2).
Proof.
  intros Hcls Hlen. apply Forall2_same_length_lookup. split.
  - by rewrite !length_orchestrator_methods.
  - intros i m1 m2. unfold orchestrator_methods.
    intros [vs1 ->]%(methods_lookup_inv (orchestrator_method class_name))
           [vs2 ->]%(methods_lookup_inv (orchestrator_method class_name)).
    unfold same_declaration.
    rewrite !orchestrator_method_name by done. by split.
Qed.

Lemma dtf_methods_same_names (vss1 vss2 : list (list string)) :
  length vss1 = length vss2 →
  Forall2 same_declaration (dtf_methods vss1) (dtf_methods vss2).
Proof.
  intros Hlen. apply Forall2_same_length_lookup. split.
  - by rewrite !length_dtf_methods.
  - intros i m1 m2. unfold dtf_methods.
    intros [vs1 ->]%(methods_lookup_inv dtf_method)
           [vs2 ->]%(methods_lookup_inv dtf_method).
    unfold same_declaration.
    rewrite !dtf_method_name. by split.
Qed.

Lemma azure_orchestrator_files_same_structure (output_dir : string) (i : nat)
    (vss1 vss2 : list (list string)) :
  class_draws 8 vss1 → class_draws 8 vss2 →
  same_structure (azure_orchestrator_file output_dir i vss1).2
                 (azure_orchestrator_file output_dir i vss2).2.
Proof.
  intros H1 H2. unfold same_structure.
  destruct (azure_orchestrator_file_declares output_dir i vss1) as [-> ->].
  destruct (azure_orchestrator_file_declares output_dir i vss2) as [-> ->].
  by rewrite !(azure_orchestrator_file_methods _ _ 8).
Qed.

Lemma dtf_orchestrator_files_same_structure (output_dir : string) (i : nat)
    (vss1 vss2 : list (list string)) :
  class_draws 6 vss1 → class_draws 6 vss2 →
  same_structure (dtf_orchestrator_file output_dir i vss1).2
                 (dtf_orchestrator_file output_dir i vss2).2.
Proof.
  intros H1 H2. unfold same_structure.
  destruct (dtf_orchestrator_file_declares output_dir i vss1) as [-> ->].
  destruct (dtf_orchestrator_file_declares output_dir i vss2) as [-> ->].
  by rewrite !(dtf_orchestrator_file_methods _ _ 6).
Qed.

(** ** Reading lines back

    [lines_after] over the pieces of a template: an inert piece is passed
    over; a name that holds no occurrence is passed over when what follows
    it begins with a character that the text searched for does not have
    past its first position; an occurrence at the head of a text yields the
    rest of its line. *)

Lemma starts_with_stop (c : ascii) (p t b : string) :
  has_char c p = false →
  starts_with p (t +:+ String c b) = true → starts_with p t = true.
Proof.
  revert p. induction t as [|e t IH]; intros [|d p]; try done.
  - cbn [has_char]. intros [Hcd _]%orb_false_elim.
    change (EmptyString +:+ String c b) with (String c b).
    cbn [starts_with]. by rewrite Ascii.eqb_sym, Hcd.
  - cbn [has_char]. intros [_ Hp]%orb_false_elim.
    change (String e t +:+ String c b) with (String e (t +:+ String c b)).
    cbn [starts_with]. intros [-> Hs]%andb_prop. simpl. by apply IH.
Qed.

Lemma starts_with_app_head (p a : string) (e c : ascii) (b : string) :
  has_char c (skip 1 p) = false →
  starts_with p (String e a +:+ String c b) = starts_with p (String e a).
Proof.
  intros Hc. change (String e a +:+ String c b) with (String e (a +:+ String c b)).
  destruct p as [|d p]; [done|]. cbn [starts_with skip] in *.
  destruct (Ascii.eqb d e); [|done]. simpl.
  destruct (starts_with p (a +:+ String c b)) eqn:Hs.
  - symmetry. by apply (starts_with_stop c p a b).
  - destruct (starts_with p a) eqn:Ha; [|done].
    apply (starts_with_app_l _ _ (String c b)) in Ha. congruence.
Qed.

Lemma lines_after_app_skip (p a b : string) :
  inert p a = true → lines_after p (a +:+ b) = lines_after p b.
Proof.
  intros [Hc Ho]%inert_spec. induction a as [|c a IH]; [done|].
  cbn [count_sub] in Hc. cbn [overhang] in Ho.
  apply orb_false_elim in Ho as [Hpp Ho].
  destruct (starts_with p (String c a)) eqn:Hst; [done|].
  change (String c a +:+ b) with (String c (a +:+ b)).
  cbn [lines_after]. change (String c (a +:+ b)) with (String c a +:+ b).
  rewrite (starts_with_app _ _ _ Hpp), Hst. apply IH; [lia|done].
Qed.

Lemma starts_with_refl (p : string) : starts_with p p = true.
Proof. induction p as [|c p IH]; [done|]. simpl. by rewrite Ascii.eqb_refl. Qed.

Lemma skip_length (p : string) : skip (String.length p) p = EmptyString.
Proof. induction p as [|c p IH]; [done|]. exact IH. Qed.

(** An occurrence at the head of a text, for a [p] that does not overlap
    itself. *)
Lemma lines_after_here (c : ascii) (p' b : string) :
  inert (String c p') p' = true →
  lines_after (String c p') (String c p' +:+ b)
  = first_line b :: lines_after (String c p') b.
Proof.
  intros Hp'. set (p := String c p').
  change (p +:+ b) with (String c (p' +:+ b)). cbn [lines_after].
  change (String c (p' +:+ b)) with (p +:+ b).
  rewrite (starts_with_app_l p p b (starts_with_refl p)).
  rewrite skip_app, skip_length by done.
  change (EmptyString +:+ b) with b.
  by rewrite (lines_after_app_skip p p' b Hp').
Qed.

Lemma lines_after_concat (p : string) (xs : list string)
    (ls : list (list string)) :
  Forall2 (λ x l, ∀ b, lines_after p (x +:+ b) = l ++ lines_after p b) xs ls →
  ∀ b, lines_after p (join EmptyString xs +:+ b)
       = concat ls ++ lines_after p b.
Proof.
  induction 1 as [|x l xs ls Hx Hxs IH]; intros b; [done|].
  destruct xs as [|y xs].
  - apply Forall2_nil_inv_l in Hxs as ->. simpl. rewrite app_nil_r. apply Hx.
  - change (join EmptyString (x :: y :: xs))
      with (x +:+ EmptyString +:+ join EmptyString (y :: xs)).
    change (EmptyString +:+ ?s) with s.
    rewrite append_assoc, Hx, IH. cbn [concat]. by rewrite app_assoc.
Qed.

Lemma lines_after_app_head (p a : string) (c : ascii) (l r : string) :
  count_sub p a = 0 → has_char c (skip 1 p) = false →
  lines_after p (a +:+ (String c l +:+ r))
  = lines_after p (String c l +:+ r).
Proof.
  intros Ha Hc. change (String c l +:+ r) with (String c (l +:+ r)).
  generalize (l +:+ r). clear l r. intros b.
  induction a as [|e a IH]; [done|].
  cbn [count_sub] in Ha.
  destruct (starts_with p (String e a)) eqn:Hst; [done|].
  pose proof (starts_with_app_head p a e c b Hc) as Hst'. rewrite Hst in Hst'.
  change (String e a +:+ String c b) with (String e (a +:+ String c b)) in *.
  cbn [lines_after]. rewrite Hst'. apply IH. lia.
Qed.

Lemma lines_after_app_nl (p a r : string) :
  count_sub p a = 0 → has_char newline (skip 1 p) = false →
  lines_after p (a +:+ nl +:+ r) = lines_after p (nl +:+ r).
Proof. apply (lines_after_app_head p a newline EmptyString r). Qed.

Lemma after_app_head (p a : string) (c : ascii) (l r : string) :
  count_sub p a = 0 → has_char c (skip 1 p) = false →
  after p (a +:+ (String c l +:+ r)) = after p (String c l +:+ r).
Proof.
  intros Ha Hc. change (String c l +:+ r) with (String c (l +:+ r)).
  generalize (l +:+ r). clear l r. intros b.
  induction a as [|e a IH]; [done|].
  cbn [count_sub] in Ha.
  destruct (starts_with p (String e a)) eqn:Hst; [done|].
  pose proof (starts_with_app_head p a e c b Hc) as Hst'. rewrite Hst in Hst'.
  change (String e a +:+ String c b) with (String e (a +:+ String c b)) in *.
  cbn [after]. rewrite Hst'. apply IH. lia.
Qed.

Lemma after_app_nl (p a r : string) :
  count_sub p a = 0 → has_char newline (skip 1 p) = false →
  after p (a +:+ nl +:+ r) = after p (nl +:+ r).
Proof. apply (after_app_head p a newline EmptyString r). Qed.

(** Passing over the pieces of a template that hold no occurrence. *)
Ltac lines_side :=
  first [ assumption
        | match goal with
          | H : ∀ n, inert _ (str n) = true |- _ => apply H
          end
        | vm_compute; reflexivity ].

Ltac pass_lines :=
  repeat first
    [ rewrite !lines_after_app_skip by lines_side
    | rewrite lines_after_app_nl by lines_side
    | rewrite lines_after_app_head by lines_side ].

(** ** The lines of an orchestrator method *)

Lemma dotted_name_has_char (c : ascii) (name : string) :
  name_char c = false → dotted_name name = true → has_char c name = false.
Proof.
  intros Hc. induction name as [|d name IH]; [done|].
  cbn [dotted_name has_char]. intros [Hd Hname]%andb_prop.
  rewrite (IH Hname), orb_false_r.
  destruct (Ascii.eqb c d) eqn:Hcd; [|done].
  apply Ascii.eqb_eq in Hcd as ->. congruence.
Qed.

(** A dotted name holds no occurrence of a text with a character that no
    name has. *)
Lemma dotted_name_uncounted (p : string) (c : ascii) (name : string) :
  has_char c p = true → name_char c = false → dotted_name name = true →
  count_sub p name = 0.
Proof.
  intros Hp Hc Hname. apply (count_sub_excluded c); [done|].
  by apply dotted_name_has_char.
Qed.

Lemma dotted_name_single_line (name : string) :
  dotted_name name = true → has_char newline name = false.
Proof. by apply dotted_name_has_char. Qed.

(** The assignment block is inert for a text that is neither in the
    assignment opener, nor in the line separator, nor in any catalog entry
    between [" = "] and [";"]. *)
Lemma violation_code_inert (p : string) :
  (∃ c p', p = String c p' ∧ is_digit c = false) →
  inert p (nl +:+ "        ") = true →
  inert p "var temp" = true →
  forallb (λ v, inert p (" = " +:+ v +:+ ";")) violations = true →
  ∀ vs, vs ⊆ violations → inert p (violation_code vs) = true.
Proof.
  intros Hhead Hsep Hopen Hcat vs Hvs. rewrite forallb_forall in Hcat.
  unfold violation_code. apply inert_join; [done|].
  assert (∀ j v, v ∈ violations → inert p (temp_assignment j v) = true)
    as Hone.
  { intros j v Hv%list_elem_of_In%Hcat. unfold temp_assignment.
    apply inert_app; [done|]. apply inert_app; [|done].
    by apply inert_str. }
  revert Hone. generalize temp_assignment. intros g Hg.
  revert g Hg. induction vs as [|v vs IH]; intros g Hg; [constructor|].
  cbn [imap]. constructor.
  - apply Hg, Hvs. left.
  - apply IH; [intros x Hx; apply Hvs; by right|].
    intros j x Hx. by apply Hg.
Qed.

Lemma assignment_marker_head :
  ∃ c p', assignment_marker = String c p' ∧ is_digit c = false.
Proof. by eexists _, _. Qed.

Lemma return_marker_head :
  ∃ c p', return_marker = String c p' ∧ is_digit c = false.
Proof. by eexists _, _. Qed.
Lemma comment_marker_head :
  ∃ c p', comment_marker = String c p' ∧ is_digit c = false.
Proof. by eexists _, _. Qed.

Lemma violation_code_return_free (vs : list string) :
  vs ⊆ violations → inert return_marker (violation_code vs) = true.
Proof.
  apply violation_code_inert;
    [apply return_marker_head|by vm_compute..].
Qed.

Lemma violation_code_comment_free (vs : list string) :
  vs ⊆ violations → inert comment_marker (violation_code vs) = true.
Proof.
  apply violation_code_inert;
    [apply comment_marker_head|by vm_compute..].
Qed.

(** *** The assignment lines *)

Lemma joined_lines (p sep' : string) (xs ls : list string) :
  inert p (nl +:+ sep') = true →
  Forall2 (λ x l, ∀ r, lines_after p (x +:+ nl +:+ r)
                       = l :: lines_after p (nl +:+ r)) xs ls →
  ∀ r, lines_after p (join (nl +:+ sep') xs +:+ nl +:+ r)
       = ls ++ lines_after p (nl +:+ r).
Proof.
  intros Hsep. induction 1 as [|x l xs ls Hx Hxs IH]; intros r; [done|].
  destruct xs as [|y xs].
  - apply Forall2_nil_inv_l in Hxs as ->. apply Hx.
  - change (join (nl +:+ sep') (x :: y :: xs))
      with (x +:+ (nl +:+ sep') +:+ join (nl +:+ sep') (y :: xs)).
    rewrite !append_assoc, Hx. cbn [app]. f_equal.
    rewrite <- (append_assoc nl sep'), lines_after_app_skip by done.
    apply IH.
Qed.

Lemma temp_assignment_line (j : nat) (v r : string) :
  v ∈ violations →
  lines_after assignment_marker (temp_assignment j v +:+ nl +:+ r)
  = (str j +:+ " = " +:+ v +:+ ";")
    :: lines_after assignment_marker (nl +:+ r).
Proof.
  intros Hv.
  assert (forallb (λ v, inert assignment_marker v
                        && negb (has_char newline v)) violations = true)
    as Hcat by (by vm_compute).
  rewrite forallb_forall in Hcat.
  apply list_elem_of_In, Hcat, andb_prop in Hv as [Hin Hline].
  apply negb_true_iff in Hline.
  pose proof (inert_str _ assignment_marker_head) as Hs.
  unfold temp_assignment. rewrite !append_assoc.
  rewrite (lines_after_here "v" "ar temp") by done. f_equal.
  - collect_line. by rewrite first_line_nl, append_nil_r.
  - by pass_lines.
Qed.

Lemma Forall2_imap_catalog (P : string → string → Prop)
    (g h : nat → string → string) (vs : list string) :
  (∀ j v, v ∈ violations → P (g j v) (h j v)) →
  vs ⊆ violations → Forall2 P (imap g vs) (imap h vs).
Proof.
  revert g h. induction vs as [|v vs IH]; intros g h Hgh Hvs; [constructor|].
  cbn [imap]. constructor.
  - apply Hgh, Hvs. left.
  - apply IH; [|intros x Hx; apply Hvs; by right].
    intros j x Hx. by apply Hgh.
Qed.

Lemma violation_code_assignment_lines (vs : list string) (r : string) :
  vs ⊆ violations →
  lines_after assignment_marker (violation_code vs +:+ nl +:+ r)
  = assignment_lines vs ++ lines_after assignment_marker (nl +:+ r).
Proof.
  intros Hvs. unfold violation_code, assignment_lines.
  apply joined_lines; [by vm_compute|].
  apply Forall2_imap_catalog; [|done].
  intros j v Hv r'. by apply temp_assignment_line.
Qed.

(** *** The lines of a method, marker by marker *)

(** [take_line c p']: pass over what precedes the next occurrence of the
    text [String c p'] and read the rest of its line. *)
Ltac take_line c p' :=
  pass_lines; rewrite (lines_after_here c p') by done; cbn [app];
  f_equal; try (collect_line; by rewrite first_line_nl, append_nil_r).

(** The two activity calls of an Azure orchestrator method, in the order
    in which they stand, for a class name that holds no call. *)
Lemma orchestrator_method_calls_in_order (class_name : string) (i : nat)
    (vs : list string) (b : string) :
  count_sub call_marker class_name = 0 →
  vs ⊆ violations →
  lines_after call_marker
    (orchestrator_method class_name i (violation_code vs) +:+ b)
  = [ "string>(" +:+ dq +:+ "Activity" +:+ str (i mod 10) +:+ dq +:+ ", "
      +:+ dq +:+ "data" +:+ dq +:+ ");";
      "int>(" +:+ dq +:+ "CalculateActivity" +:+ dq +:+ ", i);" ]
    ++ lines_after call_marker b.
Proof.
  intros Hc Hvs.
  pose proof (inert_violation_code _ call_marker_code _ Hvs) as Hv.
  pose proof (inert_str _ call_marker_head) as Hs.
  unfold orchestrator_method. rewrite !append_assoc.
  change ("        await context.CallActivityAsync<string>(" +:+ ?r)
    with ("        await context" +:+ call_marker +:+ "string>(" +:+ r).
  change ("        await context.CallActivityAsync<int>(" +:+ ?r)
    with ("        await context" +:+ call_marker +:+ "int>(" +:+ r).
  take_line "."%char "CallActivityAsync<"; take_line "."%char "CallActivityAsync<";
    by pass_lines.
Qed.

Section orchestrator_method_lines.
Variables (class_name : string) (i : nat) (vs : list string) (b : string).
Hypothesis Hcls : dotted_name class_name = true.
Hypothesis Hvs : vs ⊆ violations.

Lemma orchestrator_method_header_line :
  lines_after method_marker
    (orchestrator_method class_name i (violation_code vs) +:+ b)
  = ["Method" +:+ str i +:+ "Async("] ++ lines_after method_marker b.
Proof.
  pose proof (dotted_name_uncounted method_marker " " class_name
                eq_refl eq_refl Hcls) as Hc.
  pose proof (inert_violation_code _ method_marker_code _ Hvs) as Hv.
  pose proof (inert_str _ method_marker_head) as Hs.
  unfold orchestrator_method. rewrite !append_assoc.
  change ("    public async Task<string> Method" +:+ ?r)
    with ("    " +:+ method_marker +:+ "Method" +:+ r).
  take_line "p"%char "ublic async Task<string> "; by pass_lines.
Qed.

Lemma orchestrator_method_assignment_lines :
  lines_after assignment_marker
    (orchestrator_method class_name i (violation_code vs) +:+ b)
  = assignment_lines vs ++ lines_after assignment_marker b.
Proof.
  pose proof (dotted_name_uncounted assignment_marker " " class_name
                eq_refl eq_refl Hcls) as Hc.
  pose proof (inert_str _ assignment_marker_head) as Hs.
  unfold orchestrator_method. rewrite !append_assoc. pass_lines.
  rewrite violation_code_assignment_lines by done. f_equal.
  by pass_lines.
Qed.

Lemma orchestrator_method_call_lines_in_order :
  lines_after call_marker
    (orchestrator_method class_name i (violation_code vs) +:+ b)
  = [ "string>(" +:+ dq +:+ "Activity" +:+ str (i mod 10) +:+ dq +:+ ", "
      +:+ dq +:+ "data" +:+ dq +:+ ");";
      "int>(" +:+ dq +:+ "CalculateActivity" +:+ dq +:+ ", i);" ]
    ++ lines_after call_marker b.
Proof.
  apply orchestrator_method_calls_in_order; [|done].
  exact (dotted_name_uncounted call_marker "<" class_name
           eq_refl eq_refl Hcls).
Qed.

Lemma orchestrator_method_return_line :
  lines_after return_marker
    (orchestrator_method class_name i (violation_code vs) +:+ b)
  = [dq +:+ "completed" +:+ dq +:+ ";"] ++ lines_after return_marker b.
Proof.
  pose proof (dotted_name_uncounted return_marker " " class_name
                eq_refl eq_refl Hcls) as Hc.
  pose proof (violation_code_return_free _ Hvs) as Hv.
  pose proof (inert_str _ return_marker_head) as Hs.
  unfold orchestrator_method. rewrite !append_assoc.
  change ("        return " +:+ ?r)
    with ("        " +:+ return_marker +:+ r).
  take_line "r"%char "eturn "; by pass_lines.
Qed.

Lemma orchestrator_method_comment_lines :
  lines_after comment_marker
    (orchestrator_method class_name i (violation_code vs) +:+ b)
  = [ "Performance test method with violations"; "Call some activities" ]
    ++ lines_after comment_marker b.
Proof.
  pose proof (dotted_name_uncounted comment_marker " " class_name
                eq_refl eq_refl Hcls) as Hc.
  pose proof (violation_code_comment_free _ Hvs) as Hv.
  pose proof (inert_str _ comment_marker_head) as Hs.
  unfold orchestrator_method. rewrite !append_assoc.
  change ("        // Performance test method with violations" +:+ ?r)
    with ("        " +:+ comment_marker
          +:+ "Performance test method with violations" +:+ r).
  change ("        // Call some activities" +:+ ?r)
    with ("        " +:+ comment_marker +:+ "Call some activities" +:+ r).
  take_line "/"%char "/ "; take_line "/"%char "/ ";
    by pass_lines.
Qed.
End orchestrator_method_lines.

Section dtf_method_lines.
Variables (i : nat) (vs : list string) (b : string).
Hypothesis Hvs : vs ⊆ violations.

Lemma dtf_method_header_line :
  lines_after method_marker (dtf_method i (violation_code vs) +:+ b)
  = ["Method" +:+ str i +:+ "Async(TaskOrchestrationContext context)"]
    ++ lines_after method_marker b.
Proof.
  pose proof (inert_violation_code _ method_marker_code _ Hvs) as Hv.
  pose proof (inert_str _ method_marker_head) as Hs.
  unfold dtf_method. rewrite !append_assoc.
  change ("    public async Task<string> Method" +:+ ?r)
    with ("    " +:+ method_marker +:+ "Method" +:+ r).
  take_line "p"%char "ublic async Task<string> "; by pass_lines.
Qed.

Lemma dtf_method_assignment_lines :
  lines_after assignment_marker (dtf_method i (violation_code vs) +:+ b)
  = assignment_lines vs ++ lines_after assignment_marker b.
Proof.
  pose proof (inert_str _ assignment_marker_head) as Hs.
  unfold dtf_method. rewrite !append_assoc. pass_lines.
  rewrite violation_code_assignment_lines by done. f_equal.
  by pass_lines.
Qed.

Lemma dtf_method_call_lines_in_order :
  lines_after call_marker (dtf_method i (violation_code vs) +:+ b)
  = [ "string>(" +:+ dq +:+ "DtfActivity" +:+ str (i mod 10) +:+ dq +:+ ", "
      +:+ dq +:+ "data" +:+ dq +:+ ");";
      "int>(" +:+ dq +:+ "DtfCalculateActivity" +:+ dq +:+ ", i);" ]
    ++ lines_after call_marker b.
Proof.
  pose proof (inert_violation_code _ call_marker_code _ Hvs) as Hv.
  pose proof (inert_str _ call_marker_head) as Hs.
  unfold dtf_method. rewrite !append_assoc.
  change ("        await context.CallActivityAsync<string>(" +:+ ?r)
    with ("        await context" +:+ call_marker +:+ "string>(" +:+ r).
  change ("        await context.CallActivityAsync<int>(" +:+ ?r)
    with ("        await context" +:+ call_marker +:+ "int>(" +:+ r).
  take_line "."%char "CallActivityAsync<"; take_line "."%char "CallActivityAsync<";
    by pass_lines.
Qed.

Lemma dtf_method_return_line :
  lines_after return_marker (dtf_method i (violation_code vs) +:+ b)
  = [dq +:+ "dtf completed" +:+ dq +:+ ";"] ++ lines_after return_marker b.
Proof.
  pose proof (violation_code_return_free _ Hvs) as Hv.
  pose proof (inert_str _ return_marker_head) as Hs.
  unfold dtf_method. rewrite !append_assoc.
  change ("        return " +:+ ?r)
    with ("        " +:+ return_marker +:+ r).
  take_line "r"%char "eturn "; by pass_lines.
Qed.

Lemma dtf_method_comment_lines :
  lines_after comment_marker (dtf_method i (violation_code vs) +:+ b)
  = [ "DTF performance test method with violations";
      "Call some activities" ]
    ++ lines_after comment_marker b.
Proof.
  pose proof (violation_code_comment_free _ Hvs) as Hv.
  pose proof (inert_str _ comment_marker_head) as Hs.
  unfold dtf_method. rewrite !append_assoc.
  change ("        // DTF performance test method with violations" +:+ ?r)
    with ("        " +:+ comment_marker
          +:+ "DTF performance test method with violations" +:+ r).
  change ("        // Call some activities" +:+ ?r)
    with ("        " +:+ comment_marker +:+ "Call some activities" +:+ r).
  take_line "/"%char "/ "; take_line "/"%char "/ ";
    by pass_lines.
Qed.
End dtf_method_lines.

(** *** The attribute lines *)

Lemma function_marker_head :
  ∃ c p', function_marker = String c p' ∧ is_digit c = false.
Proof. by eexists _, _. Qed.

Lemma square_free_inert (s : string) :
  has_char "[" s = false → inert function_marker s = true.
Proof. apply inert_absent. Qed.

Lemma violation_code_square_free (vs : list string) :
  vs ⊆ violations → inert function_marker (violation_code vs) = true.
Proof.
  intros Hvs. unfold violation_code. apply inert_join; [by vm_compute|].
  assert (∀ j v, v ∈ violations →
            inert function_marker (temp_assignment j v) = true) as Hone.
  { intros j v Hv. apply square_free_inert. unfold temp_assignment.
    assert (forallb (λ v, negb (has_char "[" v)) violations = true) as Hcat
      by (by vm_compute).
    rewrite forallb_forall in Hcat.
    apply list_elem_of_In, Hcat, negb_true_iff in Hv.
    by rewrite !has_char_app, has_char_str, Hv. }
  revert Hone. generalize temp_assignment. intros g Hg.
  revert g Hg. induction vs as [|v vs IH]; intros g Hg; [constructor|].
  cbn [imap]. constructor.
  - apply Hg, Hvs. left.
  - apply IH; [intros x Hx; apply Hvs; by right|].
    intros j x Hx. by apply Hg.
Qed.

(** Passing over the pieces of a template that hold no attribute. *)
Ltac pass_inert :=
  rewrite !lines_after_app_skip
    by first [ assumption
             | apply (inert_str _ function_marker_head)
             | vm_compute; reflexivity ].

Section method_attributes.
Variables (class_name : string).
Hypothesis Hsq : has_char "[" class_name = false.
Hypothesis Hline : single_line class_name = true.

Lemma orchestrator_method_attribute (i : nat) (code b : string) :
  inert function_marker code = true →
  lines_after function_marker (orchestrator_method class_name i code +:+ b)
  = [attribute_line (class_name +:+ "_Method" +:+ str i)]
    ++ lines_after function_marker b.
Proof.
  intros Hcode. pose proof (square_free_inert _ Hsq) as Hcls.
  apply negb_true_iff in Hline.
  unfold orchestrator_method. rewrite !append_assoc.
  change ("    [FunctionName(" +:+ ?r)
    with ("    " +:+ function_marker +:+ r).
  pass_inert. rewrite (lines_after_here "[" "FunctionName(") by done.
  cbn [app]. f_equal.
  - collect_line. rewrite first_line_nl, append_nil_r.
    unfold attribute_line. by rewrite !append_assoc.
  - by pass_inert.
Qed.

Lemma activity_method_attribute (i : nat) (b : string) :
  lines_after function_marker (activity_method class_name i +:+ b)
  = [attribute_line (class_name +:+ "_Activity" +:+ str i)]
    ++ lines_after function_marker b.
Proof.
  pose proof (square_free_inert _ Hsq) as Hcls.
  apply negb_true_iff in Hline.
  unfold activity_method. rewrite !append_assoc.
  change ("    [FunctionName(" +:+ ?r)
    with ("    " +:+ function_marker +:+ r).
  pass_inert. rewrite (lines_after_here "[" "FunctionName(") by done.
  cbn [app]. f_equal.
  - collect_line. rewrite first_line_nl, append_nil_r.
    unfold attribute_line. by rewrite !append_assoc.
  - by pass_inert.
Qed.
End method_attributes.

Lemma dtf_method_attribute (i : nat) (code b : string) :
  inert function_marker code = true →
  lines_after function_marker (dtf_method i code +:+ b)
  = [] ++ lines_after function_marker b.
Proof.
  intros Hcode. unfold dtf_method. rewrite !append_assoc. by pass_inert.
Qed.

Section class_attributes.
Variables (namespace class_name : string) (methods : list string).
Variable ls : list (list string).
Hypothesis Hns : has_char "[" namespace = false.
Hypothesis Hcls : has_char "[" class_name = false.
Hypothesis Hms :
  Forall2 (λ x l, ∀ b, lines_after function_marker (x +:+ b)
                       = l ++ lines_after function_marker b) methods ls.

Lemma orchestrator_class_attributes :
  function_attributes (orchestrator_class namespace class_name methods)
  = concat ls.
Proof.
  pose proof (square_free_inert _ Hns) as Hn.
  pose proof (square_free_inert _ Hcls) as Hc.
  unfold function_attributes, orchestrator_class. pass_inert.
  rewrite (lines_after_concat _ _ _ Hms).
  match goal with
  | |- _ ++ ?t = _ => assert (t = []) as -> by (vm_compute; reflexivity)
  end.
  apply app_nil_r.
Qed.

Lemma activity_class_attributes :
  function_attributes (activity_class namespace class_name methods)
  = concat ls.
Proof.
  pose proof (square_free_inert _ Hns) as Hn.
  pose proof (square_free_inert _ Hcls) as Hc.
  unfold function_attributes, activity_class. pass_inert.
  rewrite (lines_after_concat _ _ _ Hms).
  match goal with
  | |- _ ++ ?t = _ => assert (t = []) as -> by (vm_compute; reflexivity)
  end.
  apply app_nil_r.
Qed.

Lemma dtf_class_attributes :
  function_attributes (dtf_class namespace class_name methods) = concat ls.
Proof.
  pose proof (square_free_inert _ Hns) as Hn.
  pose proof (square_free_inert _ Hcls) as Hc.
  unfold function_attributes, dtf_class. pass_inert.
  rewrite (lines_after_concat _ _ _ Hms).
  match goal with
  | |- _ ++ ?t = _ => assert (t = []) as -> by (vm_compute; reflexivity)
  end.
  apply app_nil_r.
Qed.
End class_attributes.

Lemma zip_with_attributes (mk : nat → string → string)
    (g : nat → list string) (idxs : list nat) (vss : list (list string)) :
  (∀ i code b, inert function_marker code = true →
     lines_after function_marker (mk i code +:+ b)
     = g i ++ lines_after function_marker b) →
  length idxs = length vss →
  Forall bounded_sample vss →
  Forall2 (λ x l, ∀ b, lines_after function_marker (x +:+ b)
                       = l ++ lines_after function_marker b)
    (zip_with (λ i vs, mk i (violation_code vs)) idxs vss) (g <$> idxs).
Proof.
  intros Hmk Hlen Hall. revert idxs Hlen.
  induction Hall as [|vs vss (_ & _ & Hvs) _ IH]; intros [|i idxs] Hlen;
    try done.
  cbn [zip_with]. rewrite fmap_cons. constructor.
  - intros b. by apply Hmk, violation_code_square_free.
  - apply IH. by injection Hlen.
Qed.

Lemma concat_singletons {A B} (g : A → B) (l : list A) :
  concat ((λ x, [g x]) <$> l) = g <$> l.
Proof.
  induction l as [|x l IH]; [done|].
  rewrite !fmap_cons. cbn [concat app]. by rewrite IH.
Qed.

Lemma concat_empties {A B} (l : list A) :
  concat ((λ _, @nil B) <$> l) = [].
Proof. induction l as [|x l IH]; [done|]. exact IH. Qed.


(** *** The lines of a class *)

(** The lines of the methods of a class, when the lines of a method are
    fixed by its index, or by the violations drawn for it. *)
Lemma methods_lines (p : string) (mk : nat → string → string)
    (g : nat → list string → list string) (vss : list (list string))
    (r : string) :
  (∀ i vs b, vs ⊆ violations →
     lines_after p (mk i (violation_code vs) +:+ b)
     = g i vs ++ lines_after p b) →
  Forall bounded_sample vss →
  ∀ a,
    lines_after p
      (join EmptyString
         (zip_with (λ i vs, mk i (violation_code vs))
            (seq a (length vss)) vss) +:+ r)
    = concat (zip_with g (seq a (length vss)) vss) ++ lines_after p r.
Proof.
  intros Hmk Hall a. apply lines_after_concat. revert a.
  induction Hall as [|vs vss (_ & _ & Hvs) _ IH]; intros a; [constructor|].
  cbn [length seq zip_with]. constructor; [|apply IH].
  intros b. by apply Hmk.
Qed.

Lemma concat_zip_with_index {B C} (h : nat → list C) (idxs : list nat)
    (ds : list B) :
  length idxs = length ds →
  concat (zip_with (λ i _, h i) idxs ds) = concat (h <$> idxs).
Proof.
  revert ds. induction idxs as [|i idxs IH]; intros [|d ds] Hlen; try done.
  cbn [zip_with]. rewrite fmap_cons. cbn [concat]. f_equal.
  apply IH. by injection Hlen.
Qed.

Lemma concat_zip_with_sample {A B C} (h : B → list C) (idxs : list A)
    (ds : list B) :
  length idxs = length ds →
  concat (zip_with (λ _ d, h d) idxs ds) = concat (h <$> ds).
Proof.
  revert ds. induction idxs as [|i idxs IH]; intros [|d ds] Hlen; try done.
  cbn [zip_with]. rewrite fmap_cons. cbn [concat]. f_equal.
  apply IH. by injection Hlen.
Qed.

Lemma concat_zip_with_fixed {A B C} (x : list C) (idxs : list A)
    (ds : list B) :
  length idxs = length ds →
  concat (zip_with (λ _ _, x) idxs ds) = concat (replicate (length ds) x).
Proof.
  revert ds. induction idxs as [|i idxs IH]; intros [|d ds] Hlen; try done.
  cbn [zip_with length replicate concat]. f_equal.
  apply IH. by injection Hlen.
Qed.

(** What closes a class holds none of the texts searched for. *)
Ltac class_tail :=
  match goal with
  | |- _ ++ ?t = _ => assert (t = []) as -> by (vm_compute; reflexivity)
  end;
  apply app_nil_r.

Section class_lines.
Variables (namespace class_name : string) (vss : list (list string)).
Hypothesis Hns : dotted_name namespace = true.
Hypothesis Hcls : dotted_name class_name = true.
Hypothesis Hvss : Forall bounded_sample vss.

Local Abbreviation azure_text :=
  (orchestrator_class namespace class_name
     (orchestrator_methods class_name vss)).
Local Abbreviation dtf_text :=
  (dtf_class namespace class_name (dtf_methods vss)).

Lemma class_header_lines :
  lines_after method_marker azure_text
  = (λ i, "Method" +:+ str i +:+ "Async(") <$> range (length vss)
  ∧ lines_after method_marker dtf_text
    = (λ i, "Method" +:+ str i
            +:+ "Async(TaskOrchestrationContext context)")
      <$> range (length vss).
Proof.
  pose proof (dotted_name_uncounted method_marker " " _ eq_refl eq_refl Hns)
    as Hn.
  pose proof (dotted_name_uncounted method_marker " " _ eq_refl eq_refl Hcls)
    as Hc.
  assert (length (range (length vss)) = length vss) as Hlen
    by (unfold range; apply length_seq).
  split.
  - unfold orchestrator_class, orchestrator_methods, range. pass_lines.
    rewrite (methods_lines method_marker (orchestrator_method class_name)
               (λ i _, ["Method" +:+ str i +:+ "Async("]));
      [|intros i vs b Hvs; by apply orchestrator_method_header_line|done].
    rewrite (concat_zip_with_index
               (λ i, ["Method" +:+ str i +:+ "Async("])) by done.
    rewrite (concat_singletons (λ i, "Method" +:+ str i +:+ "Async(")).
    class_tail.
  - unfold dtf_class, dtf_methods, range. pass_lines.
    rewrite (methods_lines method_marker dtf_method
               (λ i _, ["Method" +:+ str i
                        +:+ "Async(TaskOrchestrationContext context)"]));
      [|intros i vs b Hvs; by apply dtf_method_header_line|done].
    rewrite (concat_zip_with_index
               (λ i, ["Method" +:+ str i
                      +:+ "Async(TaskOrchestrationContext context)"]))
      by done.
    rewrite (concat_singletons
               (λ i, "Method" +:+ str i
                     +:+ "Async(TaskOrchestrationContext context)")).
    class_tail.
Qed.

Lemma class_assignment_lines :
  lines_after assignment_marker azure_text = concat (assignment_lines <$> vss)
  ∧ lines_after assignment_marker dtf_text
    = concat (assignment_lines <$> vss).
Proof.
  pose proof (dotted_name_uncounted assignment_marker " " _ eq_refl eq_refl
                Hns) as Hn.
  pose proof (dotted_name_uncounted assignment_marker " " _ eq_refl eq_refl
                Hcls) as Hc.
  assert (length (seq 0 (length vss)) = length vss) as Hlen
    by apply length_seq.
  split.
  - unfold orchestrator_class, orchestrator_methods, range. pass_lines.
    rewrite (methods_lines assignment_marker
               (orchestrator_method class_name) (λ _ vs, assignment_lines vs));
      [|intros i vs b Hvs; by apply orchestrator_method_assignment_lines
       |done].
    rewrite (concat_zip_with_sample assignment_lines) by done.
    class_tail.
  - unfold dtf_class, dtf_methods, range. pass_lines.
    rewrite (methods_lines assignment_marker dtf_method
               (λ _ vs, assignment_lines vs));
      [|intros i vs b Hvs; by apply dtf_method_assignment_lines|done].
    rewrite (concat_zip_with_sample assignment_lines) by done.
    class_tail.
Qed.

Lemma class_call_lines :
  lines_after call_marker azure_text
  = concat ((λ i, [ "string>(" +:+ dq +:+ "Activity" +:+ str (i mod 10)
                    +:+ dq +:+ ", " +:+ dq +:+ "data" +:+ dq +:+ ");";
                    "int>(" +:+ dq +:+ "CalculateActivity" +:+ dq
                    +:+ ", i);" ])
            <$> range (length vss))
  ∧ lines_after call_marker dtf_text
    = concat ((λ i, [ "string>(" +:+ dq +:+ "DtfActivity"
                      +:+ str (i mod 10)
                      +:+ dq +:+ ", " +:+ dq +:+ "data" +:+ dq +:+ ");";
                      "int>(" +:+ dq +:+ "DtfCalculateActivity" +:+ dq
                      +:+ ", i);" ])
              <$> range (length vss)).
Proof.
  pose proof (dotted_name_uncounted call_marker "<" _ eq_refl eq_refl Hns)
    as Hn.
  pose proof (dotted_name_uncounted call_marker "<" _ eq_refl eq_refl Hcls)
    as Hc.
  assert (length (seq 0 (length vss)) = length vss) as Hlen
    by apply length_seq.
  split.
  - unfold orchestrator_class, orchestrator_methods, range. pass_lines.
    rewrite (methods_lines call_marker (orchestrator_method class_name)
      (λ i _, [ "string>(" +:+ dq +:+ "Activity" +:+ str (i mod 10)
                +:+ dq +:+ ", " +:+ dq +:+ "data" +:+ dq +:+ ");";
                "int>(" +:+ dq +:+ "CalculateActivity" +:+ dq
                +:+ ", i);" ]));
      [|intros i vs b Hvs; by apply orchestrator_method_call_lines_in_order
       |done].
    rewrite (concat_zip_with_index
      (λ i, [ "string>(" +:+ dq +:+ "Activity" +:+ str (i mod 10)
              +:+ dq +:+ ", " +:+ dq +:+ "data" +:+ dq +:+ ");";
              "int>(" +:+ dq +:+ "CalculateActivity" +:+ dq
              +:+ ", i);" ])) by done.
    class_tail.
  - unfold dtf_class, dtf_methods, range. pass_lines.
    rewrite (methods_lines call_marker dtf_method
      (λ i _, [ "string>(" +:+ dq +:+ "DtfActivity" +:+ str (i mod 10)
                +:+ dq +:+ ", " +:+ dq +:+ "data" +:+ dq +:+ ");";
                "int>(" +:+ dq +:+ "DtfCalculateActivity" +:+ dq
                +:+ ", i);" ]));
      [|intros i vs b Hvs; by apply dtf_method_call_lines_in_order|done].
    rewrite (concat_zip_with_index
      (λ i, [ "string>(" +:+ dq +:+ "DtfActivity" +:+ str (i mod 10)
              +:+ dq +:+ ", " +:+ dq +:+ "data" +:+ dq +:+ ");";
              "int>(" +:+ dq +:+ "DtfCalculateActivity" +:+ dq
              +:+ ", i);" ])) by done.
    class_tail.
Qed.

Lemma class_return_lines :
  lines_after return_marker azure_text
  = concat (replicate (length vss) [dq +:+ "completed" +:+ dq +:+ ";"])
  ∧ lines_after return_marker dtf_text
    = concat (replicate (length vss)
                [dq +:+ "dtf completed" +:+ dq +:+ ";"]).
Proof.
  pose proof (dotted_name_uncounted return_marker " " _ eq_refl eq_refl Hns)
    as Hn.
  pose proof (dotted_name_uncounted return_marker " " _ eq_refl eq_refl Hcls)
    as Hc.
  assert (length (seq 0 (length vss)) = length vss) as Hlen
    by apply length_seq.
  split.
  - unfold orchestrator_class, orchestrator_methods, range. pass_lines.
    rewrite (methods_lines return_marker (orchestrator_method class_name)
               (λ _ _, [dq +:+ "completed" +:+ dq +:+ ";"]));
      [|intros i vs b Hvs; by apply orchestrator_method_return_line|done].
    rewrite concat_zip_with_fixed by done. class_tail.
  - unfold dtf_class, dtf_methods, range. pass_lines.
    rewrite (methods_lines return_marker dtf_method
               (λ _ _, [dq +:+ "dtf completed" +:+ dq +:+ ";"]));
      [|intros i vs b Hvs; by apply dtf_method_return_line|done].
    rewrite concat_zip_with_fixed by done. class_tail.
Qed.

Lemma class_comment_lines :
  lines_after comment_marker azure_text
  = concat (replicate (length vss)
              [ "Performance test method with violations";
                "Call some activities" ])
  ∧ lines_after comment_marker dtf_text
    = concat (replicate (length vss)
                [ "DTF performance test method with violations";
                  "Call some activities" ]).
Proof.
  pose proof (dotted_name_uncounted comment_marker " " _ eq_refl eq_refl Hns)
    as Hn.
  pose proof (dotted_name_uncounted comment_marker " " _ eq_refl eq_refl
                Hcls) as Hc.
  assert (length (seq 0 (length vss)) = length vss) as Hlen
    by apply length_seq.
  split.
  - unfold orchestrator_class, orchestrator_methods, range. pass_lines.
    rewrite (methods_lines comment_marker (orchestrator_method class_name)
               (λ _ _, [ "Performance test method with violations";
                         "Call some activities" ]));
      [|intros i vs b Hvs; by apply orchestrator_method_comment_lines|done].
    rewrite concat_zip_with_fixed by done. class_tail.
  - unfold dtf_class, dtf_methods, range. pass_lines.
    rewrite (methods_lines comment_marker dtf_method
               (λ _ _, [ "DTF performance test method with violations";
                         "Call some activities" ]));
      [|intros i vs b Hvs; by apply dtf_method_comment_lines|done].
    rewrite concat_zip_with_fixed by done. class_tail.
Qed.

Lemma class_attribute_lines :
  function_attributes azure_text
  = (λ i, attribute_line (class_name +:+ "_Method" +:+ str i))
    <$> range (length vss)
  ∧ function_attributes dtf_text = [].
Proof.
  pose proof (dotted_name_has_char "[" _ eq_refl Hns) as Hn.
  pose proof (dotted_name_has_char "[" _ eq_refl Hcls) as Hc.
  assert (single_line class_name = true) as Hline.
  { unfold single_line. by rewrite dotted_name_single_line. }
  split.
  - rewrite (orchestrator_class_attributes _ _ _
      ((λ m, [attribute_line (class_name +:+ "_Method" +:+ str m)])
         <$> range (length vss)) Hn Hc).
    + apply concat_singletons.
    + unfold orchestrator_methods.
      apply (zip_with_attributes (orchestrator_method class_name)).
      * intros m code b Hcode. by apply orchestrator_method_attribute.
      * unfold range. by rewrite length_seq.
      * done.
  - rewrite (dtf_class_attributes _ _ _
               ((λ _, []) <$> range (length vss)) Hn Hc).
    + apply concat_empties.
    + unfold dtf_methods.
      apply (zip_with_attributes dtf_method (λ _, [])).
      * intros m code b Hcode. by apply dtf_method_attribute.
      * unfold range. by rewrite length_seq.
      * done.
Qed.

Lemma class_declarations :
  declared_namespace azure_text = Some namespace
  ∧ declared_class azure_text = Some class_name
  ∧ declared_namespace dtf_text = Some namespace
  ∧ declared_class dtf_text = Some class_name.
Proof.
  pose proof (dotted_name_single_line _ Hns) as Hn1.
  pose proof (dotted_name_single_line _ Hcls) as Hc1.
  pose proof (dotted_name_uncounted class_marker " " _ eq_refl eq_refl Hns)
    as Hn.
  assert (single_line namespace = true) as Hline
    by (unfold single_line; by rewrite Hn1).
  split; [by apply orchestrator_class_namespace|].
  split; [|split; [by apply dtf_class_namespace|]].
  - unfold declared_class, rest_of_line, orchestrator_class. skip_inert.
    rewrite after_app_nl by lines_side. skip_inert.
    rewrite (after_app_found class_marker "    public class " _
               EmptyString eq_refl).
    cbn [fmap option_fmap option_map].
    change (EmptyString +:+ ?s) with s.
    rewrite first_line_prefix, first_line_nl by done.
    by rewrite append_nil_r.
  - unfold declared_class, rest_of_line, dtf_class. skip_inert.
    rewrite after_app_nl by lines_side. skip_inert.
    rewrite (after_app_found class_marker "    public class " _
               EmptyString eq_refl).
    cbn [fmap option_fmap option_map].
    change (EmptyString +:+ ?s) with s.
    rewrite first_line_prefix, first_line_nl by done.
    by rewrite append_nil_r.
Qed.

Lemma class_first_framework_using :
  rest_of_line "using Microsoft." azure_text = Some "Azure.WebJobs;"
  ∧ rest_of_line "using Microsoft." dtf_text = Some "DurableTask;".
Proof.
  split.
  - unfold rest_of_line, orchestrator_class.
    change ("using Microsoft.Azure.WebJobs;" +:+ ?r)
      with ("using Microsoft." +:+ "Azure.WebJobs;" +:+ r).
    skip_inert.
    rewrite (after_app_found "using Microsoft." "using Microsoft." _
               EmptyString eq_refl).
    cbn [fmap option_fmap option_map].
    change (EmptyString +:+ ?s) with s.
    rewrite first_line_prefix, first_line_nl by done.
    by rewrite append_nil_r.
  - unfold rest_of_line, dtf_class.
    change ("using Microsoft.DurableTask;" +:+ ?r)
      with ("using Microsoft." +:+ "DurableTask;" +:+ r).
    skip_inert.
    rewrite (after_app_found "using Microsoft." "using Microsoft." _
               EmptyString eq_refl).
    cbn [fmap option_fmap option_map].
    change (EmptyString +:+ ?s) with s.
    rewrite first_line_prefix, first_line_nl by done.
    by rewrite append_nil_r.
Qed.
End class_lines.

Lemma concat_replicate_singleton {A} (n : nat) (x : A) :
  concat (replicate n [x]) = replicate n x.
Proof. induction n as [|n IH]; [done|]. simpl. by rewrite IH. Qed.

(** The range line of the summary does not depend on the totals that the
    template is given. *)
Lemma summary_range_fixed (total_files total_methods : nat) :
  rest_of_line "Expected analyzer violations: "
    (summary_text total_files total_methods)
  = Some "~2200-2750 (4-5 violations per orchestrator method)".
Proof.
  assert (∀ n, inert "Expected analyzer violations: " (str n) = true) as Hs.
  { intros n. apply inert_str. by eexists _, _. }
  unfold rest_of_line, summary_text.
  change ("// Expected analyzer violations: ~2200-2750 (4-5 violations per orchestrator method)" +:+ ?r)
    with ("// " +:+ "Expected analyzer violations: "
          +:+ "~2200-2750 (4-5 violations per orchestrator method)" +:+ r).
  skip_inert.
  rewrite (after_app_found "Expected analyzer violations: "
             "Expected analyzer violations: " _ EmptyString eq_refl).
  cbn [fmap option_fmap option_map].
  change (EmptyString +:+ ?s) with s.
  change ("~2200-2750 (4-5 violations per orchestrator method)" +:+ nl)
    with ("~2200-2750 (4-5 violations per orchestrator method)" +:+ nl
          +:+ EmptyString).
  rewrite first_line_prefix, first_line_nl by done.
  by rewrite append_nil_r.
Qed.

(** * The claims *)

(** C1.  Every call of [generate_orchestrator_violations] returns, and what
    it returns is a duplicate-free list of between 1 and 4 entries of the
    10-entry catalog, so never more than the catalog holds; every method of
    a class rendered by [generate_orchestrator] or by
    [generate_dtf_orchestrator] embeds such a list, one per method index. *)
Theorem injected_violations_bounded :
  length violations = 10
  ∧ (∀ w, ∃ vs w',
        generate_orchestrator_violations w = Ok vs w'
        ∧ vs ⊆ violations ∧ NoDup vs
        ∧ 1 ≤ length vs ≤ 4 ∧ length vs ≤ length violations)
  ∧ (∀ namespace class_name method_count w, ∃ vss w',
        generate_orchestrator namespace class_name method_count w
        = Ok (orchestrator_class namespace class_name
                (orchestrator_methods class_name vss)) w'
        ∧ length vss = method_count
        ∧ Forall (λ vs, vs ⊆ violations ∧ NoDup vs
                        ∧ 1 ≤ length vs ≤ 4
                        ∧ length vs ≤ length violations) vss)
  ∧ (∀ namespace class_name method_count w, ∃ vss w',
        generate_dtf_orchestrator namespace class_name method_count w
        = Ok (dtf_class namespace class_name (dtf_methods vss)) w'
        ∧ length vss = method_count
        ∧ Forall (λ vs, vs ⊆ violations ∧ NoDup vs
                        ∧ 1 ≤ length vs ≤ 4
                        ∧ length vs ≤ length violations) vss).
Proof.
  assert (∀ vs, bounded_sample vs →
            vs ⊆ violations ∧ NoDup vs ∧ 1 ≤ length vs ≤ 4
            ∧ length vs ≤ length violations) as Hb.
  { intros vs (Hlen & Hnd & Hsub). rewrite violations_length.
    split_and!; try done; lia. }
  split_and!.
  - apply violations_length.
  - intros [t f o].
    destruct (generate_orchestrator_violations_run t) as (vs & t' & Hvs & Hrun).
    exists vs, (World t' f o). split; [apply Hrun|by apply Hb].
  - intros namespace class_name n [t f o].
    destruct (orchestrators_run n t) as (vss & t' & Hlen & Hall & Hrun).
    exists vss, (World t' f o). split_and!.
    + apply Hrun.
    + done.
    + eapply Forall_impl; [exact Hall|exact Hb].
  - intros namespace class_name n [t f o].
    destruct (orchestrators_run n t) as (vss & t' & Hlen & Hall & Hrun).
    exists vss, (World t' f o). split_and!.
    + apply Hrun.
    + done.
    + eapply Forall_impl; [exact Hall|exact Hb].
Qed.

(** C2.  A run always completes and writes exactly 105 = 50 + 30 + 25 class
    files and the summary: these 106 paths are pairwise distinct, they are
    all that the run adds to the file system, and every other path keeps
    what it held.  Each Azure orchestrator file holds 8 method headers,
    each activity file 5 and each DTF orchestrator file 6, so that the
    class files, read back from the file system, hold 50 * 8, 30 * 5 and
    25 * 6 headers per profile and 700 in all; the summary holds none.  The
    summary file and the first printed line report exactly 105 files and
    700 methods. *)
Theorem corpus_totals (output_dir : string) (w : world) :
  ∃ w' summary,
    main output_dir w = Ok tt w'
    ∧ length class_names = 50 + 30 + 25
    ∧ 50 + 30 + 25 = 105
    ∧ NoDup (path_join output_dir <$> class_names)
    ∧ Forall (λ p, is_Some (fs w' !! p)) (path_join output_dir <$> class_names)
    ∧ corpus_names = class_names ++ [summary_name]
    ∧ NoDup (path_join output_dir <$> corpus_names)
    ∧ dom (fs w')
      = list_to_set (path_join output_dir <$> corpus_names) ∪ dom (fs w)
    ∧ (∀ p, p ∉ path_join output_dir <$> corpus_names →
            fs w' !! p = fs w !! p)
    ∧ Forall (λ p, ∃ text, fs w' !! p = Some text ∧ count_methods text = 8)
        (path_join output_dir <$> (azure_orchestrator_name <$> range 50))
    ∧ Forall (λ p, ∃ text, fs w' !! p = Some text ∧ count_methods text = 5)
        (path_join output_dir <$> (azure_activity_name <$> range 30))
    ∧ Forall (λ p, ∃ text, fs w' !! p = Some text ∧ count_methods text = 6)
        (path_join output_dir <$> (dtf_orchestrator_name <$> range 25))
    ∧ methods_at (fs w')
        (path_join output_dir <$> (azure_orchestrator_name <$> range 50))
      = 50 * 8
    ∧ methods_at (fs w')
        (path_join output_dir <$> (azure_activity_name <$> range 30))
      = 30 * 5
    ∧ methods_at (fs w')
        (path_join output_dir <$> (dtf_orchestrator_name <$> range 25))
      = 25 * 6
    ∧ methods_at (fs w') (path_join output_dir <$> class_names) = 700
    ∧ 50 * 8 + 30 * 5 + 25 * 6 = 700
    ∧ fs w' !! path_join output_dir summary_name = Some summary
    ∧ count_methods summary = 0
    ∧ rest_of_line "// Generated " summary
      = Some ("105 files with 700 total methods")
    ∧ stdout w'
      = stdout w ++ [ "Generated 105 files with 700 total methods";
                      "Expected ~2200-2750 analyzer violations to process" ].
Proof.
  destruct (main_outcome output_dir w)
    as (az & dtf & t' & Haz & Haz' & Hdtf & Hdtf' & Hrun).
  eexists _, (summary_text 105 700). split; [exact Hrun|]. cbn [fs stdout].
  destruct (corpus_methods output_dir az dtf Haz Haz' Hdtf Hdtf' (fs w))
    as (E1 & E2 & E3 & E4).
  pose proof (corpus_paths_NoDup output_dir) as Hnd.
  pose proof Hnd as Hnd'.
  unfold corpus_names in Hnd'. rewrite fmap_app in Hnd'.
  apply NoDup_app in Hnd' as (Hnd' & _ & _).
  split; [reflexivity|]. split; [reflexivity|]. split; [exact Hnd'|].
  split.
  { apply Forall_forall. intros p Hp.
    apply elem_of_dom. rewrite corpus_dom by done.
    apply elem_of_union. left. apply elem_of_list_to_set.
    unfold corpus_names. rewrite fmap_app. apply elem_of_app. by left. }
  split; [reflexivity|]. split; [exact Hnd|].
  split; [by apply corpus_dom|].
  split; [intros p Hp; by apply corpus_untouched|].
  split.
  { apply Forall_fmap, Forall_fmap, Forall_forall. intros i Hi.
    apply elem_of_seq in Hi.
    destruct (azure_orchestrator_written output_dir az dtf Haz Haz' Hdtf
                (fs w) i ltac:(lia)) as (vss & Hvss & Hfile).
    eexists. split; [exact Hfile|].
    by apply azure_orchestrator_file_methods. }
  split.
  { apply Forall_fmap, Forall_fmap, Forall_forall. intros i Hi.
    apply elem_of_seq in Hi.
    eexists. split;
      [exact (azure_activity_written output_dir az dtf Haz Hdtf (fs w) i
                ltac:(lia))|].
    apply azure_activity_file_methods. }
  split.
  { apply Forall_fmap, Forall_fmap, Forall_forall. intros i Hi.
    apply elem_of_seq in Hi.
    destruct (dtf_orchestrator_written output_dir az dtf Haz Hdtf Hdtf'
                (fs w) i ltac:(lia)) as (vss & Hvss & Hfile).
    eexists. split; [exact Hfile|].
    by apply dtf_orchestrator_file_methods. }
  split; [exact E1|]. split; [exact E2|]. split; [exact E3|].
  split; [exact E4|]. split; [reflexivity|].
  split; [by apply summary_written|].
  split; [by vm_compute|]. split; [by vm_compute|]. reflexivity.
Qed.

(** C2 at a concrete run over a file system that already holds a file
    elsewhere: the file is still there. *)
Lemma corpus_totals_witness :
  ∃ w',
    main "/repo/perf"
      (World [2; 7; 1; 8] {["/elsewhere/notes.txt" := "keep"]} [])
    = Ok tt w'
    ∧ ("/elsewhere/notes.txt" ∉ path_join "/repo/perf" <$> corpus_names)
    ∧ fs w' !! "/elsewhere/notes.txt" = Some "keep".
Proof.
  destruct (corpus_totals "/repo/perf"
              (World [2; 7; 1; 8] {["/elsewhere/notes.txt" := "keep"]} []))
    as (w' & summary & Hrun & _ & _ & _ & _ & _ & _ & _ & Hother & _).
  assert ("/elsewhere/notes.txt"
          ∉ (path_join "/repo/perf" <$> corpus_names)) as Hout.
  { apply (bool_decide_unpack _). vm_compute. exact I. }
  exists w'. split; [exact Hrun|]. split; [exact Hout|].
  rewrite (Hother _ Hout). reflexivity.
Defined.



(** C4.  In every class rendered by [generate_orchestrator] or by
    [generate_dtf_orchestrator], the method of index [i] first declares one
    local per selected violation, named [temp0], [temp1], ... and so
    pairwise distinct; no activity call precedes these declarations; then
    come exactly two activity calls, the first to the activity named by
    [i mod 10], the second with the fixed arguments; and the method ends by
    returning its completion marker.  The last two conjuncts read the calls
    of the method in the order in which they stand: the one that carries
    [i mod 10] is the first of the two, the fixed one the second. *)
Theorem orchestrator_method_shape (namespace class_name : string)
    (method_count : nat) (w : world) :
  dotless class_name = true →
  ∃ vss w',
    generate_orchestrator namespace class_name method_count w
    = Ok (orchestrator_class namespace class_name
            (orchestrator_methods class_name vss)) w'
    ∧ generate_dtf_orchestrator namespace class_name method_count w
      = Ok (dtf_class namespace class_name (dtf_methods vss)) w'
    ∧ length vss = method_count
    ∧ ∀ i vs, vss !! i = Some vs →
        let code := violation_code vs in
        let azure := orchestrator_method class_name i code in
        let dtf := dtf_method i code in
        orchestrator_methods class_name vss !! i = Some azure
        ∧ dtf_methods vss !! i = Some dtf
        ∧ code = join (nl +:+ "        ")
                   (zip_with local_declaration (seq 0 (length vs)) vs)
        ∧ NoDup (local_name <$> seq 0 (length vs))
        ∧ (∃ rest,
             azure = orchestrator_method_head class_name i +:+ code +:+ rest
             ∧ count_sub call_marker (orchestrator_method_head class_name i) = 0
             ∧ ends_with (return_statement "completed") rest)
        ∧ (∃ rest,
             dtf = dtf_method_head i +:+ code +:+ rest
             ∧ count_sub call_marker (dtf_method_head i) = 0
             ∧ ends_with (return_statement "dtf completed") rest)
        ∧ count_sub call_marker azure = 2
        ∧ count_sub call_marker dtf = 2
        ∧ rest_of_line string_call_marker azure
          = Some (dq +:+ "Activity" +:+ str (i mod 10) +:+ dq +:+ ", "
                  +:+ dq +:+ "data" +:+ dq +:+ ");")
        ∧ rest_of_line int_call_marker azure
          = Some (dq +:+ "CalculateActivity" +:+ dq +:+ ", i);")
        ∧ rest_of_line string_call_marker dtf
          = Some (dq +:+ "DtfActivity" +:+ str (i mod 10) +:+ dq +:+ ", "
                  +:+ dq +:+ "data" +:+ dq +:+ ");")
        ∧ rest_of_line int_call_marker dtf
          = Some (dq +:+ "DtfCalculateActivity" +:+ dq +:+ ", i);")
        ∧ lines_after call_marker azure
          = [ "string>(" +:+ dq +:+ "Activity" +:+ str (i mod 10) +:+ dq
              +:+ ", " +:+ dq +:+ "data" +:+ dq +:+ ");";
              "int>(" +:+ dq +:+ "CalculateActivity" +:+ dq +:+ ", i);" ]
        ∧ lines_after call_marker dtf
          = [ "string>(" +:+ dq +:+ "DtfActivity" +:+ str (i mod 10) +:+ dq
              +:+ ", " +:+ dq +:+ "data" +:+ dq +:+ ");";
              "int>(" +:+ dq +:+ "DtfCalculateActivity" +:+ dq +:+ ", i);" ].
Proof.
  intros Hcls. destruct w as [t f o].
  destruct (orchestrators_run method_count t)
    as (vss & t' & Hlen & Hall & Hrun).
  exists vss, (World t' f o).
  split; [apply Hrun|]. split; [apply Hrun|]. split; [done|].
  intros i vs Hvs code azure dtf.
  assert (vs ⊆ violations) as Hsub.
  { by destruct (Forall_lookup_1 _ _ _ _ Hall Hvs) as (_ & _ & ?). }
  destruct (orchestrator_method_call_lines class_name i vs Hcls Hsub)
    as [Hl1 Hl2].
  destruct (dtf_method_call_lines i vs Hsub) as [Hl3 Hl4].
  pose proof (orchestrator_method_calls_in_order class_name i vs EmptyString
                (inert_count _ _ (inert_dotless call_marker _ eq_refl Hcls))
                Hsub) as Ho1.
  pose proof (dtf_method_call_lines_in_order i vs EmptyString Hsub) as Ho2.
  rewrite append_nil_r in Ho1, Ho2.
  split_and!.
  - by apply orchestrator_methods_lookup.
  - by apply dtf_methods_lookup.
  - apply violation_code_declarations.
  - apply local_names_NoDup.
  - by apply orchestrator_method_order.
  - apply dtf_method_order.
  - by apply orchestrator_method_calls.
  - by apply dtf_method_calls.
  - exact Hl1.
  - exact Hl2.
  - exact Hl3.
  - exact Hl4.
  - exact Ho1.
  - exact Ho2.
Qed.

(** C4 at a concrete class: [TestOrchestrator000] has no dot. *)
Lemma orchestrator_method_shape_witness :
  dotless "TestOrchestrator000" = true
  ∧ ∃ vss w',
      generate_orchestrator "Performance.Azure.Batch0" "TestOrchestrator000" 8
        (World [3; 7; 2; 9; 4] ∅ [])
      = Ok (orchestrator_class "Performance.Azure.Batch0" "TestOrchestrator000"
              (orchestrator_methods "TestOrchestrator000" vss)) w'
      ∧ length vss = 8.
Proof.
  split; [reflexivity|].
  destruct (orchestrator_method_shape "Performance.Azure.Batch0"
              "TestOrchestrator000" 8 (World [3; 7; 2; 9; 4] ∅ []) eq_refl)
    as (vss & w' & Hrun & _ & Hlen & _).
  exists vss, w'. split; [exact Hrun|exact Hlen].
Defined.

(** C5.  Two runs of the generator, from any two process states, write the
    same text for every activity class: nothing in an activity method
    varies between runs.  The delay of each method is the call
    [Random.Shared.Next(10, 100)], whose values lie in [10, 100). *)
Theorem activity_bodies_stable_across_runs (output_dir : string)
    (w1 w2 : world) :
  ∃ w1' w2',
    main output_dir w1 = Ok tt w1'
    ∧ main output_dir w2 = Ok tt w2'
    ∧ (∀ i, i < 30 →
        let class_name := "TestActivity" +:+ format_03d i in
        let methods := activity_methods class_name 5 in
        let text :=
          activity_class ("Performance.Azure.Activities.Batch" +:+ str (i / 10))
            class_name methods in
        fs w1' !! path_join output_dir (azure_activity_name i) = Some text
        ∧ fs w2' !! path_join output_dir (azure_activity_name i) = Some text
        ∧ count_methods text = 5
        ∧ Forall (λ method,
                    count_sub delay_marker method = 1
                    ∧ rest_of_line delay_marker method
                      = Some ("Random.Shared.Next(" +:+ str 10 +:+ ", "
                              +:+ str 100 +:+ "));"))
                 methods)
    ∧ (∀ r, 10 ≤ dotnet_next 10 100 r < 100).
Proof.
  destruct (main_outcome output_dir w1)
    as (az1 & dtf1 & t1 & Haz1 & Haz1' & Hdtf1 & Hdtf1' & Hrun1).
  destruct (main_outcome output_dir w2)
    as (az2 & dtf2 & t2 & Haz2 & Haz2' & Hdtf2 & Hdtf2' & Hrun2).
  eexists _, _. split_and!; [exact Hrun1|exact Hrun2| |].
  - intros i Hi class_name methods text. cbn [fs]. split_and!.
    + exact (azure_activity_written output_dir az1 dtf1 Haz1 Hdtf1 (fs w1) i Hi).
    + exact (azure_activity_written output_dir az2 dtf2 Haz2 Hdtf2 (fs w2) i Hi).
    + apply (azure_activity_file_methods output_dir i).
    + subst methods. unfold activity_methods.
      apply Forall_fmap, Forall_forall. intros j _.
      pose proof (numbered_name_dotless "TestActivity" i eq_refl) as Hcls.
      destruct (activity_method_delay class_name j Hcls) as (H1 & _).
      split; [done|]. by apply activity_method_delay_line.
  - intros r. unfold dotnet_next.
    pose proof (Nat.mod_upper_bound r (100 - 10)). lia.
Qed.

(** C5 at two concrete runs and the activity class of index 7. *)
Lemma activity_bodies_stable_across_runs_witness :
  ∃ w1' w2' text,
    main "/repo/perf" (World [] ∅ []) = Ok tt w1'
    ∧ main "/repo/perf" (World [3; 1; 4; 1; 5; 9; 2; 6] ∅ []) = Ok tt w2'
    ∧ fs w1' !! path_join "/repo/perf" (azure_activity_name 7) = Some text
    ∧ fs w2' !! path_join "/repo/perf" (azure_activity_name 7) = Some text.
Proof.
  destruct (activity_bodies_stable_across_runs "/repo/perf"
              (World [] ∅ []) (World [3; 1; 4; 1; 5; 9; 2; 6] ∅ []))
    as (w1' & w2' & Hrun1 & Hrun2 & Hfiles & _).
  destruct (Hfiles 7 ltac:(lia)) as (H1 & H2 & _).
  eexists w1', w2', _. split_and!; [exact Hrun1|exact Hrun2|exact H1|exact H2].
Defined.

(** C6.  Two runs of the generator, from any two process states, write the
    same set of artifacts, print the same lines and write the same summary
    and the same activity classes.  The orchestrator classes written at a
    path may differ between the runs, but only in the violations embedded
    in their methods: both texts are the same rendering applied to lists of
    samples that stay in bounds (one per method, 1 to 4 distinct catalog
    entries each), so they declare the same namespace, class and method
    names and have the same number of methods. *)
Theorem reruns_keep_names_and_structure (output_dir : string)
    (w1 w2 : world) :
  ∃ w1' w2',
    main output_dir w1 = Ok tt w1'
    ∧ main output_dir w2 = Ok tt w2'
    ∧ dom (fs w1')
      = list_to_set (path_join output_dir <$> corpus_names) ∪ dom (fs w1)
    ∧ dom (fs w2')
      = list_to_set (path_join output_dir <$> corpus_names) ∪ dom (fs w2)
    ∧ (∀ i, i < 50 → ∃ vss1 vss2,
          class_draws 8 vss1 ∧ class_draws 8 vss2
          ∧ fs w1' !! path_join output_dir (azure_orchestrator_name i)
            = Some (azure_orchestrator_file output_dir i vss1).2
          ∧ fs w2' !! path_join output_dir (azure_orchestrator_name i)
            = Some (azure_orchestrator_file output_dir i vss2).2
          ∧ same_structure (azure_orchestrator_file output_dir i vss1).2
                           (azure_orchestrator_file output_dir i vss2).2
          ∧ Forall2 same_declaration
              (orchestrator_methods ("TestOrchestrator" +:+ format_03d i) vss1)
              (orchestrator_methods ("TestOrchestrator" +:+ format_03d i) vss2))
    ∧ (∀ i, i < 30 →
          fs w1' !! path_join output_dir (azure_activity_name i)
          = Some (azure_activity_file output_dir i).2
          ∧ fs w2' !! path_join output_dir (azure_activity_name i)
            = Some (azure_activity_file output_dir i).2)
    ∧ (∀ i, i < 25 → ∃ vss1 vss2,
          class_draws 6 vss1 ∧ class_draws 6 vss2
          ∧ fs w1' !! path_join output_dir (dtf_orchestrator_name i)
            = Some (dtf_orchestrator_file output_dir i vss1).2
          ∧ fs w2' !! path_join output_dir (dtf_orchestrator_name i)
            = Some (dtf_orchestrator_file output_dir i vss2).2
          ∧ same_structure (dtf_orchestrator_file output_dir i vss1).2
                           (dtf_orchestrator_file output_dir i vss2).2
          ∧ Forall2 same_declaration (dtf_methods vss1) (dtf_methods vss2))
    ∧ fs w1' !! path_join output_dir summary_name = Some (summary_text 105 700)
    ∧ fs w2' !! path_join output_dir summary_name = Some (summary_text 105 700)
    ∧ stdout w1' = stdout w1 ++ report_lines
    ∧ stdout w2' = stdout w2 ++ report_lines.
Proof.
  destruct (main_outcome output_dir w1)
    as (az1 & dtf1 & t1 & Haz1 & Haz1' & Hdtf1 & Hdtf1' & Hrun1).
  destruct (main_outcome output_dir w2)
    as (az2 & dtf2 & t2 & Haz2 & Haz2' & Hdtf2 & Hdtf2' & Hrun2).
  eexists _, _. split; [exact Hrun1|]. split; [exact Hrun2|].
  cbn [fs stdout]. split_and!.
  - by apply corpus_dom.
  - by apply corpus_dom.
  - intros i Hi.
    destruct (azure_orchestrator_written output_dir az1 dtf1 Haz1 Haz1' Hdtf1
                (fs w1) i Hi) as (vss1 & Hd1 & Hf1).
    destruct (azure_orchestrator_written output_dir az2 dtf2 Haz2 Haz2' Hdtf2
                (fs w2) i Hi) as (vss2 & Hd2 & Hf2).
    exists vss1, vss2.
    split; [exact Hd1|]. split; [exact Hd2|].
    split; [exact Hf1|]. split; [exact Hf2|]. split.
    + by apply azure_orchestrator_files_same_structure.
    + apply orchestrator_methods_same_names.
      * exact (proj2 (numbered_name_inert "TestOrchestrator" i eq_refl)).
      * destruct Hd1 as [-> _], Hd2 as [-> _]. reflexivity.
  - intros i Hi. split.
    + exact (azure_activity_written output_dir az1 dtf1 Haz1 Hdtf1 (fs w1) i Hi).
    + exact (azure_activity_written output_dir az2 dtf2 Haz2 Hdtf2 (fs w2) i Hi).
  - intros i Hi.
    destruct (dtf_orchestrator_written output_dir az1 dtf1 Haz1 Hdtf1 Hdtf1'
                (fs w1) i Hi) as (vss1 & Hd1 & Hf1).
    destruct (dtf_orchestrator_written output_dir az2 dtf2 Haz2 Hdtf2 Hdtf2'
                (fs w2) i Hi) as (vss2 & Hd2 & Hf2).
    exists vss1, vss2.
    split; [exact Hd1|]. split; [exact Hd2|].
    split; [exact Hf1|]. split; [exact Hf2|]. split.
    + by apply dtf_orchestrator_files_same_structure.
    + apply dtf_methods_same_names.
      destruct Hd1 as [-> _], Hd2 as [-> _]. reflexivity.
  - by apply summary_written.
  - by apply summary_written.
  - reflexivity.
  - reflexivity.
Qed.

(** C6 at two concrete runs and the orchestrator class of index 12. *)
Lemma reruns_keep_names_and_structure_witness :
  ∃ w1' w2' vss1 vss2,
    main "/repo/perf" (World [] ∅ []) = Ok tt w1'
    ∧ main "/repo/perf" (World [3; 1; 4; 1; 5; 9; 2; 6] ∅ []) = Ok tt w2'
    ∧ class_draws 8 vss1 ∧ class_draws 8 vss2
    ∧ fs w1' !! path_join "/repo/perf" (azure_orchestrator_name 12)
      = Some (azure_orchestrator_file "/repo/perf" 12 vss1).2
    ∧ fs w2' !! path_join "/repo/perf" (azure_orchestrator_name 12)
      = Some (azure_orchestrator_file "/repo/perf" 12 vss2).2.
Proof.
  destruct (reruns_keep_names_and_structure "/repo/perf"
              (World [] ∅ []) (World [3; 1; 4; 1; 5; 9; 2; 6] ∅ []))
    as (w1' & w2' & Hrun1 & Hrun2 & _ & _ & Haz & _).
  destruct (Haz 12 ltac:(lia)) as (vss1 & vss2 & H1 & H2 & H3 & H4 & _).
  exists w1', w2', vss1, vss2.
  split_and!; [exact Hrun1|exact Hrun2|exact H1|exact H2|exact H3|exact H4].
Defined.




(** C8, amended.  A run writes its artifacts into [output_dir], the
    directory of the generator, and nothing else: one file per class, named
    by the profile prefix, the class index as three zero-padded digits and
    the extension [.cs] ([Azure_Orchestrator_000.cs] through
    [Azure_Orchestrator_049.cs], [Azure_Activity_000.cs] through
    [Azure_Activity_029.cs], [DTF_Orchestrator_000.cs] through
    [DTF_Orchestrator_024.cs]), and one summary file [CodebaseSummary.txt].
    The paths are pairwise distinct, so no class shares its file, and the
    file of index [i] declares the class of index [i]. *)
Theorem artifacts_named_by_profile_and_index (output_dir : string) (w : world) :
  ∃ w',
    main output_dir w = Ok tt w'
    ∧ corpus_names
      = ((λ i, "Azure_Orchestrator_" +:+ three_digits i +:+ ".cs") <$> seq 0 50)
        ++ ((λ i, "Azure_Activity_" +:+ three_digits i +:+ ".cs") <$> seq 0 30)
        ++ ((λ i, "DTF_Orchestrator_" +:+ three_digits i +:+ ".cs") <$> seq 0 25)
        ++ ["CodebaseSummary.txt"]
    ∧ three_digits 0 = "000" ∧ three_digits 24 = "024"
    ∧ three_digits 29 = "029" ∧ three_digits 49 = "049"
    ∧ dom (fs w')
      = list_to_set (path_join output_dir <$> corpus_names) ∪ dom (fs w)
    ∧ (∀ p, p ∉ path_join output_dir <$> corpus_names →
            fs w' !! p = fs w !! p)
    ∧ NoDup (path_join output_dir <$> corpus_names)
    ∧ Forall (λ name, path_join output_dir name
                      = dir_prefix output_dir +:+ name) corpus_names
    ∧ (∀ i, i < 50 → ∃ text,
          fs w' !! path_join output_dir
                     ("Azure_Orchestrator_" +:+ three_digits i +:+ ".cs")
          = Some text
          ∧ declared_class text = Some ("TestOrchestrator" +:+ three_digits i))
    ∧ (∀ i, i < 30 → ∃ text,
          fs w' !! path_join output_dir
                     ("Azure_Activity_" +:+ three_digits i +:+ ".cs")
          = Some text
          ∧ declared_class text = Some ("TestActivity" +:+ three_digits i))
    ∧ (∀ i, i < 25 → ∃ text,
          fs w' !! path_join output_dir
                     ("DTF_Orchestrator_" +:+ three_digits i +:+ ".cs")
          = Some text
          ∧ declared_class text = Some ("DtfOrchestrator" +:+ three_digits i))
    ∧ fs w' !! path_join output_dir "CodebaseSummary.txt"
      = Some (summary_text 105 700).
Proof.
  destruct (main_outcome output_dir w)
    as (az & dtf & t' & Haz & Haz' & Hdtf & Hdtf' & Hrun).
  eexists. split; [exact Hrun|]. cbn [fs].
  split_and!; try reflexivity.
  - by apply corpus_dom.
  - intros p Hp. by apply corpus_untouched.
  - apply corpus_paths_NoDup.
  - eapply Forall_impl; [apply corpus_names_relative|].
    intros name. apply path_join_relative.
  - intros i Hi. rewrite <- format_03d_three_digits by lia.
    destruct (azure_orchestrator_written output_dir az dtf Haz Haz' Hdtf
                (fs w) i Hi) as (vss & _ & Hfile).
    eexists. split; [exact Hfile|].
    apply azure_orchestrator_file_declares.
  - intros i Hi. rewrite <- format_03d_three_digits by lia.
    eexists. split;
      [exact (azure_activity_written output_dir az dtf Haz Hdtf (fs w) i Hi)|].
    apply azure_activity_file_declares.
  - intros i Hi. rewrite <- format_03d_three_digits by lia.
    destruct (dtf_orchestrator_written output_dir az dtf Haz Hdtf Hdtf'
                (fs w) i Hi) as (vss & _ & Hfile).
    eexists. split; [exact Hfile|].
    apply dtf_orchestrator_file_declares.
  - by apply summary_written.
Qed.

(** C8, amended, at a concrete run: the last Azure orchestrator file, and
    a path outside the corpus. *)
Lemma artifacts_named_by_profile_and_index_witness :
  ∃ w' text,
    main "/repo/perf" (World [2; 7; 1; 8] ∅ []) = Ok tt w'
    ∧ fs w' !! path_join "/repo/perf"
                 ("Azure_Orchestrator_" +:+ three_digits 49 +:+ ".cs")
      = Some text
    ∧ declared_class text = Some ("TestOrchestrator" +:+ three_digits 49)
    ∧ fs w' !! "/elsewhere/notes.txt"
      = fs (World [2; 7; 1; 8] ∅ []) !! "/elsewhere/notes.txt".
Proof.
  destruct (artifacts_named_by_profile_and_index "/repo/perf"
              (World [2; 7; 1; 8] ∅ []))
    as (w' & Hrun & _ & _ & _ & _ & _ & _ & Hother & _ & _ & Haz & _).
  destruct (Haz 49 ltac:(lia)) as (text & Hfile & Hcls).
  exists w', text. split_and!; [exact Hrun|exact Hfile|exact Hcls|].
  apply Hother. apply (bool_decide_unpack _). vm_compute. exact I.
Defined.

(** C8 as stated fails: the artifact names carry the extension [.cs].
    After a run from an empty file system there is no file named
    [Azure_Orchestrator_000]; the class of index 0 is in
    [Azure_Orchestrator_000.cs]. *)
Lemma extensionless_artifact_absent :
  ∃ w',
    main "/repo/perf" (World [] ∅ []) = Ok tt w'
    ∧ fs w' !! path_join "/repo/perf" "Azure_Orchestrator_000" = None
    ∧ is_Some (fs w' !! path_join "/repo/perf" "Azure_Orchestrator_000.cs").
Proof.
  destruct (main_outcome "/repo/perf" (World [] ∅ []))
    as (az & dtf & t' & Haz & Haz' & Hdtf & Hdtf' & Hrun).
  eexists. split; [exact Hrun|]. cbn [fs]. split.
  - rewrite (corpus_untouched "/repo/perf" az dtf Haz Hdtf ∅).
    + reflexivity.
    + apply (bool_decide_unpack _). vm_compute. exact I.
  - destruct (azure_orchestrator_written "/repo/perf" az dtf Haz Haz' Hdtf
                ∅ 0 ltac:(lia)) as (vss & _ & Hfile).
    eexists. exact Hfile.
Qed.

(** C9.  [generate_activity] uses no randomness: it returns the same text
    from every process state and leaves the state, the random tape
    included, untouched.  The randomized delay exists only as text: each
    method has one delay, one call of [Next], and both are the literal
    [Random.Shared.Next(10, 100)]. *)
Theorem activity_generation_deterministic
    (namespace class_name : string) (method_count : nat) :
  (∀ w, generate_activity namespace class_name method_count w
        = Ok (activity_class namespace class_name
                (activity_methods class_name method_count)) w)
  ∧ (∀ w1 w2, ∃ text,
        generate_activity namespace class_name method_count w1 = Ok text w1
        ∧ generate_activity namespace class_name method_count w2 = Ok text w2)
  ∧ length (activity_methods class_name method_count) = method_count
  ∧ (dotless class_name = true →
     Forall (λ method,
               count_sub delay_marker method = 1
               ∧ count_sub next_marker method = 1
               ∧ count_sub delay_literal method = 1
               ∧ rest_of_line delay_marker method
                 = Some "Random.Shared.Next(10, 100));")
            (activity_methods class_name method_count)).
Proof.
  split_and!.
  - intros w. apply generate_activity_run.
  - intros w1 w2. eexists. split; apply generate_activity_run.
  - apply length_activity_methods.
  - intros Hcls. unfold activity_methods. apply Forall_fmap, Forall_forall.
    intros i _.
    destruct (activity_method_delay class_name i Hcls) as (H1 & H2 & H3 & _).
    split_and!; try done.
    by rewrite activity_method_delay_line.
Qed.

(** C9 at a concrete class: [TestActivity000] has no dot. *)
Lemma activity_generation_deterministic_witness :
  dotless "TestActivity000" = true
  ∧ Forall (λ method,
              count_sub delay_marker method = 1
              ∧ count_sub next_marker method = 1
              ∧ count_sub delay_literal method = 1
              ∧ rest_of_line delay_marker method
                = Some "Random.Shared.Next(10, 100));")
           (activity_methods "TestActivity000" 5).
Proof.
  split; [reflexivity|].
  apply (activity_generation_deterministic
           "Performance.Azure.Activities.Batch0" "TestActivity000" 5).
  reflexivity.
Defined.

(** C10.  The class of index [i] is declared in the namespace of its profile
    with batch suffix [i / 10]: the text written for it says so.  Two
    classes of a profile share a namespace exactly when their indices have
    the same quotient by 10, so a namespace holds at most 10 classes and
    their indices are consecutive. *)
Theorem classes_batched_by_ten (output_dir : string) (w : world) :
  ∃ w',
    main output_dir w = Ok tt w'
    ∧ (∀ i, i < 50 → ∃ text,
          fs w' !! path_join output_dir (azure_orchestrator_name i) = Some text
          ∧ declared_namespace text
            = Some ("Performance.Azure.Batch" +:+ str (i / 10)))
    ∧ (∀ i, i < 30 → ∃ text,
          fs w' !! path_join output_dir (azure_activity_name i) = Some text
          ∧ declared_namespace text
            = Some ("Performance.Azure.Activities.Batch" +:+ str (i / 10)))
    ∧ (∀ i, i < 25 → ∃ text,
          fs w' !! path_join output_dir (dtf_orchestrator_name i) = Some text
          ∧ declared_namespace text
            = Some ("Performance.DTF.Batch" +:+ str (i / 10)))
    ∧ (∀ stem i j, stem +:+ str (i / 10) = stem +:+ str (j / 10)
                   ↔ i / 10 = j / 10)
    ∧ (∀ i j, i / 10 = j / 10 → i - j < 10 ∧ j - i < 10)
    ∧ (∀ i j k, i ≤ j ≤ k → i / 10 = k / 10 → j / 10 = i / 10)
    ∧ (∀ n b, length (filter (λ i, i / 10 = b) (range n)) ≤ 10).
Proof.
  destruct (main_outcome output_dir w)
    as (az & dtf & t' & Haz & Haz' & Hdtf & Hdtf' & Hrun).
  eexists. split; [exact Hrun|]. cbn [fs].
  split_and!.
  - intros i Hi.
    destruct (azure_orchestrator_written output_dir az dtf Haz Haz' Hdtf
                (fs w) i Hi) as (vss & _ & Hfile).
    eexists. split; [exact Hfile|].
    apply azure_orchestrator_file_declares.
  - intros i Hi. eexists. split;
      [exact (azure_activity_written output_dir az dtf Haz Hdtf (fs w) i Hi)|].
    apply azure_activity_file_declares.
  - intros i Hi.
    destruct (dtf_orchestrator_written output_dir az dtf Haz Hdtf Hdtf'
                (fs w) i Hi) as (vss & _ & Hfile).
    eexists. split; [exact Hfile|].
    apply dtf_orchestrator_file_declares.
  - intros stem i j. split; [|by intros ->].
    intros H%append_inj_l. by apply str_inj.
  - intros i j Hij.
    pose proof (Nat.div_mod_eq i 10). pose proof (Nat.div_mod_eq j 10).
    pose proof (Nat.mod_upper_bound i 10). pose proof (Nat.mod_upper_bound j 10).
    lia.
  - intros i j k Hijk Hik.
    pose proof (Nat.Div0.div_le_mono i j 10). pose proof (Nat.Div0.div_le_mono j k 10).
    lia.
  - intros n b. unfold range.
    assert (filter (λ i, i / 10 = b) (seq 0 n) ⊆+ seq (10 * b) 10) as Hsub.
    { apply NoDup_submseteq; [apply NoDup_filter, NoDup_seq|].
      intros x [Hx _]%list_elem_of_filter. apply elem_of_seq.
      pose proof (Nat.div_mod_eq x 10).
      pose proof (Nat.mod_upper_bound x 10). lia. }
    apply submseteq_length in Hsub. by rewrite length_seq in Hsub.
Qed.

(** C10 at a concrete run and the indices 37 and 30. *)
Lemma classes_batched_by_ten_witness :
  ∃ w' text,
    main "/repo/perf" (World [2; 7; 1; 8] ∅ []) = Ok tt w'
    ∧ fs w' !! path_join "/repo/perf" (azure_orchestrator_name 37) = Some text
    ∧ declared_namespace text = Some ("Performance.Azure.Batch" +:+ str (37 / 10))
    ∧ 37 - 30 < 10.
Proof.
  destruct (classes_batched_by_ten "/repo/perf" (World [2; 7; 1; 8] ∅ []))
    as (w' & Hrun & Haz & _ & _ & _ & Hwin & _).
  destruct (Haz 37 ltac:(lia)) as (text & Hfile & Hns).
  exists w', text. split_and!; [exact Hrun|exact Hfile|exact Hns|].
  exact (proj1 (Hwin 37 30 eq_refl)).
Defined.

(** * Further properties of the code *)

(** ** Every bounded sample can be drawn *)

(** Any duplicate-free selection from the live part of the pool is the
    outcome of the selection loop on some tape, which the loop uses up. *)
Lemma sample_pool_reaches {A} (n : nat) (target : list A) :
  ∀ (i : nat) (pool result : list A),
    i + length target ≤ n →
    n ≤ length pool →
    NoDup (take (n - i) pool) →
    NoDup target →
    target ⊆ take (n - i) pool →
    ∃ t, ∀ f o,
      sample_pool n (seq i (length target)) pool result (World t f o)
      = Ok (result ++ target) (World [] f o).
Proof.
  induction target as [|x target IH]; intros i pool result Hi Hn Hnd Ht Hsub.
  - exists []. intros f o. simpl. by rewrite app_nil_r.
  - simpl in Hi. apply NoDup_cons in Ht as [Hx Ht].
    assert (x ∈ take (n - i) pool) as Hxin by (apply Hsub; left).
    apply list_elem_of_lookup in Hxin as [j Hj].
    apply lookup_take_Some in Hj as [Hj Hjn].
    destruct (lookup_lt_is_Some_2 pool (n - i - 1)) as [y Hy]; [lia|].
    replace (n - i) with (S (n - i - 1)) in Hnd, Hjn, Hsub by lia.
    destruct (pool_step pool (n - i - 1) j x y Hnd Hjn Hj Hy)
      as (Hnd' & Hx' & _).
    destruct (IH (S i) (<[j := y]> pool) (result ++ [x])) as [t Hrun].
    { lia. } { by rewrite length_insert. }
    { by replace (n - S i) with (n - i - 1) by lia. }
    { done. }
    { replace (n - S i) with (n - i - 1) by lia.
      intros z Hz.
      assert (z ≠ x) as Hzx by (intros ->; done).
      assert (z ∈ take (S (n - i - 1)) pool) as Hzin
        by (apply Hsub; by right).
      apply list_elem_of_lookup in Hzin as [a Ha].
      apply lookup_take_Some in Ha as [Ha Han].
      assert (a ≠ j) as Haj by (intros ->; congruence).
      apply list_elem_of_lookup.
      destruct (decide (a = n - i - 1)) as [->|Hne].
      - exists j. rewrite lookup_take_lt by lia.
        rewrite list_lookup_insert_eq by (by eapply lookup_lt_Some).
        congruence.
      - exists a. rewrite lookup_take_lt by lia.
        by rewrite list_lookup_insert_ne. }
    exists (j :: t). intros f o. cbn [length seq sample_pool].
    erewrite bind_Ok.
    2:{ unfold randbelow. cbn [rng fs stdout].
        replace (n - i) with (S (n - i - 1)) by lia.
        rewrite Nat.mod_small by lia. reflexivity. }
    rewrite Hj, Hy, Hrun. by rewrite <- app_assoc.
Qed.

(** X1.  [generate_orchestrator_violations] can return every list it is
    allowed to return: for each duplicate-free list of 1 to 4 catalog
    entries, in whatever order, there is a random tape on which the call
    returns exactly that list. *)
Theorem every_bounded_sample_is_drawn (vs : list string) :
  1 ≤ length vs ≤ 4 → NoDup vs → vs ⊆ violations →
  ∃ t, ∀ f o,
    generate_orchestrator_violations (World t f o) = Ok vs (World [] f o).
Proof.
  intros Hlen Hnd Hsub.
  destruct (sample_pool_reaches (length violations) vs 0 violations [])
    as [t Hrun].
  { rewrite violations_length. lia. } { done. }
  { rewrite Nat.sub_0_r, firstn_all. apply violations_NoDup. }
  { done. }
  { by rewrite Nat.sub_0_r, firstn_all. }
  exists ((length vs - 1) :: t). intros f o.
  unfold generate_orchestrator_violations.
  erewrite bind_Ok.
  2:{ unfold randint. case_decide; [lia|].
      erewrite bind_Ok by (unfold randbelow; cbn [rng fs stdout]; reflexivity).
      reflexivity. }
  assert (1 + (length vs - 1) mod (4 + 1 - 1) = length vs) as ->
    by (rewrite Nat.mod_small; lia).
  unfold sample, range. pose proof violations_length as Hten.
  case_decide; [lia|].
  apply Hrun.
Qed.

(** X1 at a selection that is not in catalog order. *)
Lemma every_bounded_sample_is_drawn_witness :
  ∃ t, ∀ f o,
    generate_orchestrator_violations (World t f o)
    = Ok ["Task.Delay(1000)"; "DateTime.Now"] (World [] f o).
Proof.
  apply every_bounded_sample_is_drawn.
  - simpl. lia.
  - apply (bool_decide_unpack _). vm_compute. exact I.
  - apply (bool_decide_unpack _). vm_compute. exact I.
Defined.

(** ** How many violations a run injects *)

(** Occurrences in a joined list, when the separator is inert and no
    element ends in a beginning of the text searched. *)
Lemma count_sub_join (p sep : string) (xs : list string) :
  inert p sep = true →
  Forall (λ x, overhang p x = false) xs →
  count_sub p (join sep xs) = sum_list (count_sub p <$> xs)
  ∧ overhang p (join sep xs) = false.
Proof.
  intros [Hs Hs']%inert_spec Hxs.
  induction Hxs as [|x xs Hx Hxs [IH1 IH2]]; [done|].
  destruct xs as [|y xs].
  - simpl. split; [lia|done].
  - change (join sep (x :: y :: xs)) with (x +:+ sep +:+ join sep (y :: xs)).
    split.
    + rewrite !count_sub_app by done. rewrite Hs, IH1.
      rewrite (fmap_cons _ x). simpl. lia.
    + by repeat apply overhang_app.
Qed.

(** One assignment holds the assignment marker once. *)
Lemma temp_assignment_counted (j : nat) (v : string) :
  v ∈ violations →
  count_assignments (temp_assignment j v) = 1
  ∧ overhang assignment_marker (temp_assignment j v) = false.
Proof.
  intros Hv. unfold count_assignments.
  assert (forallb (inert assignment_marker) violations = true) as Hcat
    by (by vm_compute).
  rewrite forallb_forall in Hcat.
  apply list_elem_of_In, Hcat, inert_spec in Hv as [Hv Hv'].
  pose proof (λ n, inert_count _ _ (inert_str _ assignment_marker_head n)) as Hs.
  pose proof (λ n, inert_overhang _ _ (inert_str _ assignment_marker_head n))
    as Hs'.
  unfold temp_assignment. split.
  - split_count. by rewrite Hv, !Hs.
  - split_overhang.
Qed.

(** The assignment block holds one assignment per selected violation. *)
Lemma violation_code_counted (vs : list string) :
  vs ⊆ violations →
  count_assignments (violation_code vs) = length vs
  ∧ overhang assignment_marker (violation_code vs) = false.
Proof.
  intros Hvs. unfold count_assignments, violation_code.
  assert (Forall (λ x, count_sub assignment_marker x = 1
                       ∧ overhang assignment_marker x = false)
                 (imap temp_assignment vs)) as Hall.
  { generalize temp_assignment, temp_assignment_counted. intros g Hg.
    revert g Hg. induction vs as [|v vs IH]; intros g Hg; [constructor|].
    cbn [imap]. constructor.
    - apply Hg, Hvs. left.
    - apply IH; [intros x Hx; apply Hvs; by right|].
      intros j x Hx. by apply Hg. }
  destruct (count_sub_join assignment_marker (nl +:+ "        ")
              (imap temp_assignment vs)) as [Hsum Hov].
  { by vm_compute. }
  { eapply Forall_impl; [exact Hall|]. by intros x [_ ?]. }
  split; [|done]. rewrite Hsum, (sum_list_fmap_same 1).
  - rewrite length_imap. lia.
  - eapply Forall_impl; [exact Hall|]. by intros x [? _].
Qed.

(** *** Names without a blank

    The text searched for has a blank, so a name without one holds no
    occurrence; and an occurrence cannot run from a name into what follows
    when that begins with a character the text searched for does not have
    past its first position. *)

Lemma count_sub_app_head (p a : string) (c : ascii) (l r : string) :
  has_char c (skip 1 p) = false →
  count_sub p (a +:+ (String c l +:+ r))
  = count_sub p a + count_sub p (String c l +:+ r).
Proof.
  intros Hc. change (String c l +:+ r) with (String c (l +:+ r)).
  generalize (l +:+ r). clear l r. intros b.
  induction a as [|e a IH]; [done|].
  change (String e a +:+ String c b) with (String e (a +:+ String c b)).
  cbn [count_sub]. rewrite IH. cbn [count_sub].
  assert (starts_with p (String e (a +:+ String c b))
          = starts_with p (String e a)) as ->; [|lia].
  destruct p as [|d p]; [done|]. cbn [starts_with skip] in *.
  destruct (Ascii.eqb d e); [|done]. simpl.
  destruct (starts_with p (a +:+ String c b)) eqn:Hs.
  - symmetry. by apply (starts_with_stop c p a b).
  - destruct (starts_with p a) eqn:Ha; [|done].
    apply (starts_with_app_l _ _ (String c b)) in Ha. congruence.
Qed.

Lemma overhang_app_head (p a : string) (c : ascii) (l r : string) :
  has_char c (skip 1 p) = false →
  overhang p (String c l +:+ r) = false →
  overhang p (a +:+ (String c l +:+ r)) = false.
Proof.
  intros Hc. change (String c l +:+ r) with (String c (l +:+ r)).
  generalize (l +:+ r). clear l r. intros b Hb.
  induction a as [|e a IH]; [done|].
  change (String e a +:+ String c b) with (String e (a +:+ String c b)).
  cbn [overhang]. rewrite IH, orb_false_r. unfold proper_prefix.
  destruct (starts_with (String e (a +:+ String c b)) p) eqn:Hs; [|done].
  destruct p as [|d p]; [done|]. cbn [starts_with skip] in *.
  apply andb_prop in Hs as [_ Hs].
  apply (starts_with_has_char c) in Hs; [congruence|].
  rewrite has_char_app. simpl. by rewrite Ascii.eqb_refl, orb_true_r.
Qed.

Lemma blank_free_uncounted (name : string) :
  has_char " " name = false → count_sub assignment_marker name = 0.
Proof. by apply count_sub_excluded. Qed.

(** Splitting a count, or the seam check, over a template with the name
    [x] in it. *)
Ltac split_count_past x :=
  repeat first
    [ rewrite !count_sub_app by seam_safe
    | rewrite (count_sub_app_head _ x) by (vm_compute; reflexivity)
    | rewrite (count_sub_app_head _ x (ascii_of_nat 10) EmptyString)
        by (vm_compute; reflexivity) ].

Ltac split_overhang_past :=
  repeat first
    [ apply overhang_app; [seam_safe|]
    | apply overhang_app_head; [vm_compute; reflexivity|] ];
  seam_safe.

(** The assignments of a method are those of its assignment block. *)
Lemma orchestrator_method_counted (class_name : string) (i : nat)
    (vs : list string) :
  has_char " " class_name = false →
  vs ⊆ violations →
  let method := orchestrator_method class_name i (violation_code vs) in
  count_assignments method = length vs
  ∧ overhang assignment_marker method = false.
Proof.
  intros Hc%blank_free_uncounted Hvs method. subst method.
  destruct (violation_code_counted vs Hvs) as [Hv Hv'].
  unfold count_assignments in *.
  pose proof (λ n, inert_count _ _ (inert_str _ assignment_marker_head n)) as Hs.
  pose proof (λ n, inert_overhang _ _ (inert_str _ assignment_marker_head n))
    as Hs'.
  unfold orchestrator_method. split.
  - split_count_past class_name. rewrite Hc, Hv, !Hs.
    vm_compute count_sub. lia.
  - split_overhang_past.
Qed.

Lemma dtf_method_counted (i : nat) (vs : list string) :
  vs ⊆ violations →
  let method := dtf_method i (violation_code vs) in
  count_assignments method = length vs
  ∧ overhang assignment_marker method = false.
Proof.
  intros Hvs method. subst method.
  destruct (violation_code_counted vs Hvs) as [Hv Hv'].
  unfold count_assignments in *.
  pose proof (λ n, inert_count _ _ (inert_str _ assignment_marker_head n)) as Hs.
  pose proof (λ n, inert_overhang _ _ (inert_str _ assignment_marker_head n))
    as Hs'.
  unfold dtf_method. split.
  - split_count. rewrite Hv, !Hs. vm_compute count_sub. lia.
  - split_overhang.
Qed.

Lemma activity_method_counted (class_name : string) (i : nat) :
  has_char " " class_name = false →
  count_assignments (activity_method class_name i) = 0
  ∧ overhang assignment_marker (activity_method class_name i) = false.
Proof.
  intros Hc%blank_free_uncounted. unfold count_assignments.
  pose proof (λ n, inert_count _ _ (inert_str _ assignment_marker_head n)) as Hs.
  pose proof (λ n, inert_overhang _ _ (inert_str _ assignment_marker_head n))
    as Hs'.
  unfold activity_method. split.
  - split_count_past class_name. by rewrite Hc, !Hs.
  - split_overhang_past.
Qed.

(** The assignments of a class text are those of its methods. *)
Section class_assignments.
Variables (namespace class_name : string) (methods : list string).
Hypothesis Hns : has_char " " namespace = false.
Hypothesis Hcls : has_char " " class_name = false.
Hypothesis Hms : Forall (λ m, overhang assignment_marker m = false) methods.

Lemma methods_assignments :
  count_sub assignment_marker (join EmptyString methods)
  = sum_list (count_assignments <$> methods)
  ∧ overhang assignment_marker (join EmptyString methods) = false.
Proof. by apply count_sub_concat. Qed.

Lemma orchestrator_class_assignments :
  count_assignments (orchestrator_class namespace class_name methods)
  = sum_list (count_assignments <$> methods).
Proof.
  destruct methods_assignments as [Hm Hm'].
  apply blank_free_uncounted in Hns as Hn, Hcls as Hc.
  unfold count_assignments at 1, orchestrator_class.
  split_count_past namespace. split_count_past class_name.
  rewrite Hn, Hc, Hm. vm_compute count_sub. lia.
Qed.

Lemma activity_class_assignments :
  count_assignments (activity_class namespace class_name methods)
  = sum_list (count_assignments <$> methods).
Proof.
  destruct methods_assignments as [Hm Hm'].
  apply blank_free_uncounted in Hns as Hn, Hcls as Hc.
  unfold count_assignments at 1, activity_class.
  split_count_past namespace. split_count_past class_name.
  rewrite Hn, Hc, Hm. vm_compute count_sub. lia.
Qed.

Lemma dtf_class_assignments :
  count_assignments (dtf_class namespace class_name methods)
  = sum_list (count_assignments <$> methods).
Proof.
  destruct methods_assignments as [Hm Hm'].
  apply blank_free_uncounted in Hns as Hn, Hcls as Hc.
  unfold count_assignments at 1, dtf_class.
  split_count_past namespace. split_count_past class_name.
  rewrite Hn, Hc, Hm. vm_compute count_sub. lia.
Qed.
End class_assignments.

Lemma numbered_name_blank_free (stem : string) (n : nat) :
  has_char " " stem = false →
  has_char " " (stem +:+ str n) = false
  ∧ has_char " " (stem +:+ format_03d n) = false.
Proof.
  intros Hstem. rewrite !has_char_app, Hstem.
  by rewrite has_char_str, has_char_format_03d.
Qed.

(** Sizes of the samples of a class add up to between once and four times
    the number of its methods. *)
Lemma class_draws_total (n : nat) (vss : list (list string)) :
  class_draws n vss → n ≤ sum_list (length <$> vss) ≤ 4 * n.
Proof.
  intros [<- Hall]. induction Hall as [|vs vss (Hlen & _ & _) _ IH].
  - simpl. lia.
  - rewrite fmap_cons. simpl. lia.
Qed.

(** Method by method, the assignments are as many as the violations drawn. *)
Lemma zip_with_counted (mk : nat → string → string) (idxs : list nat)
    (vss : list (list string)) :
  (∀ i vs, vs ⊆ violations →
     count_assignments (mk i (violation_code vs)) = length vs
     ∧ overhang assignment_marker (mk i (violation_code vs)) = false) →
  length idxs = length vss →
  Forall bounded_sample vss →
  let methods := zip_with (λ i vs, mk i (violation_code vs)) idxs vss in
  Forall2 (λ m vs, count_assignments m = length vs) methods vss
  ∧ Forall (λ m, overhang assignment_marker m = false) methods
  ∧ sum_list (count_assignments <$> methods) = sum_list (length <$> vss).
Proof.
  intros Hmk Hlen Hall. revert idxs Hlen.
  induction Hall as [|vs vss (_ & _ & Hvs) _ IH]; intros [|i idxs] Hlen;
    try done.
  cbn [zip_with]. destruct (IH idxs) as (IH1 & IH2 & IH3).
  { by injection Hlen. }
  destruct (Hmk i vs Hvs) as [Hc Ho].
  split_and!.
  - by constructor.
  - by constructor.
  - rewrite !fmap_cons. simpl. simpl in IH3. by rewrite Hc, IH3.
Qed.

Lemma azure_orchestrator_file_assignments (output_dir : string) (i n : nat)
    (vss : list (list string)) :
  class_draws n vss →
  count_assignments (azure_orchestrator_file output_dir i vss).2
  = sum_list (length <$> vss)
  ∧ Forall2 (λ m vs, count_assignments m = length vs)
      (orchestrator_methods ("TestOrchestrator" +:+ format_03d i) vss) vss.
Proof.
  intros [Hlen Hvss]. unfold azure_orchestrator_file. cbn [snd].
  destruct (numbered_name_blank_free "Performance.Azure.Batch"
              (i / 10) eq_refl) as [Hns _].
  destruct (numbered_name_blank_free "TestOrchestrator" i eq_refl)
    as [_ Hcls].
  destruct (zip_with_counted
              (orchestrator_method ("TestOrchestrator" +:+ format_03d i))
              (range (length vss)) vss) as (H1 & H2 & H3).
  { intros j vs Hvs. by apply orchestrator_method_counted. }
  { unfold range. by rewrite length_seq. }
  { done. }
  split; [|exact H1].
  rewrite orchestrator_class_assignments; [exact H3|exact Hns|exact Hcls|].
  exact H2.
Qed.

Lemma dtf_orchestrator_file_assignments (output_dir : string) (i n : nat)
    (vss : list (list string)) :
  class_draws n vss →
  count_assignments (dtf_orchestrator_file output_dir i vss).2
  = sum_list (length <$> vss)
  ∧ Forall2 (λ m vs, count_assignments m = length vs) (dtf_methods vss) vss.
Proof.
  intros [Hlen Hvss]. unfold dtf_orchestrator_file. cbn [snd].
  destruct (numbered_name_blank_free "Performance.DTF.Batch"
              (i / 10) eq_refl) as [Hns _].
  destruct (numbered_name_blank_free "DtfOrchestrator" i eq_refl)
    as [_ Hcls].
  destruct (zip_with_counted dtf_method (range (length vss)) vss)
    as (H1 & H2 & H3).
  { intros j vs Hvs. by apply dtf_method_counted. }
  { unfold range. by rewrite length_seq. }
  { done. }
  split; [|exact H1].
  rewrite dtf_class_assignments; [exact H3|exact Hns|exact Hcls|].
  exact H2.
Qed.

Lemma azure_activity_file_assignments (output_dir : string) (i : nat) :
  count_assignments (azure_activity_file output_dir i).2 = 0.
Proof.
  unfold azure_activity_file. cbn [snd].
  destruct (numbered_name_blank_free
              "Performance.Azure.Activities.Batch" (i / 10) eq_refl)
    as [Hns _].
  destruct (numbered_name_blank_free "TestActivity" i eq_refl)
    as [_ Hcls].
  assert (Forall (λ m, count_assignments m = 0
                       ∧ overhang assignment_marker m = false)
            (activity_methods ("TestActivity" +:+ format_03d i) 5)) as Hall.
  { unfold activity_methods. apply Forall_fmap, Forall_forall.
    intros j _. by apply activity_method_counted. }
  rewrite activity_class_assignments; [|exact Hns|exact Hcls|].
  - rewrite (sum_list_fmap_same 0); [lia|].
    eapply Forall_impl; [exact Hall|]. by intros m [? _].
  - eapply Forall_impl; [exact Hall|]. by intros m [_ ?].
Qed.

(** Total number of assignments in a list of files. *)
Lemma assignments_at_files (f : gmap string string)
    (files : list (string * string)) :
  Forall (λ pc, f !! pc.1 = Some pc.2) files →
  assignments_at f files.*1
  = sum_list ((λ pc, count_assignments pc.2) <$> files).
Proof.
  unfold assignments_at.
  induction 1 as [|[p c] files Hpc _ IH]; [done|].
  rewrite !fmap_cons. cbn [sum_list fst snd]. simpl in Hpc.
  by rewrite Hpc, IH.
Qed.

Lemma assignments_at_app (f : gmap string string)
    (paths1 paths2 : list string) :
  assignments_at f (paths1 ++ paths2)
  = assignments_at f paths1 + assignments_at f paths2.
Proof.
  unfold assignments_at. induction paths1 as [|p paths1 IH]; [done|].
  rewrite <- app_comm_cons, !fmap_cons. cbn [sum_list]. rewrite IH. lia.
Qed.

(** A batch of class files whose assignment counts lie between [a] and [b]
    holds between [a] and [b] assignments per file in total. *)
Lemma batch_total_bounds (a b : nat) (files : list (string * string)) :
  Forall (λ pc, a ≤ count_assignments pc.2 ≤ b) files →
  a * length files
  ≤ sum_list ((λ pc, count_assignments pc.2) <$> files)
  ≤ b * length files.
Proof.
  induction 1 as [|pc files Hpc _ IH]; [simpl; lia|].
  rewrite fmap_cons. simpl. simpl in IH. lia.
Qed.

Section injected.
Variables (output_dir : string) (az dtf : list (list (list string))).
Hypothesis Haz : length az = 50.
Hypothesis Haz_draws : Forall (class_draws 8) az.
Hypothesis Hdtf : length dtf = 25.
Hypothesis Hdtf_draws : Forall (class_draws 6) dtf.
Variable f : gmap string string.

Local Abbreviation written :=
  (write_all (corpus_files output_dir az dtf) f).

Lemma corpus_assignments :
  50 * 8 ≤ assignments_at written
             (path_join output_dir <$> (azure_orchestrator_name <$> range 50))
         ≤ 50 * 32
  ∧ assignments_at written
      (path_join output_dir <$> (azure_activity_name <$> range 30)) = 0
  ∧ 25 * 6 ≤ assignments_at written
               (path_join output_dir <$> (dtf_orchestrator_name <$> range 25))
           ≤ 25 * 24
  ∧ 550 ≤ assignments_at written (path_join output_dir <$> class_names)
        ≤ 2200.
Proof.
  pose proof (corpus_files_written output_dir az dtf Haz Hdtf f) as Hw.
  unfold corpus_files, class_files in Hw.
  rewrite !Forall_app in Hw. destruct Hw as ((Hw1 & Hw2 & Hw3) & _).
  apply assignments_at_files in Hw1, Hw2, Hw3.
  rewrite (zip_with_fst_paths
    (λ i, path_join output_dir (azure_orchestrator_name i))
    (λ i vss, (azure_orchestrator_file output_dir i vss).2)) in Hw1
    by (by rewrite Haz).
  rewrite (zip_with_fst_paths
    (λ i, path_join output_dir (dtf_orchestrator_name i))
    (λ i vss, (dtf_orchestrator_file output_dir i vss).2)) in Hw3
    by (by rewrite Hdtf).
  rewrite <- list_fmap_compose in Hw2.
  pose proof (batch_total_bounds 8 32
    (zip_with (azure_orchestrator_file output_dir) (range 50) az)) as B1.
  pose proof (batch_total_bounds 0 0
    (azure_activity_file output_dir <$> range 30)) as B2.
  pose proof (batch_total_bounds 6 24
    (zip_with (dtf_orchestrator_file output_dir) (range 25) dtf)) as B3.
  rewrite length_zip_with_r_eq in B1 by (by rewrite Haz).
  rewrite length_zip_with_r_eq in B3 by (by rewrite Hdtf).
  assert (length (range 30) = 30) as Hthirty
    by (unfold range; apply length_seq).
  rewrite length_fmap, Hthirty in B2.
  rewrite Haz in B1. rewrite Hdtf in B3.
  assert (assignments_at written
    (path_join output_dir <$> (azure_orchestrator_name <$> range 50))
    = sum_list ((λ pc, count_assignments pc.2) <$>
        zip_with (azure_orchestrator_file output_dir) (range 50) az)) as E1
    by (by rewrite <- list_fmap_compose).
  assert (assignments_at written
    (path_join output_dir <$> (azure_activity_name <$> range 30))
    = sum_list ((λ pc, count_assignments pc.2) <$>
        (azure_activity_file output_dir <$> range 30))) as E2
    by (by rewrite <- list_fmap_compose).
  assert (assignments_at written
    (path_join output_dir <$> (dtf_orchestrator_name <$> range 25))
    = sum_list ((λ pc, count_assignments pc.2) <$>
        zip_with (dtf_orchestrator_file output_dir) (range 25) dtf)) as E3
    by (by rewrite <- list_fmap_compose).
  unfold class_names. rewrite !fmap_app, !assignments_at_app, E1, E2, E3.
  clear Hw1 Hw2 Hw3 E1 E2 E3.
  assert (Forall (λ pc, 8 ≤ count_assignments pc.2 ≤ 32)
    (zip_with (azure_orchestrator_file output_dir) (range 50) az)) as F1.
  { eapply Forall_zip_with_snd; [|exact Haz_draws].
    apply Forall_forall. intros i _ vss Hvss.
    rewrite (proj1 (azure_orchestrator_file_assignments _ i 8 vss Hvss)).
    apply (class_draws_total 8 vss Hvss). }
  assert (Forall (λ pc, 0 ≤ count_assignments pc.2 ≤ 0)
    (azure_activity_file output_dir <$> range 30)) as F2.
  { apply Forall_fmap, Forall_forall. intros i _.
    change (0 ≤ count_assignments (azure_activity_file output_dir i).2 ≤ 0).
    rewrite azure_activity_file_assignments. lia. }
  assert (Forall (λ pc, 6 ≤ count_assignments pc.2 ≤ 24)
    (zip_with (dtf_orchestrator_file output_dir) (range 25) dtf)) as F3.
  { eapply Forall_zip_with_snd; [|exact Hdtf_draws].
    apply Forall_forall. intros i _ vss Hvss.
    rewrite (proj1 (dtf_orchestrator_file_assignments _ i 6 vss Hvss)).
    apply (class_draws_total 6 vss Hvss). }
  specialize (B1 F1). specialize (B2 F2). specialize (B3 F3). lia.
Qed.
End injected.

(** Both orchestrator renderings of one list of samples. *)
Lemma orchestrator_texts_counted (namespace class_name : string) (n : nat)
    (vss : list (list string)) :
  has_char " " namespace = false → has_char " " class_name = false →
  class_draws n vss →
  (count_assignments
     (orchestrator_class namespace class_name
        (orchestrator_methods class_name vss))
   = sum_list (length <$> vss)
   ∧ Forall2 (λ m vs, count_assignments m = length vs)
       (orchestrator_methods class_name vss) vss)
  ∧ (count_assignments (dtf_class namespace class_name (dtf_methods vss))
     = sum_list (length <$> vss)
     ∧ Forall2 (λ m vs, count_assignments m = length vs)
         (dtf_methods vss) vss).
Proof.
  intros Hns Hcls [Hlen Hvss].
  destruct (zip_with_counted (orchestrator_method class_name)
              (range (length vss)) vss) as (H1 & H2 & H3).
  { intros j vs Hvs. by apply orchestrator_method_counted. }
  { unfold range. by rewrite length_seq. }
  { done. }
  destruct (zip_with_counted dtf_method (range (length vss)) vss)
    as (D1 & D2 & D3).
  { intros j vs Hvs. by apply dtf_method_counted. }
  { unfold range. by rewrite length_seq. }
  { done. }
  split; (split; [|done]).
  - rewrite orchestrator_class_assignments; [exact H3|exact Hns|exact Hcls|].
    exact H2.
  - rewrite dtf_class_assignments; [exact D3|exact Hns|exact Hcls|].
    exact D2.
Qed.

Lemma activity_text_counted (namespace class_name : string) (n : nat) :
  has_char " " namespace = false → has_char " " class_name = false →
  count_assignments
    (activity_class namespace class_name (activity_methods class_name n)) = 0.
Proof.
  intros Hns Hcls.
  assert (Forall (λ m, count_assignments m = 0
                       ∧ overhang assignment_marker m = false)
            (activity_methods class_name n)) as Hall.
  { unfold activity_methods. apply Forall_fmap, Forall_forall.
    intros j _. by apply activity_method_counted. }
  rewrite activity_class_assignments; [|exact Hns|exact Hcls|].
  - rewrite (sum_list_fmap_same 0); [lia|].
    eapply Forall_impl; [exact Hall|]. by intros m [? _].
  - eapply Forall_impl; [exact Hall|]. by intros m [_ ?].
Qed.

(** X2.  Whatever the tape, the class text an orchestrator generator
    returns holds exactly one violation assignment per violation it drew:
    for namespace and class names without a blank there are samples, one
    bounded sample per method, such that each method text of the Azure and
    of the DTF rendering holds as many assignments as its sample has
    violations, the class text holds their sum, and that sum lies between
    [method_count] and [4 * method_count]. *)
Theorem orchestrator_holds_its_samples (namespace class_name : string)
    (method_count : nat) (w : world) :
  has_char " " namespace = false → has_char " " class_name = false →
  ∃ vss text dtf_text w',
    class_draws method_count vss
    ∧ generate_orchestrator namespace class_name method_count w = Ok text w'
    ∧ generate_dtf_orchestrator namespace class_name method_count w
      = Ok dtf_text w'
    ∧ text = orchestrator_class namespace class_name
               (orchestrator_methods class_name vss)
    ∧ dtf_text = dtf_class namespace class_name (dtf_methods vss)
    ∧ Forall2 (λ m vs, count_assignments m = length vs)
        (orchestrator_methods class_name vss) vss
    ∧ Forall2 (λ m vs, count_assignments m = length vs) (dtf_methods vss) vss
    ∧ count_assignments text = sum_list (length <$> vss)
    ∧ count_assignments dtf_text = sum_list (length <$> vss)
    ∧ method_count ≤ sum_list (length <$> vss) ≤ 4 * method_count.
Proof.
  intros Hns Hcls. destruct w as [t f o].
  destruct (orchestrators_run method_count t)
    as (vss & t' & Hlen & Hall & Hrun).
  destruct (Hrun namespace class_name f o) as [Haz Hdtf].
  assert (class_draws method_count vss) as Hdraws by done.
  destruct (orchestrator_texts_counted namespace class_name method_count vss
              Hns Hcls Hdraws) as [[A1 A2] [D1 D2]].
  eexists vss, _, _, (World t' f o).
  split; [exact Hdraws|]. split; [exact Haz|]. split; [exact Hdtf|].
  split; [reflexivity|]. split; [reflexivity|].
  split; [exact A2|]. split; [exact D2|].
  split; [exact A1|]. split; [exact D1|].
  exact (class_draws_total method_count vss Hdraws).
Qed.

(** X2 at a concrete class of three methods. *)
Lemma orchestrator_holds_its_samples_witness :
  ∃ (vss : list (list string)) text dtf_text w',
    generate_orchestrator "Perf.Batch0" "Sample007" 3 (World [5; 3; 9] ∅ [])
    = Ok text w'
    ∧ generate_dtf_orchestrator "Perf.Batch0" "Sample007" 3
        (World [5; 3; 9] ∅ [])
      = Ok dtf_text w'
    ∧ count_assignments text = sum_list (length <$> vss)
    ∧ count_assignments dtf_text = sum_list (length <$> vss)
    ∧ 3 ≤ sum_list (length <$> vss) ≤ 4 * 3.
Proof.
  destruct (orchestrator_holds_its_samples "Perf.Batch0" "Sample007" 3
              (World [5; 3; 9] ∅ []) eq_refl eq_refl)
    as (vss & text & dtf_text & w' & _ & Haz & Hdtf & _ & _ & _ & _
        & A & D & B).
  exists vss, text, dtf_text, w'.
  split; [exact Haz|]. split; [exact Hdtf|]. split; [exact A|].
  split; [exact D|exact B].
Defined.

(** X3.  An activity class holds no violation assignment: for namespace
    and class names without a blank, [generate_activity] returns a text
    without any, whatever the method count and the process state. *)
Theorem activity_holds_no_violation (namespace class_name : string)
    (method_count : nat) (w : world) :
  has_char " " namespace = false → has_char " " class_name = false →
  ∃ text,
    generate_activity namespace class_name method_count w = Ok text w
    ∧ count_assignments text = 0.
Proof.
  intros Hns Hcls. eexists. split; [apply generate_activity_run|].
  by apply activity_text_counted.
Qed.

(** X3 at a concrete class of five methods. *)
Lemma activity_holds_no_violation_witness :
  ∃ text,
    generate_activity "Perf.Activities.Batch2" "TestActivity021" 5
      (World [4; 4] ∅ [])
    = Ok text (World [4; 4] ∅ [])
    ∧ count_assignments text = 0.
Proof.
  exact (activity_holds_no_violation "Perf.Activities.Batch2"
           "TestActivity021" 5 (World [4; 4] ∅ []) eq_refl eq_refl).
Defined.

(** X4.  Every run injects between 550 and 2200 violation assignments:
    8 to 32 in each of the 50 Azure orchestrator files, 6 to 24 in each of
    the 25 DTF orchestrator files and none in the 30 activity files, read
    back from the file system the run leaves; that is 400 to 1600, 150 to
    600 and 0 per profile.  The range the run prints, 2200-2750, begins
    where the possible counts end. *)
Theorem run_injects_550_to_2200 (output_dir : string) (w : world) :
  ∃ w',
    main output_dir w = Ok tt w'
    ∧ (∀ i, i < 50 → ∃ text,
         fs w' !! path_join output_dir (azure_orchestrator_name i) = Some text
         ∧ 8 ≤ count_assignments text ≤ 32)
    ∧ (∀ i, i < 30 → ∃ text,
         fs w' !! path_join output_dir (azure_activity_name i) = Some text
         ∧ count_assignments text = 0)
    ∧ (∀ i, i < 25 → ∃ text,
         fs w' !! path_join output_dir (dtf_orchestrator_name i) = Some text
         ∧ 6 ≤ count_assignments text ≤ 24)
    ∧ 400 ≤ assignments_at (fs w')
              (path_join output_dir <$> (azure_orchestrator_name <$> range 50))
          ≤ 1600
    ∧ assignments_at (fs w')
        (path_join output_dir <$> (azure_activity_name <$> range 30)) = 0
    ∧ 150 ≤ assignments_at (fs w')
              (path_join output_dir <$> (dtf_orchestrator_name <$> range 25))
          ≤ 600
    ∧ 550 ≤ assignments_at (fs w') (path_join output_dir <$> class_names)
          ≤ 2200
    ∧ last (stdout w')
      = Some "Expected ~2200-2750 analyzer violations to process".
Proof.
  destruct (main_outcome output_dir w)
    as (az & dtf & t' & Haz & Haz' & Hdtf & Hdtf' & Hrun).
  eexists. split; [exact Hrun|]. cbn [fs stdout].
  destruct (corpus_assignments output_dir az dtf Haz Haz' Hdtf Hdtf' (fs w))
    as (E1 & E2 & E3 & E4).
  split; [|split; [|split; [|split; [|split; [|split; [|split]]]]]].
  - intros i Hi.
    destruct (azure_orchestrator_written output_dir az dtf Haz Haz' Hdtf
                (fs w) i Hi) as (vss & Hvss & Hfile).
    eexists. split; [exact Hfile|].
    rewrite (proj1 (azure_orchestrator_file_assignments _ i 8 vss Hvss)).
    exact (class_draws_total 8 vss Hvss).
  - intros i Hi. eexists. split;
      [exact (azure_activity_written output_dir az dtf Haz Hdtf (fs w) i Hi)|].
    apply azure_activity_file_assignments.
  - intros i Hi.
    destruct (dtf_orchestrator_written output_dir az dtf Haz Hdtf Hdtf'
                (fs w) i Hi) as (vss & Hvss & Hfile).
    eexists. split; [exact Hfile|].
    rewrite (proj1 (dtf_orchestrator_file_assignments _ i 6 vss Hvss)).
    exact (class_draws_total 6 vss Hvss).
  - exact E1.
  - exact E2.
  - exact E3.
  - exact E4.
  - unfold report_lines. by rewrite last_app.
Qed.

(** X4 at a concrete run: the file of the last DTF orchestrator. *)
Lemma run_injects_550_to_2200_witness :
  ∃ w' text,
    main "/repo/perf" (World [6; 0; 2] ∅ []) = Ok tt w'
    ∧ fs w' !! path_join "/repo/perf" (dtf_orchestrator_name 24) = Some text
    ∧ 6 ≤ count_assignments text ≤ 24.
Proof.
  destruct (run_injects_550_to_2200 "/repo/perf" (World [6; 0; 2] ∅ []))
    as (w' & Hrun & _ & _ & Hdtf & _).
  destruct (Hdtf 24 ltac:(lia)) as (text & Hfile & Hcount).
  exists w', text. split; [exact Hrun|]. split; [exact Hfile|exact Hcount].
Defined.

(** ** Running the generator again *)

(** Writing a list of files hides every earlier write to the same paths. *)
Lemma write_all_overwrites (files1 files2 : list (string * string))
    (f : gmap string string) :
  files1.*1 = files2.*1 → NoDup files2.*1 →
  write_all files2 (write_all files1 f) = write_all files2 f.
Proof.
  intros Hpaths Hnd. apply map_eq. intros p.
  destruct (decide (p ∈ files2.*1)) as [Hp|Hp].
  - apply list_elem_of_fmap in Hp as ([q c] & -> & Hpc). cbn [fst].
    by rewrite !(write_all_lookup files2 _ q c).
  - rewrite !write_all_lookup_other; try done. by rewrite Hpaths.
Qed.

(** X5.  A second run overwrites the first completely.  Run [main] twice
    in a row from any process state: both runs complete, the file system
    after the second run is the one the second run alone would have left
    on the original file system with the tape the first run left over, the
    set of files is that after the first run, and the two report lines are
    printed twice. *)
Theorem rerun_overwrites_corpus (output_dir : string) (w : world) :
  ∃ w1 w2 w2',
    main output_dir w = Ok tt w1
    ∧ main output_dir w1 = Ok tt w2
    ∧ main output_dir (World (rng w1) (fs w) (stdout w)) = Ok tt w2'
    ∧ fs w2 = fs w2'
    ∧ rng w2 = rng w2'
    ∧ dom (fs w2) = dom (fs w1)
    ∧ stdout w2 = stdout w ++ report_lines ++ report_lines.
Proof.
  destruct w as [t f o].
  destruct (main_run output_dir t)
    as (az1 & dtf1 & t1 & Haz1 & _ & Hdtf1 & _ & Hrun1).
  destruct (main_run output_dir t1)
    as (az2 & dtf2 & t2 & Haz2 & _ & Hdtf2 & _ & Hrun2).
  eexists _, _, _. split; [apply Hrun1|]. split; [apply Hrun2|].
  cbn [rng fs stdout]. split; [apply Hrun2|]. cbn [rng fs stdout].
  split; [|split; [done|split]].
  - apply write_all_overwrites.
    + rewrite (corpus_files_paths output_dir az1 dtf1 Haz1 Hdtf1).
      by rewrite (corpus_files_paths output_dir az2 dtf2 Haz2 Hdtf2).
    + rewrite (corpus_files_paths output_dir az2 dtf2 Haz2 Hdtf2).
      apply corpus_paths_NoDup.
  - rewrite !write_all_dom.
    rewrite (corpus_files_paths output_dir az1 dtf1 Haz1 Hdtf1).
    rewrite (corpus_files_paths output_dir az2 dtf2 Haz2 Hdtf2).
    generalize (path_join output_dir <$> corpus_names). intros paths.
    rewrite (assoc_L (∪)), (idemp_L (∪)). reflexivity.
  - generalize report_lines. intros lines. apply eq_sym, app_assoc.
Qed.

(** ** Brackets of the generated text *)

Lemma nesting_app (a b : string) (awaited : list ascii) :
  nesting (a +:+ b) awaited
  = match nesting a awaited with
    | Some awaited' => nesting b awaited'
    | None => None
    end.
Proof.
  revert awaited. induction a as [|c a IH]; intros awaited; [done|].
  change (String c a +:+ b) with (String c (a +:+ b)). cbn [nesting].
  destruct (closer c); [apply IH|].
  destruct (is_closer c); [|apply IH].
  destruct awaited as [|d awaited]; [done|].
  destruct (Ascii.eqb c d); [apply IH|done].
Qed.

(** What is awaited around a text does not change how the text nests. *)
Lemma nesting_frame (a : string) (awaited awaited' outer : list ascii) :
  nesting a awaited = Some awaited' →
  nesting a (awaited ++ outer) = Some (awaited' ++ outer).
Proof.
  revert awaited. induction a as [|c a IH]; intros awaited; cbn [nesting].
  - by intros [= ->].
  - destruct (closer c) as [d|]; [apply (IH (d :: awaited))|].
    destruct (is_closer c); [|apply IH].
    destruct awaited as [|d awaited]; [done|].
    rewrite <- app_comm_cons.
    destruct (Ascii.eqb c d); [apply IH|done].
Qed.

Lemma well_nested_frame (a : string) (awaited : list ascii) :
  well_nested a → nesting a awaited = Some awaited.
Proof. intros H. apply (nesting_frame a [] [] awaited H). Qed.

Lemma bracket_free_well_nested (s : string) :
  bracket_free s = true → well_nested s.
Proof.
  unfold bracket_free, well_nested. rewrite negb_true_iff. generalize (@nil ascii).
  induction s as [|c s IH]; intros awaited; [done|].
  cbn [has_char nesting]. rewrite !orb_false_iff.
  intros ((((([H1 H1'] & [H2 H2']) & [H3 H3']) & [H4 H4']) & [H5 H5'])
           & [H6 H6']).
  unfold closer, is_closer.
  rewrite (Ascii.eqb_sym c "("), H1, (Ascii.eqb_sym c "{"), H3,
    (Ascii.eqb_sym c "["), H5, (Ascii.eqb_sym c ")"), H2,
    (Ascii.eqb_sym c "}"), H4, (Ascii.eqb_sym c "]"), H6.
  cbn [orb]. apply IH. by rewrite H1', H2', H3', H4', H5', H6'.
Qed.

Lemma bracket_free_app (a b : string) :
  bracket_free a = true → bracket_free b = true →
  bracket_free (a +:+ b) = true.
Proof.
  unfold bracket_free. rewrite !negb_true_iff, !has_char_app, !orb_false_iff.
  intros (((((-> & ->) & ->) & ->) & ->) & ->).
  by intros (((((-> & ->) & ->) & ->) & ->) & ->).
Qed.

Lemma bracket_free_digits (n : nat) :
  bracket_free (str n) = true ∧ bracket_free (format_03d n) = true.
Proof.
  unfold bracket_free. by rewrite !has_char_str, !has_char_format_03d.
Qed.

Lemma well_nested_str (n : nat) : well_nested (str n).
Proof. apply bracket_free_well_nested, bracket_free_digits. Qed.

Lemma well_nested_app (a b : string) :
  well_nested a → well_nested b → well_nested (a +:+ b).
Proof.
  intros Ha Hb. unfold well_nested. by rewrite nesting_app, Ha.
Qed.

Lemma well_nested_join (sep : string) (xs : list string) :
  well_nested sep → Forall well_nested xs → well_nested (join sep xs).
Proof.
  intros Hsep Hxs. induction Hxs as [|x xs Hx Hxs IH]; [done|].
  destruct xs as [|y xs]; [done|].
  change (join sep (x :: y :: xs)) with (x +:+ sep +:+ join sep (y :: xs)).
  by repeat apply well_nested_app.
Qed.

(** One piece of a template: a piece known to be well nested leaves what
    is awaited as it is, a literal piece is scanned. *)
Ltac nest_piece :=
  rewrite nesting_app;
  lazymatch goal with
  | |- match nesting ?a ?st with _ => _ end = _ =>
      first
        [ rewrite (well_nested_frame a st)
            by first [ assumption | apply well_nested_str ]
        | let v := eval vm_compute in (nesting a st) in
          change (nesting a st) with v ]
  end;
  cbv beta iota.

Ltac nest_template :=
  unfold well_nested; repeat nest_piece; vm_compute; reflexivity.

Lemma temp_assignment_well_nested (j : nat) (v : string) :
  v ∈ violations → well_nested (temp_assignment j v).
Proof.
  intros Hv.
  assert (forallb (λ v, bool_decide (nesting v [] = Some [])) violations
          = true) as Hcat by (by vm_compute).
  rewrite forallb_forall in Hcat.
  apply list_elem_of_In, Hcat, bool_decide_eq_true in Hv.
  change (well_nested v) in Hv.
  unfold temp_assignment. nest_template.
Qed.

Lemma violation_code_well_nested (vs : list string) :
  vs ⊆ violations → well_nested (violation_code vs).
Proof.
  intros Hvs. unfold violation_code. apply well_nested_join; [done|].
  generalize temp_assignment, temp_assignment_well_nested. intros g Hg.
  revert g Hg. induction vs as [|v vs IH]; intros g Hg; [constructor|].
  cbn [imap]. constructor.
  - apply Hg, Hvs. left.
  - apply IH; [intros x Hx; apply Hvs; by right|].
    intros j x Hx. by apply Hg.
Qed.

Lemma orchestrator_method_well_nested (class_name : string) (i : nat)
    (code : string) :
  well_nested class_name → well_nested code →
  well_nested (orchestrator_method class_name i code).
Proof. intros Hcls Hcode. unfold orchestrator_method. nest_template. Qed.

Lemma dtf_method_well_nested (i : nat) (code : string) :
  well_nested code → well_nested (dtf_method i code).
Proof. intros Hcode. unfold dtf_method. nest_template. Qed.

Lemma activity_method_well_nested (class_name : string) (i : nat) :
  well_nested class_name → well_nested (activity_method class_name i).
Proof. intros Hcls. unfold activity_method. nest_template. Qed.

Section class_nesting.
Variables (namespace class_name : string) (methods : list string).
Hypothesis Hns : well_nested namespace.
Hypothesis Hcls : well_nested class_name.
Hypothesis Hms : Forall well_nested methods.

Lemma methods_well_nested : well_nested (join EmptyString methods).
Proof. by apply well_nested_join. Qed.

Lemma orchestrator_class_well_nested :
  well_nested (orchestrator_class namespace class_name methods).
Proof.
  pose proof methods_well_nested as Hm.
  unfold orchestrator_class. nest_template.
Qed.

Lemma activity_class_well_nested :
  well_nested (activity_class namespace class_name methods).
Proof.
  pose proof methods_well_nested as Hm.
  unfold activity_class. nest_template.
Qed.

Lemma dtf_class_well_nested :
  well_nested (dtf_class namespace class_name methods).
Proof.
  pose proof methods_well_nested as Hm.
  unfold dtf_class. nest_template.
Qed.
End class_nesting.

Lemma zip_with_well_nested (mk : nat → string → string) (idxs : list nat)
    (vss : list (list string)) :
  (∀ i code, well_nested code → well_nested (mk i code)) →
  Forall bounded_sample vss →
  Forall well_nested (zip_with (λ i vs, mk i (violation_code vs)) idxs vss).
Proof.
  intros Hmk Hall. revert idxs.
  induction Hall as [|vs vss (_ & _ & Hvs) _ IH]; intros [|i idxs];
    try constructor.
  - by apply Hmk, violation_code_well_nested.
  - apply IH.
Qed.

(** The three renderings of a class. *)
Lemma class_texts_well_nested (namespace class_name : string) (n : nat)
    (vss : list (list string)) :
  bracket_free namespace = true → bracket_free class_name = true →
  Forall bounded_sample vss →
  well_nested (orchestrator_class namespace class_name
                 (orchestrator_methods class_name vss))
  ∧ well_nested (dtf_class namespace class_name (dtf_methods vss))
  ∧ well_nested (activity_class namespace class_name
                   (activity_methods class_name n)).
Proof.
  intros Hns%bracket_free_well_nested Hcls%bracket_free_well_nested Hvss.
  split; [|split].
  - apply orchestrator_class_well_nested; [done..|].
    apply (zip_with_well_nested (orchestrator_method class_name)); [|done].
    intros i code. by apply orchestrator_method_well_nested.
  - apply dtf_class_well_nested; [done..|].
    apply (zip_with_well_nested dtf_method); [|done].
    apply dtf_method_well_nested.
  - apply activity_class_well_nested; [done..|].
    unfold activity_methods. apply Forall_fmap, Forall_forall.
    intros i _. by apply activity_method_well_nested.
Qed.

(** X6.  The class texts of all three generators are well nested in round,
    curly and square brackets: for namespace and class names without a
    bracket, any method count and any process state, each generator
    returns, and every bracket of the text it returns is closed by its own
    kind in the right order, with none left open and none closed that was
    not opened. *)
Theorem generated_classes_well_nested (namespace class_name : string)
    (method_count : nat) (w : world) :
  bracket_free namespace = true → bracket_free class_name = true →
  ∃ text dtf_text activity_text w',
    generate_orchestrator namespace class_name method_count w = Ok text w'
    ∧ generate_dtf_orchestrator namespace class_name method_count w
      = Ok dtf_text w'
    ∧ generate_activity namespace class_name method_count w
      = Ok activity_text w
    ∧ well_nested text ∧ well_nested dtf_text ∧ well_nested activity_text.
Proof.
  intros Hns Hcls. destruct w as [t f o].
  destruct (orchestrators_run method_count t)
    as (vss & t' & Hlen & Hall & Hrun).
  destruct (Hrun namespace class_name f o) as [Haz Hdtf].
  destruct (class_texts_well_nested namespace class_name method_count vss
              Hns Hcls Hall) as (N1 & N2 & N3).
  eexists _, _, _, _.
  split; [exact Haz|]. split; [exact Hdtf|].
  split; [apply generate_activity_run|].
  split; [exact N1|]. split; [exact N2|exact N3].
Qed.

(** X6 at a concrete class of three methods. *)
Lemma generated_classes_well_nested_witness :
  ∃ text dtf_text activity_text w',
    generate_orchestrator "Perf.Batch0" "Sample007" 3 (World [5; 3; 9] ∅ [])
    = Ok text w'
    ∧ generate_dtf_orchestrator "Perf.Batch0" "Sample007" 3
        (World [5; 3; 9] ∅ [])
      = Ok dtf_text w'
    ∧ generate_activity "Perf.Batch0" "Sample007" 3 (World [5; 3; 9] ∅ [])
      = Ok activity_text (World [5; 3; 9] ∅ [])
    ∧ well_nested text ∧ well_nested dtf_text ∧ well_nested activity_text.
Proof.
  exact (generated_classes_well_nested "Perf.Batch0" "Sample007" 3
           (World [5; 3; 9] ∅ []) eq_refl eq_refl).
Defined.

Lemma numbered_name_bracket_free (stem : string) (n : nat) :
  bracket_free stem = true →
  bracket_free (stem +:+ str n) = true
  ∧ bracket_free (stem +:+ format_03d n) = true.
Proof.
  intros Hstem. split; apply bracket_free_app; try done;
    apply bracket_free_digits.
Qed.

Lemma class_files_well_nested (output_dir : string) (i : nat)
    (vss : list (list string)) :
  Forall bounded_sample vss →
  well_nested (azure_orchestrator_file output_dir i vss).2
  ∧ well_nested (azure_activity_file output_dir i).2
  ∧ well_nested (dtf_orchestrator_file output_dir i vss).2.
Proof.
  intros Hvss.
  unfold azure_orchestrator_file, azure_activity_file, dtf_orchestrator_file.
  cbn [snd]. split; [|split].
  - refine (proj1 (class_texts_well_nested _ _ 0 vss _ _ Hvss)).
    + exact (proj1 (numbered_name_bracket_free "Performance.Azure.Batch"
                      (i / 10) eq_refl)).
    + exact (proj2 (numbered_name_bracket_free "TestOrchestrator" i eq_refl)).
  - refine (proj2 (proj2 (class_texts_well_nested _ _ 5 [] _ _ _))).
    + exact (proj1 (numbered_name_bracket_free
                      "Performance.Azure.Activities.Batch" (i / 10) eq_refl)).
    + exact (proj2 (numbered_name_bracket_free "TestActivity" i eq_refl)).
    + constructor.
  - refine (proj1 (proj2 (class_texts_well_nested _ _ 0 vss _ _ Hvss))).
    + exact (proj1 (numbered_name_bracket_free "Performance.DTF.Batch"
                      (i / 10) eq_refl)).
    + exact (proj2 (numbered_name_bracket_free "DtfOrchestrator" i eq_refl)).
Qed.

(** X7.  After every run each of the 105 class files holds a text that is
    well nested in round, curly and square brackets. *)
Theorem written_classes_well_nested (output_dir : string) (w : world) :
  ∃ w',
    main output_dir w = Ok tt w'
    ∧ length class_names = 105
    ∧ Forall (λ p, ∃ text, fs w' !! p = Some text ∧ well_nested text)
        (path_join output_dir <$> class_names).
Proof.
  destruct (main_outcome output_dir w)
    as (az & dtf & t' & Haz & Haz' & Hdtf & Hdtf' & Hrun).
  eexists. split; [exact Hrun|]. cbn [fs]. split; [reflexivity|].
  unfold class_names. rewrite !fmap_app, !Forall_app. split; [|split].
  - apply Forall_fmap, Forall_fmap, Forall_forall. intros i Hi.
    apply elem_of_seq in Hi.
    destruct (azure_orchestrator_written output_dir az dtf Haz Haz' Hdtf
                (fs w) i ltac:(lia)) as (vss & [_ Hvss] & Hfile).
    eexists. split; [exact Hfile|].
    exact (proj1 (class_files_well_nested output_dir i vss Hvss)).
  - apply Forall_fmap, Forall_fmap, Forall_forall. intros i Hi.
    apply elem_of_seq in Hi.
    eexists. split;
      [exact (azure_activity_written output_dir az dtf Haz Hdtf (fs w) i
                ltac:(lia))|].
    exact (proj1 (proj2 (class_files_well_nested output_dir i []
                           (Forall_nil_2 _)))).
  - apply Forall_fmap, Forall_fmap, Forall_forall. intros i Hi.
    apply elem_of_seq in Hi.
    destruct (dtf_orchestrator_written output_dir az dtf Haz Hdtf Hdtf'
                (fs w) i ltac:(lia)) as (vss & [_ Hvss] & Hfile).
    eexists. split; [exact Hfile|].
    exact (proj2 (proj2 (class_files_well_nested output_dir i vss Hvss))).
Qed.

(** ** Function names of the corpus *)

Lemma numbered_name_square_free (stem : string) (n : nat) :
  has_char "[" stem = false →
  has_char "[" (stem +:+ str n) = false
  ∧ has_char "[" (stem +:+ format_03d n) = false.
Proof.
  intros Hstem. rewrite !has_char_app, Hstem.
  by rewrite has_char_str, has_char_format_03d.
Qed.

Lemma azure_orchestrator_file_attributes (output_dir : string) (i : nat)
    (vss : list (list string)) :
  class_draws 8 vss →
  function_attributes (azure_orchestrator_file output_dir i vss).2
  = azure_orchestrator_attributes i.
Proof.
  intros [Hlen Hvss]. unfold azure_orchestrator_file. cbn [snd].
  destruct (numbered_name_square_free "Performance.Azure.Batch" (i / 10)
              eq_refl) as [Hns _].
  destruct (numbered_name_square_free "TestOrchestrator" i eq_refl)
    as [_ Hcls].
  pose proof (proj2 (batch_names_single_line "TestOrchestrator" i eq_refl))
    as Hline.
  rewrite (orchestrator_class_attributes _ _ _
    ((λ m, [attribute_line
              (("TestOrchestrator" +:+ format_03d i) +:+ "_Method" +:+ str m)])
       <$> range 8) Hns Hcls).
  - apply concat_singletons.
  - unfold orchestrator_methods. rewrite Hlen.
    apply (zip_with_attributes
             (orchestrator_method ("TestOrchestrator" +:+ format_03d i))).
    + intros m code b Hcode.
      by apply orchestrator_method_attribute.
    + unfold range. by rewrite length_seq.
    + done.
Qed.

Lemma dtf_orchestrator_file_attributes (output_dir : string) (i n : nat)
    (vss : list (list string)) :
  class_draws n vss →
  function_attributes (dtf_orchestrator_file output_dir i vss).2 = [].
Proof.
  intros [Hlen Hvss]. unfold dtf_orchestrator_file. cbn [snd].
  destruct (numbered_name_square_free "Performance.DTF.Batch" (i / 10)
              eq_refl) as [Hns _].
  destruct (numbered_name_square_free "DtfOrchestrator" i eq_refl)
    as [_ Hcls].
  rewrite (dtf_class_attributes _ _ _
             ((λ _, []) <$> range (length vss)) Hns Hcls).
  - apply concat_empties.
  - unfold dtf_methods.
    apply (zip_with_attributes dtf_method (λ _, [])).
    + intros m code b Hcode. by apply dtf_method_attribute.
    + unfold range. by rewrite length_seq.
    + done.
Qed.

Lemma azure_activity_file_attributes (output_dir : string) (i : nat) :
  function_attributes (azure_activity_file output_dir i).2
  = azure_activity_attributes i.
Proof.
  unfold azure_activity_file. cbn [snd].
  destruct (numbered_name_square_free "Performance.Azure.Activities.Batch"
              (i / 10) eq_refl) as [Hns _].
  destruct (numbered_name_square_free "TestActivity" i eq_refl) as [_ Hcls].
  pose proof (proj2 (batch_names_single_line "TestActivity" i eq_refl))
    as Hline.
  rewrite (activity_class_attributes _ _ _
    ((λ m, [attribute_line
              (("TestActivity" +:+ format_03d i) +:+ "_Activity" +:+ str m)])
       <$> range 5) Hns Hcls).
  - apply concat_singletons.
  - unfold activity_methods. apply Forall2_fmap, Forall_Forall2_diag.
    apply Forall_forall. intros m _ b.
    by apply activity_method_attribute.
Qed.

(** The attributes of a list of files, read back from the file system. *)
Lemma attributes_at_files (f : gmap string string)
    (files : list (string * string)) :
  Forall (λ pc, f !! pc.1 = Some pc.2) files →
  attributes_at f files.*1 = files ≫= λ pc, function_attributes pc.2.
Proof.
  unfold attributes_at.
  induction 1 as [|[p c] files Hpc _ IH]; [done|].
  rewrite fmap_cons, !bind_cons. cbn [fst snd] in *. by rewrite Hpc, IH.
Qed.

Lemma bind_zip_with {D E} (mk : nat → D → string * string)
    (h : string * string → list E) (g : nat → list E) (P : D → Prop)
    (idxs : list nat) (ds : list D) :
  (∀ i d, P d → h (mk i d) = g i) →
  length idxs = length ds → Forall P ds →
  zip_with mk idxs ds ≫= h = idxs ≫= g.
Proof.
  intros Hh Hlen Hall. revert idxs Hlen.
  induction Hall as [|d ds Hd _ IH]; intros [|i idxs] Hlen; try done.
  cbn [zip_with]. rewrite !bind_cons, (Hh i d Hd), IH; [done|].
  by injection Hlen.
Qed.

Section registered.
Variables (output_dir : string) (az dtf : list (list (list string))).
Hypothesis Haz : length az = 50.
Hypothesis Haz_draws : Forall (class_draws 8) az.
Hypothesis Hdtf : length dtf = 25.
Hypothesis Hdtf_draws : Forall (class_draws 6) dtf.
Variable f : gmap string string.

Lemma corpus_registered :
  let written := write_all (corpus_files output_dir az dtf) f in
  attributes_at written (path_join output_dir <$> class_names)
  = corpus_attributes
  ∧ attributes_at written
      (path_join output_dir <$> (dtf_orchestrator_name <$> range 25)) = [].
Proof.
  intros written. subst written.
  pose proof (corpus_files_written output_dir az dtf Haz Hdtf f) as Hw.
  unfold corpus_files, class_files in Hw.
  rewrite !Forall_app in Hw. destruct Hw as ((Hw1 & Hw2 & Hw3) & _).
  apply attributes_at_files in Hw1, Hw2, Hw3.
  rewrite (zip_with_fst_paths
    (λ i, path_join output_dir (azure_orchestrator_name i))
    (λ i vss, (azure_orchestrator_file output_dir i vss).2)) in Hw1
    by (by rewrite Haz).
  rewrite (zip_with_fst_paths
    (λ i, path_join output_dir (dtf_orchestrator_name i))
    (λ i vss, (dtf_orchestrator_file output_dir i vss).2)) in Hw3
    by (by rewrite Hdtf).
  rewrite <- list_fmap_compose in Hw2.
  rewrite (bind_zip_with (azure_orchestrator_file output_dir) _
             azure_orchestrator_attributes (class_draws 8)) in Hw1;
    [|intros i vss Hvss; by apply azure_orchestrator_file_attributes
     |unfold range; by rewrite length_seq, Haz|done].
  rewrite (bind_zip_with (dtf_orchestrator_file output_dir) _
             (λ _, []) (class_draws 6)) in Hw3;
    [|intros i vss Hvss; by apply (dtf_orchestrator_file_attributes _ i 6)
     |unfold range; by rewrite length_seq, Hdtf|done].
  assert ((azure_activity_file output_dir <$> range 30)
            ≫= (λ pc : string * string, function_attributes pc.2)
          = range 30 ≫= azure_activity_attributes) as E2.
  { generalize (range 30). intros idxs.
    induction idxs as [|i idxs IH]; [done|].
    rewrite fmap_cons, !bind_cons, IH.
    by rewrite azure_activity_file_attributes. }
  rewrite E2 in Hw2.
  assert (range 25 ≫= (λ _, @nil string) = []) as E3.
  { generalize (range 25). intros idxs.
    induction idxs as [|i idxs IH]; [done|]. by rewrite bind_cons, IH. }
  rewrite E3 in Hw3.
  assert (attributes_at (write_all (corpus_files output_dir az dtf) f)
    (path_join output_dir <$> (azure_orchestrator_name <$> range 50))
    = range 50 ≫= azure_orchestrator_attributes) as A1
    by (by rewrite <- list_fmap_compose).
  assert (attributes_at (write_all (corpus_files output_dir az dtf) f)
    (path_join output_dir <$> (azure_activity_name <$> range 30))
    = range 30 ≫= azure_activity_attributes) as A2
    by (by rewrite <- list_fmap_compose).
  assert (attributes_at (write_all (corpus_files output_dir az dtf) f)
    (path_join output_dir <$> (dtf_orchestrator_name <$> range 25))
    = []) as A3
    by (by rewrite <- list_fmap_compose).
  split; [|exact A3].
  unfold class_names, corpus_attributes. rewrite !fmap_app.
  unfold attributes_at in *. rewrite !bind_app, A1, A2, A3.
  by rewrite app_nil_r.
Qed.
End registered.

(** *** No name is registered twice

    An attribute line shows its profile in its sixth character and its
    class in the three digits after the class stem; within a class the
    method index tells the lines apart. *)

Lemma NoDup_fmap_inj {A B} (g : A → B) (l : list A) (x y : A) :
  NoDup (g <$> l) → x ∈ l → y ∈ l → g x = g y → x = y.
Proof.
  induction l as [|a l IH]; intros Hnd Hx Hy Hxy.
  - by apply elem_of_nil in Hx.
  - rewrite fmap_cons in Hnd. apply NoDup_cons in Hnd as [Ha Hnd].
    apply elem_of_cons in Hx as [->|Hx], Hy as [->|Hy]; [done| | |by apply IH].
    + destruct Ha. rewrite Hxy. by apply list_elem_of_fmap_2.
    + destruct Ha. rewrite <- Hxy. by apply list_elem_of_fmap_2.
Qed.

Lemma format_03d_inj_50 (i j : nat) :
  i ∈ range 50 → j ∈ range 50 → format_03d i = format_03d j → i = j.
Proof.
  apply NoDup_fmap_inj. refine (bool_decide_unpack _ _). by vm_compute.
Qed.

Lemma format_03d_inj_30 (i j : nat) :
  i ∈ range 30 → j ∈ range 30 → format_03d i = format_03d j → i = j.
Proof.
  apply NoDup_fmap_inj. refine (bool_decide_unpack _ _). by vm_compute.
Qed.

Lemma class_attributes_NoDup (class_name suffix : string) (idxs : list nat) :
  NoDup ((λ m, str m +:+ dq +:+ ")]") <$> idxs) →
  NoDup ((λ m, attribute_line (class_name +:+ suffix +:+ str m)) <$> idxs).
Proof.
  intros Hnd.
  assert (∀ m, attribute_line (class_name +:+ suffix +:+ str m)
               = (dq +:+ class_name +:+ suffix)
                 +:+ (str m +:+ dq +:+ ")]")) as Hshape.
  { intros m. unfold attribute_line. by rewrite !append_assoc. }
  apply NoDup_fmap_2_strong; [|by apply NoDup_fmap_1 in Hnd].
  intros m1 m2 H1 H2. rewrite !Hshape. intros Heq%append_inj_l.
  by apply (NoDup_fmap_inj _ idxs m1 m2 Hnd).
Qed.

Lemma azure_orchestrator_attribute_key (i : nat) (line : string) :
  i ∈ range 50 → line ∈ azure_orchestrator_attributes i →
  String.get 5 line = Some "O"%char
  ∧ String.substring 17 3 line = format_03d i.
Proof.
  intros Hi (m & -> & _)%list_elem_of_fmap. apply elem_of_seq in Hi.
  split; [by vm_compute|].
  do 50 (destruct i as [|i]; [by vm_compute|]). lia.
Qed.

Lemma azure_activity_attribute_key (i : nat) (line : string) :
  i ∈ range 30 → line ∈ azure_activity_attributes i →
  String.get 5 line = Some "A"%char
  ∧ String.substring 13 3 line = format_03d i.
Proof.
  intros Hi (m & -> & _)%list_elem_of_fmap. apply elem_of_seq in Hi.
  split; [by vm_compute|].
  do 30 (destruct i as [|i]; [by vm_compute|]). lia.
Qed.

Lemma corpus_attributes_NoDup : NoDup corpus_attributes.
Proof.
  unfold corpus_attributes. apply NoDup_app. split; [|split].
  - apply NoDup_bind; [| |apply NoDup_seq].
    + intros i j line Hi Hj Hli Hlj.
      destruct (azure_orchestrator_attribute_key i line Hi Hli) as [_ Hkey].
      destruct (azure_orchestrator_attribute_key j line Hj Hlj) as [_ Hkey'].
      apply format_03d_inj_50; [done..|]. by rewrite <- Hkey, <- Hkey'.
    + intros i _. unfold azure_orchestrator_attributes.
      apply (class_attributes_NoDup _ "_Method").
      refine (bool_decide_unpack _ _). by vm_compute.
  - intros line (i & Hli & Hi)%list_elem_of_bind
      (j & Hlj & Hj)%list_elem_of_bind.
    destruct (azure_orchestrator_attribute_key i line Hi Hli) as [Hkey _].
    destruct (azure_activity_attribute_key j line Hj Hlj) as [Hkey' _].
    congruence.
  - apply NoDup_bind; [| |apply NoDup_seq].
    + intros i j line Hi Hj Hli Hlj.
      destruct (azure_activity_attribute_key i line Hi Hli) as [_ Hkey].
      destruct (azure_activity_attribute_key j line Hj Hlj) as [_ Hkey'].
      apply format_03d_inj_30; [done..|]. by rewrite <- Hkey, <- Hkey'.
    + intros i _. unfold azure_activity_attributes.
      apply (class_attributes_NoDup _ "_Activity").
      refine (bool_decide_unpack _ _). by vm_compute.
Qed.

(** X8.  The [FunctionName] attributes of the corpus are the same in every
    run and pairwise distinct: read back from the 105 class files in the
    order [main] writes them, they are the 400 names
    [TestOrchestrator<iii>_Method<m>] followed by the 150 names
    [TestActivity<iii>_Activity<m>], each once; the DTF orchestrator files
    hold none. *)
Theorem function_names_fixed_and_distinct (output_dir : string) (w : world) :
  ∃ w',
    main output_dir w = Ok tt w'
    ∧ attributes_at (fs w') (path_join output_dir <$> class_names)
      = corpus_attributes
    ∧ attributes_at (fs w')
        (path_join output_dir <$> (dtf_orchestrator_name <$> range 25)) = []
    ∧ length corpus_attributes = 50 * 8 + 30 * 5
    ∧ NoDup corpus_attributes
    ∧ corpus_attributes !! 0
      = Some (attribute_line "TestOrchestrator000_Method0")
    ∧ corpus_attributes !! 399
      = Some (attribute_line "TestOrchestrator049_Method7")
    ∧ corpus_attributes !! 400
      = Some (attribute_line "TestActivity000_Activity0")
    ∧ last corpus_attributes
      = Some (attribute_line "TestActivity029_Activity4").
Proof.
  destruct (main_outcome output_dir w)
    as (az & dtf & t' & Haz & Haz' & Hdtf & Hdtf' & Hrun).
  eexists. split; [exact Hrun|]. cbn [fs].
  destruct (corpus_registered output_dir az dtf Haz Haz' Hdtf Hdtf' (fs w))
    as [E1 E2].
  split; [exact E1|]. split; [exact E2|].
  split; [by vm_compute|]. split; [apply corpus_attributes_NoDup|].
  split; [by vm_compute|]. split; [by vm_compute|].
  split; by vm_compute.
Qed.
